(** * NFCPaySys: the offline-first data layer (api.js, api-settings.js, formatters.js)

    A shallow embedding of the connectivity policy, the local cache store,
    the customer repository and the transaction repository with its sync
    engine, followed by the properties the specification states about them.

    Conventions of the embedding.
    - A JavaScript number is an exact rational ([Q]) in the data layer:
      binary64 rounding is outside that model.  The two conversions between
      amounts and cents are given a second time on binary64 numbers.
      Integers (HTTP statuses, epoch milliseconds, counters) are in [Z].
    - A dynamically typed property holds a primitive [value]; the properties
      of the customer and transaction objects that the code reads or writes
      are record fields.  An absent property is [VUndefined].  A card id is
      a string or absent, a balance is a number, as their documentation
      comments type them.
    - AsyncStorage is a record of typed entries ([None]: the key is
      absent).  Its operations succeed, and [JSON.parse (JSON.stringify x)]
      is the identity.  The object used as the card-id index is a finite
      map from strings; the properties an object inherits from its
      prototype are not modelled.
    - An [async] function is a computation in a state-and-exception monad
      over the [World]: the module variable [offlineMode], the storage, the
      log of [fetch] calls and of storage writes, and the environment
      (network, clock, random source).  The network answers a request
      knowing the requests made before it, so the same request can be
      answered differently later.
    - A call the source does not await ([this.cacheOfflineCustomer(customer)]
      in the online paths) is started, not run: the caller goes on, and
      returns, while the put is in flight.  The world keeps the puts in
      flight; [cacheOfflineCustomer] is executed await by await by a step
      function, which runs a put in flight to its end or interleaves two. *)

From Stdlib Require Import ZArith QArith Qround Qabs Ascii String Lia Lqa.
From Stdlib Require Floats.
From stdpp Require Import gmap strings list pretty.

Local Open Scope Z_scope.

(** ** JavaScript primitive values *)

Inductive value :=
| VUndefined
| VNull
| VBool (b : bool)
| VNum (q : Q)
| VStr (s : string).

(** [if (v)], [!v], [a && b]: ToBoolean. *)
Definition truthy (v : value) : bool :=
  match v with
  | VUndefined | VNull => false
  | VBool b => b
  | VNum q => negb (Qeq_bool q 0)
  | VStr s => negb (String.eqb s "")
  end.

(** [a === b] *)
Definition strict_eq (a b : value) : bool :=
  match a, b with
  | VUndefined, VUndefined => true
  | VNull, VNull => true
  | VBool x, VBool y => Bool.eqb x y
  | VNum x, VNum y => Qeq_bool x y
  | VStr x, VStr y => String.eqb x y
  | _, _ => false
  end.

(** [typeof v === 'number'] *)
Definition is_number (v : value) : bool :=
  match v with VNum _ => true | _ => false end.

(** ** formatters.js *)

(** [Math.round]: the nearest integer, a tie going towards +infinity. *)
Definition Math_round (x : Q) : Z := Qfloor (x + (1 # 2)).

(** [Math.floor] *)
Definition Math_floor (x : Q) : Z := Qfloor x.

(** [parseFloat(x.toFixed(2))]: [toFixed] prints the sign and then the
    magnitude rounded to two decimals, the larger candidate on a tie. *)
Definition toFixed2 (x : Q) : Q :=
  if Qle_bool 0 x
  then Qred (inject_Z (Qfloor (x * 100 + (1 # 2))) / 100)
  else Qred (- (inject_Z (Qfloor (- x * 100 + (1 # 2))) / 100)).

Definition centsToAmount (cents : value) : Q :=
  match cents with
  | VNum c => toFixed2 (c / 100)
  | _ => 0
  end.

Definition amountToCents (amount : value) : Q :=
  match amount with
  | VNum a => inject_Z (Math_round (a * 100))
  | _ => 0
  end.

(** [/\s/] on an ASCII string: space, tab, line feed, vertical tab, form
    feed, carriage return. *)
Definition is_space (c : ascii) : bool :=
  let n := nat_of_ascii c in
  (n =? 32)%nat || ((9 <=? n)%nat && (n <=? 13)%nat).

(** [toUpperCase] on an ASCII character. *)
Definition upper_ascii (c : ascii) : ascii :=
  let n := nat_of_ascii c in
  if ((97 <=? n)%nat && (n <=? 122)%nat) then ascii_of_nat (n - 32) else c.

Fixpoint strip_spaces_upper (s : string) : string :=
  match s with
  | EmptyString => EmptyString
  | String c r =>
      if is_space c then strip_spaces_upper r
      else String (upper_ascii c) (strip_spaces_upper r)
  end.

(** [cardId.replace(/\s+/g, '').toUpperCase()], [''] for a falsy argument
    (the empty string is the only falsy string). *)
Definition normalizeCardId (cardId : string) : string :=
  if String.eqb cardId "" then "" else strip_spaces_upper cardId.

Definition prepareCardIdForApi (cardId : string) : string :=
  let normalized := normalizeCardId cardId in
  normalized.

(** ** The data model *)

(** A customer object.  [id] is whatever the server assigned (a number or a
    string); [cardId] is a string or absent; [balance] is a number of
    cents. *)
Record Customer := {
  id : value;
  cardId : option string;
  name : value;
  email : value;
  phone : value;
  photoUrl : value;
  balance : Q;
  customerCreatedAt : value;
}.

(** [customer.balance += amountInCents] *)
Definition add_balance (c : Customer) (amountInCents : Q) : Customer :=
  {| id := id c; cardId := cardId c; name := name c; email := email c;
     phone := phone c; photoUrl := photoUrl c;
     balance := Qred (balance c + amountInCents);
     customerCreatedAt := customerCreatedAt c |}.

(** A line item of a transaction. *)
Record Item := {
  description : value;
  quantity : value;
  unitPrice : value;
  itemAmount : value;
}.

(** A transaction object: the argument of [create], an element of the
    cached queue, a body sent to or received from the server. *)
Record Transaction := {
  transactionId : value;
  customerId : value;
  txCardId : value;
  type : value;
  amount : value;
  items : option (list Item);
  status : value;
  offlineCreated : value;
  synced : value;
  syncError : value;
  createdAt : value;
}.

Definition set_amount (v : value) (t : Transaction) : Transaction :=
  {| transactionId := transactionId t; customerId := customerId t;
     txCardId := txCardId t; type := type t; amount := v; items := items t;
     status := status t; offlineCreated := offlineCreated t;
     synced := synced t; syncError := syncError t; createdAt := createdAt t |}.

Definition set_items (l : option (list Item)) (t : Transaction) : Transaction :=
  {| transactionId := transactionId t; customerId := customerId t;
     txCardId := txCardId t; type := type t; amount := amount t; items := l;
     status := status t; offlineCreated := offlineCreated t;
     synced := synced t; syncError := syncError t; createdAt := createdAt t |}.

Definition set_status (v : value) (t : Transaction) : Transaction :=
  {| transactionId := transactionId t; customerId := customerId t;
     txCardId := txCardId t; type := type t; amount := amount t;
     items := items t; status := v; offlineCreated := offlineCreated t;
     synced := synced t; syncError := syncError t; createdAt := createdAt t |}.

Definition set_offlineCreated (v : value) (t : Transaction) : Transaction :=
  {| transactionId := transactionId t; customerId := customerId t;
     txCardId := txCardId t; type := type t; amount := amount t;
     items := items t; status := status t; offlineCreated := v;
     synced := synced t; syncError := syncError t; createdAt := createdAt t |}.

Definition set_synced (v : value) (t : Transaction) : Transaction :=
  {| transactionId := transactionId t; customerId := customerId t;
     txCardId := txCardId t; type := type t; amount := amount t;
     items := items t; status := status t; offlineCreated := offlineCreated t;
     synced := v; syncError := syncError t; createdAt := createdAt t |}.

Definition set_syncError (v : value) (t : Transaction) : Transaction :=
  {| transactionId := transactionId t; customerId := customerId t;
     txCardId := txCardId t; type := type t; amount := amount t;
     items := items t; status := status t; offlineCreated := offlineCreated t;
     synced := synced t; syncError := v; createdAt := createdAt t |}.

(** [{ ...data, transactionId, status: 'pending', offlineCreated: true,
      createdAt }] *)
Definition stamp_offline (tmpId created : string) (data : Transaction) : Transaction :=
  {| transactionId := VStr tmpId; customerId := customerId data;
     txCardId := txCardId data; type := type data; amount := amount data;
     items := items data; status := VStr "pending";
     offlineCreated := VBool true; synced := synced data;
     syncError := syncError data; createdAt := VStr created |}.

(** The sync summary [{ success, failed, total }]. *)
Record SyncResults := {
  success : Z;
  failed : Z;
  total : Z;
}.

(** ** [cacheOfflineCustomer], await by await

    Between two [await]s the function runs without interruption; at an
    [await] another pending call may run.  A task is the continuation of one
    call: the storage operation it is about to perform and the locals it
    holds.  *)

Inductive CacheTask :=
| ReadCustomers (customer : Customer)
    (* at [await AsyncStorage.getItem(OFFLINE_CUSTOMERS_KEY)] *)
| WriteCustomers (customer : Customer) (customers : list Customer)
    (* at [await AsyncStorage.setItem(OFFLINE_CUSTOMERS_KEY, ...)] *)
| ReadCardIndex (customer : Customer) (card : string)
    (* at [await AsyncStorage.getItem(OFFLINE_CUSTOMERS_BY_CARD_KEY)] *)
| WriteCardIndex (cardIndex : gmap string Customer)
    (* at [await AsyncStorage.setItem(OFFLINE_CUSTOMERS_BY_CARD_KEY, ...)] *)
| Settled.

(** ** The world: storage, network, clock, random source *)

(** The AsyncStorage keys the data layer uses. *)
Inductive Key :=
| API_URL_KEY
| OFFLINE_MODE_KEY
| OFFLINE_TRANSACTIONS_KEY
| OFFLINE_CUSTOMERS_KEY
| OFFLINE_CUSTOMERS_BY_CARD_KEY.

Record Storage := {
  api_url : option string;
  offline_mode : option string;
  offline_transactions : option (list Transaction);
  offline_customers : option (list Customer);
  offline_customers_by_card : option (gmap string Customer);
}.

(** The calls the data layer makes with [fetch], by endpoint (paths are
    relative to the base URL). *)
Inductive Request :=
| GetHealth (base : string) (abortAfterMs : Z)
    (* GET /health, aborted by the controller after the delay *)
| GetCustomerByCard (base : string) (card : string)
    (* GET /customers/card/{cardId} *)
| PostCustomer (base : string) (customerData : Customer)
    (* POST /customers *)
| PostBalance (base : string) (customer : value) (amountInCents : Q)
    (* POST /customers/{id}/balance, body {amount} *)
| PostTransaction (base : string) (processedData : Transaction)
    (* POST /transactions *)
| PostSync (base : string) (syncData : Transaction)
    (* POST /transactions/sync *).

(** What [response.json()] yields, read at the type the caller expects. *)
Inductive Json (A : Type) :=
| JsonFails            (* the body is not JSON: the promise rejects *)
| JsonNull             (* the body is the literal null *)
| JsonObject (a : A).
Arguments JsonFails {A}.
Arguments JsonNull {A}.
Arguments JsonObject {A} a.

Record Response := {
  http_status : Z;
  json_customer : option Customer;   (* [None]: [json()] rejects *)
  json_transaction : Json Transaction;
  body_text : string;
}.

(** [response.ok] *)
Definition ok (r : Response) : bool :=
  (200 <=? http_status r) && (http_status r <=? 299).

Inductive FetchOutcome :=
| Rejected (message : string)      (* network failure, or the abort fired *)
| Responded (r : Response).

(** The environment answers a request knowing the requests made before it;
    the n-th reading of the clock and the n-th random draw are given. *)
Record Env := {
  net : list Request -> Request -> FetchOutcome;
  clock : nat -> Z;                 (* [Date.now()], epoch milliseconds *)
  toISOString : Z -> string;        (* [new Date(ms).toISOString()] *)
  random : nat -> Q;                (* [Math.random()] *)
}.

Record World := {
  env : Env;
  offlineMode : bool;               (* [let offlineMode] of api.js *)
  storage : Storage;
  requests : list Request;          (* the fetch calls made, oldest first *)
  writes : list Key;                (* the [setItem] calls made, oldest first *)
  clock_reads : nat;
  random_draws : nat;
  in_flight : list CacheTask;       (* the puts started and not awaited *)
}.

(** What a [throw] carries. *)
Inductive Exception :=
| Error (message : string)          (* [new Error(message)] *)
| CustomerNotFound (customer : value)
    (* [new Error(`Customer ${customerId} not found in offline cache`)] *)
| FetchError (message : string)     (* the rejection of [fetch] *)
| JsonError.                        (* the rejection of [response.json()] *)

Inductive Outcome (A : Type) :=
| Return (a : A)
| Throw (e : Exception).
Arguments Return {A} a.
Arguments Throw {A} e.

(** An [async] function body: it runs on a world and leaves a world, also
    when it throws. *)
Definition M (A : Type) : Type := World -> Outcome A * World.

Definition ret {A} (a : A) : M A := fun w => (Return a, w).

Definition throw {A} (e : Exception) : M A := fun w => (Throw e, w).

Definition bind {A B} (m : M A) (k : A -> M B) : M B :=
  fun w =>
    match m w with
    | (Return a, w') => k a w'
    | (Throw e, w') => (Throw e, w')
    end.

(** [try { m } catch (error) { handler(error) }] *)
Definition try_catch {A} (m : M A) (handler : Exception -> M A) : M A :=
  fun w =>
    match m w with
    | (Return a, w') => (Return a, w')
    | (Throw e, w') => handler e w'
    end.

Notation "x <- m ;; k" := (bind m (fun x => k))
  (at level 100, m at next level, right associativity).
Notation "m ;;; k" := (bind m (fun _ => k))
  (at level 100, right associativity).

(** ** Primitive effects *)

Definition set_storage (s : Storage) (k : Key) (w : World) : World :=
  {| env := env w; offlineMode := offlineMode w; storage := s;
     requests := requests w; writes := writes w ++ [k];
     clock_reads := clock_reads w; random_draws := random_draws w;
     in_flight := in_flight w |}.

(** [await AsyncStorage.getItem(KEY)] followed by the source's
    [str ? JSON.parse(str) : default]. *)
Definition getApiUrlItem : M (option string) :=
  fun w => (Return (api_url (storage w)), w).

Definition getTransactionsItem : M (list Transaction) :=
  fun w => (Return (default [] (offline_transactions (storage w))), w).

Definition getCustomersItem : M (list Customer) :=
  fun w => (Return (default [] (offline_customers (storage w))), w).

Definition getCardIndexItem : M (gmap string Customer) :=
  fun w => (Return (default ∅ (offline_customers_by_card (storage w))), w).

(** [await AsyncStorage.setItem(KEY, JSON.stringify(x))] *)
Definition setOfflineModeItem (v : string) : M unit :=
  fun w =>
    let s := storage w in
    (Return tt,
     set_storage {| api_url := api_url s; offline_mode := Some v;
                    offline_transactions := offline_transactions s;
                    offline_customers := offline_customers s;
                    offline_customers_by_card := offline_customers_by_card s |}
                 OFFLINE_MODE_KEY w).

Definition setTransactionsItem (l : list Transaction) : M unit :=
  fun w =>
    let s := storage w in
    (Return tt,
     set_storage {| api_url := api_url s; offline_mode := offline_mode s;
                    offline_transactions := Some l;
                    offline_customers := offline_customers s;
                    offline_customers_by_card := offline_customers_by_card s |}
                 OFFLINE_TRANSACTIONS_KEY w).

Definition setCustomersItem (l : list Customer) : M unit :=
  fun w =>
    let s := storage w in
    (Return tt,
     set_storage {| api_url := api_url s; offline_mode := offline_mode s;
                    offline_transactions := offline_transactions s;
                    offline_customers := Some l;
                    offline_customers_by_card := offline_customers_by_card s |}
                 OFFLINE_CUSTOMERS_KEY w).

Definition setCardIndexItem (m : gmap string Customer) : M unit :=
  fun w =>
    let s := storage w in
    (Return tt,
     set_storage {| api_url := api_url s; offline_mode := offline_mode s;
                    offline_transactions := offline_transactions s;
                    offline_customers := offline_customers s;
                    offline_customers_by_card := Some m |}
                 OFFLINE_CUSTOMERS_BY_CARD_KEY w).

(** [await fetch(...)]: the call is recorded, the environment answers; a
    rejection is thrown. *)
Definition fetch (rq : Request) : M Response :=
  fun w =>
    let w' := {| env := env w; offlineMode := offlineMode w;
                 storage := storage w; requests := requests w ++ [rq];
                 writes := writes w; clock_reads := clock_reads w;
                 random_draws := random_draws w;
                 in_flight := in_flight w |} in
    match net (env w) (requests w) rq with
    | Rejected msg => (Throw (FetchError msg), w')
    | Responded r => (Return r, w')
    end.

(** [Date.now()], [new Date()] *)
Definition Date_now : M Z :=
  fun w =>
    (Return (clock (env w) (clock_reads w)),
     {| env := env w; offlineMode := offlineMode w; storage := storage w;
        requests := requests w; writes := writes w;
        clock_reads := S (clock_reads w); random_draws := random_draws w;
        in_flight := in_flight w |}).

(** [new Date().toISOString()] *)
Definition new_Date_toISOString : M string :=
  ms <- Date_now ;;
  fun w => (Return (toISOString (env w) ms), w).

(** [Math.random()] *)
Definition Math_random : M Q :=
  fun w =>
    (Return (random (env w) (random_draws w)),
     {| env := env w; offlineMode := offlineMode w; storage := storage w;
        requests := requests w; writes := writes w;
        clock_reads := clock_reads w; random_draws := S (random_draws w);
        in_flight := in_flight w |}).

(** A call of [cacheOfflineCustomer] that is not awaited: it runs up to its
    first [await], the read of the customer collection, and stays in flight. *)
Definition start (t : CacheTask) : M unit :=
  fun w =>
    (Return tt,
     {| env := env w; offlineMode := offlineMode w; storage := storage w;
        requests := requests w; writes := writes w;
        clock_reads := clock_reads w; random_draws := random_draws w;
        in_flight := in_flight w ++ [t] |}).

(** [response.json()] read as a customer, as a transaction. *)
Definition customer_json (r : Response) : M Customer :=
  match json_customer r with
  | Some c => ret c
  | None => throw JsonError
  end.

Definition transaction_json (r : Response) : M (option Transaction) :=
  match json_transaction r with
  | JsonObject t => ret (Some t)
  | JsonNull => ret None
  | JsonFails => throw JsonError
  end.

(** ** api-settings.js *)

Definition DEFAULT_API_URL : string := "http://10.0.2.2:5000/api".

(** The storage read is inside a [try] whose handler returns the default. *)
Definition getApiUrl : M string :=
  try_catch
    (url <- getApiUrlItem ;;
     match url with
     | Some u => if negb (String.eqb u "") then ret u else ret DEFAULT_API_URL
     | None => ret DEFAULT_API_URL
     end)
    (fun _ => ret DEFAULT_API_URL).

(** ** api.js: the connectivity policy *)

Definition setOfflineMode (v : bool) : M unit :=
  fun w =>
    setOfflineModeItem (if v then "true" else "false")
      {| env := env w; offlineMode := v; storage := storage w;
         requests := requests w; writes := writes w;
         clock_reads := clock_reads w; random_draws := random_draws w;
         in_flight := in_flight w |}.

Definition isOfflineMode (w : World) : bool := offlineMode w.

Definition shouldOperateOffline : M bool :=
  fun w =>
    if offlineMode w then ret true w
    else
      try_catch
        (apiUrl <- getApiUrl ;;
         response <- fetch (GetHealth apiUrl 3000) ;;
         ret (negb (ok response)))
        (fun _ => ret true) w.

(** ** api.js: the customer repository *)

(** [error.message].  The text of a JSON syntax error and the rendering of
    the customer id in the not-found message are the engine's; the data
    layer never reads them. *)
Definition message (e : Exception) : string :=
  match e with
  | Error m => m
  | FetchError m => m
  | JsonError => "JSON Parse error"
  | CustomerNotFound _ => "Customer not found in offline cache"
  end.

(** [l.findIndex(p)], [None] for -1. *)
Fixpoint findIndex {A} (p : A -> bool) (l : list A) : option nat :=
  match l with
  | [] => None
  | x :: r => if p x then Some 0%nat else S <$> findIndex p r
  end.

(** The first half of [cacheOfflineCustomer]: replace the first cached
    customer with the same id, or push. *)
Definition upsert (customer : Customer) (customers : list Customer) : list Customer :=
  match findIndex (fun c => strict_eq (id c) (id customer)) customers with
  | Some index => <[index := customer]> customers
  | None => customers ++ [customer]
  end.

Module customerAPI.

(** Every statement is inside a [try] whose handler only logs. *)
Definition cacheOfflineCustomer (customer : Customer) : M unit :=
  try_catch
    (customers <- getCustomersItem ;;
     setCustomersItem (upsert customer customers) ;;;
     match cardId customer with
     | Some card =>
         if negb (String.eqb card "") then
           cardIndex <- getCardIndexItem ;;
           setCardIndexItem (<[card := customer]> cardIndex)
         else ret tt
     | None => ret tt
     end)
    (fun _ => ret tt).

(** [cardIndex[cardId] || null] *)
Definition getOfflineCustomerByCardId (card : string) : M (option Customer) :=
  try_catch
    (cardIndex <- getCardIndexItem ;;
     ret (cardIndex !! card))
    (fun _ => ret None).

(** [customers.find(c => c.id === id) || null] *)
Definition getOfflineCustomerById (i : value) : M (option Customer) :=
  try_catch
    (customers <- getCustomersItem ;;
     ret (List.find (fun c => strict_eq (id c) i) customers))
    (fun _ => ret None).

Definition updateOfflineBalance (customer_id : value) (amount : Q) : M Customer :=
  try_catch
    (found <- getOfflineCustomerById customer_id ;;
     match found with
     | None => throw (CustomerNotFound customer_id)
     | Some customer =>
         let amountInCents := amountToCents (VNum amount) in
         let customer := add_balance customer amountInCents in
         cacheOfflineCustomer customer ;;;
         ret customer
     end)
    (fun error => throw error).

Definition getByCardId (card : string) : M (option Customer) :=
  offline <- shouldOperateOffline ;;
  if offline : bool then getOfflineCustomerByCardId card
  else
    try_catch
      (apiUrl <- getApiUrl ;;
       response <- fetch (GetCustomerByCard apiUrl card) ;;
       if negb (ok response)
       then throw (Error ("Failed to get customer: " +:+ pretty (http_status response)))
       else
         customer <- customer_json response ;;
         start (ReadCustomers customer) ;;;   (* [this.cacheOfflineCustomer(customer)] *)
         ret (Some customer))
      (fun _ => getOfflineCustomerByCardId card).

Definition register (customerData : Customer) : M Customer :=
  offline <- shouldOperateOffline ;;
  if offline : bool
  then throw (Error "Cannot register new customers in offline mode")
  else
    try_catch
      (apiUrl <- getApiUrl ;;
       response <- fetch (PostCustomer apiUrl customerData) ;;
       if negb (ok response)
       then throw (Error ("Failed to register customer: " +:+ pretty (http_status response)))
       else
         customer <- customer_json response ;;
         start (ReadCustomers customer) ;;;   (* [this.cacheOfflineCustomer(customer)] *)
         ret customer)
      (fun error => throw error).

Definition updateBalance (customer_id : value) (amount : Q) : M Customer :=
  offline <- shouldOperateOffline ;;
  if offline : bool then updateOfflineBalance customer_id amount
  else
    try_catch
      (apiUrl <- getApiUrl ;;
       let amountInCents := amountToCents (VNum amount) in
       response <- fetch (PostBalance apiUrl customer_id amountInCents) ;;
       if negb (ok response)
       then throw (Error ("Failed to update balance: " +:+ pretty (http_status response)))
       else
         customer <- customer_json response ;;
         start (ReadCustomers customer) ;;;   (* [this.cacheOfflineCustomer(customer)] *)
         ret customer)
      (fun _ => updateOfflineBalance customer_id amount).

End customerAPI.

(** ** api.js: the transaction repository and the sync engine *)

(** The filter of [syncOfflineTransactions]:
    [t => t.offlineCreated && t.status === 'pending']. *)
Definition is_pending (t : Transaction) : bool :=
  truthy (offlineCreated t) && strict_eq (status t) (VStr "pending").

(** [transactions.filter(...)] returns the selected objects themselves, not
    copies: the loop below mutates elements of [transactions] through them.
    A selected object is named by its position in [transactions]. *)
Fixpoint pending_refs (from : nat) (transactions : list Transaction) : list nat :=
  match transactions with
  | [] => []
  | t :: r =>
      if is_pending t then from :: pending_refs (S from) r
      else pending_refs (S from) r
  end.

(** [typeof x === 'number' ? amountToCents(x) : x] *)
Definition to_cents (x : value) : value :=
  if is_number x then VNum (amountToCents x) else x.

Definition process_item (item : Item) : Item :=
  {| description := description item; quantity := quantity item;
     unitPrice := to_cents (unitPrice item);
     itemAmount := to_cents (itemAmount item) |}.

(** The [processedData] of [create]. *)
Definition process_data (transactionData : Transaction) : Transaction :=
  let processedData := set_amount (to_cents (amount transactionData)) transactionData in
  match items processedData with
  | Some l => set_items (Some (map process_item l)) processedData
  | None => processedData
  end.

Definition count_success (r : SyncResults) : SyncResults :=
  {| success := success r + 1; failed := failed r; total := total r |}.

Definition count_failed (r : SyncResults) : SyncResults :=
  {| success := success r; failed := failed r + 1; total := total r |}.

Module transactionAPI.

Definition createOfflineTransaction (transactionData : Transaction) : M Transaction :=
  try_catch
    (now <- Date_now ;;
     r <- Math_random ;;
     let tmpId := "offline-" +:+ pretty now +:+ "-" +:+ pretty (Math_floor (r * 1000)) in
     created <- new_Date_toISOString ;;
     let transaction := stamp_offline tmpId created transactionData in
     transactions <- getTransactionsItem ;;
     setTransactionsItem (transactions ++ [transaction]) ;;;
     ret transaction)
    (fun error => throw error).

Definition getAllOfflineTransactions : M (list Transaction) :=
  try_catch getTransactionsItem (fun _ => ret []).

(** The inner function [processTransaction] of [create]; [shouldOffline] is
    the captured result of the connectivity check. *)
Definition processTransaction (shouldOffline : bool) (transactionData : Transaction)
  : M (option Transaction) :=
  let processedData := process_data transactionData in
  if shouldOffline then
    transaction <- createOfflineTransaction processedData ;;
    ret (Some transaction)
  else
    try_catch
      (apiUrl <- getApiUrl ;;
       response <- fetch (PostTransaction apiUrl processedData) ;;
       if negb (ok response)
       then
         throw (Error ("Failed to create transaction: " +:+ pretty (http_status response)
                       +:+ " - " +:+ body_text response))
       else transaction_json response)
      (fun _ =>
         transaction <- createOfflineTransaction processedData ;;
         ret (Some transaction)).

(** The balance step of [create]: [transaction && transaction.customerId]. *)
Definition update_customer_balance (transaction : option Transaction) : M unit :=
  match transaction with
  | Some t =>
      if truthy (customerId t) then
        try_catch
          (let amount := (-1 * centsToAmount (amount t))%Q in
           customerAPI.updateBalance (customerId t) amount ;;;
           ret tt)
          (fun _ => ret tt)
      else ret tt
  | None => ret tt
  end.

Definition create (transactionData : Transaction) : M (option Transaction) :=
  shouldOffline <- shouldOperateOffline ;;
  transaction <- processTransaction shouldOffline transactionData ;;
  update_customer_balance transaction ;;;
  ret transaction.

(** The body of [for (const transaction of pendingTransactions)], on the
    array [transactions] the selected objects live in. *)
Definition sync_one (apiUrl : string) (ref : nat)
    (st : list Transaction * SyncResults) : M (list Transaction * SyncResults) :=
  let '(transactions, results) := st in
  match transactions !! ref with
  | None => ret st
  | Some transaction =>
      try_catch
        (let syncData := set_offlineCreated VUndefined transaction in
         response <- fetch (PostSync apiUrl syncData) ;;
         if negb (ok response)
         then throw (Error ("Server returned " +:+ pretty (http_status response)))
         else
           let transaction := set_status (VStr "completed") transaction in
           let transaction := set_synced (VBool true) transaction in
           ret (<[ref := transaction]> transactions, count_success results))
        (fun error =>
           let transaction := set_syncError (VStr (message error)) transaction in
           ret (<[ref := transaction]> transactions, count_failed results))
  end.

Fixpoint sync_loop (apiUrl : string) (pendingTransactions : list nat)
    (st : list Transaction * SyncResults) : M (list Transaction * SyncResults) :=
  match pendingTransactions with
  | [] => ret st
  | ref :: rest =>
      st' <- sync_one apiUrl ref st ;;
      sync_loop apiUrl rest st'
  end.

Definition syncOfflineTransactions : M SyncResults :=
  offline <- shouldOperateOffline ;;
  if offline : bool
  then throw (Error "Cannot sync transactions while in offline mode")
  else
    transactions <- getAllOfflineTransactions ;;
    let pendingTransactions := pending_refs 0 transactions in
    if (length pendingTransactions =? 0)%nat
    then ret {| success := 0; failed := 0; total := 0 |}
    else
      let results :=
        {| success := 0; failed := 0;
           total := Z.of_nat (length pendingTransactions) |} in
      apiUrl <- getApiUrl ;;
      st <- sync_loop apiUrl pendingTransactions (transactions, results) ;;
      setTransactionsItem (fst st) ;;;
      ret (snd st).

End transactionAPI.

(** ** [cacheOfflineCustomer], await by await: the steps *)

(** One storage operation and the synchronous code up to the next await. *)
Definition cache_step (t : CacheTask) (w : World) : CacheTask * World :=
  match t with
  | ReadCustomers customer =>
      match getCustomersItem w with
      | (Return customers, w') => (WriteCustomers customer (upsert customer customers), w')
      | (Throw _, w') => (Settled, w')
      end
  | WriteCustomers customer customers =>
      match setCustomersItem customers w with
      | (Return _, w') =>
          match cardId customer with
          | Some card =>
              if negb (String.eqb card "") then (ReadCardIndex customer card, w')
              else (Settled, w')
          | None => (Settled, w')
          end
      | (Throw _, w') => (Settled, w')
      end
  | ReadCardIndex customer card =>
      match getCardIndexItem w with
      | (Return cardIndex, w') => (WriteCardIndex (<[card := customer]> cardIndex), w')
      | (Throw _, w') => (Settled, w')
      end
  | WriteCardIndex cardIndex =>
      match setCardIndexItem cardIndex w with
      | (_, w') => (Settled, w')
      end
  | Settled => (Settled, w)
  end.

(** A call that nothing interrupts: at most four storage operations. *)
Definition cache_run (customer : Customer) (w : World) : World :=
  let '(t1, w1) := cache_step (ReadCustomers customer) w in
  let '(t2, w2) := cache_step t1 w1 in
  let '(t3, w3) := cache_step t2 w2 in
  let '(t4, w4) := cache_step t3 w3 in
  w4.

(** A put in flight, at whatever await it is, run to its end without
    interruption. *)
Definition run_task (t : CacheTask) (w : World) : World :=
  let '(t1, w1) := cache_step t w in
  let '(t2, w2) := cache_step t1 w1 in
  let '(t3, w3) := cache_step t2 w2 in
  let '(t4, w4) := cache_step t3 w3 in
  w4.

(** The world once the puts in flight have settled, each run to its end in
    the order they were started. *)
Definition run_in_flight (w : World) : World :=
  fold_left (fun w' t => run_task t w') (in_flight w)
    {| env := env w; offlineMode := offlineMode w; storage := storage w;
       requests := requests w; writes := writes w;
       clock_reads := clock_reads w; random_draws := random_draws w;
       in_flight := [] |}.

(** Two calls in flight; the schedule says which one performs its next
    storage operation ([true]: the first). *)
Fixpoint interleave (schedule : list bool) (a b : CacheTask) (w : World)
  : CacheTask * CacheTask * World :=
  match schedule with
  | [] => (a, b, w)
  | true :: rest => let '(a', w') := cache_step a w in interleave rest a' b w'
  | false :: rest => let '(b', w') := cache_step b w in interleave rest a b' w'
  end.

(** The card-id index as a reader sees it. *)
Definition card_index (w : World) : gmap string Customer :=
  default ∅ (offline_customers_by_card (storage w)).

Definition cached_customers (w : World) : list Customer :=
  default [] (offline_customers (storage w)).

Definition cached_transactions (w : World) : list Transaction :=
  default [] (offline_transactions (storage w)).

(** Puts that run one after the other, each to completion. *)
Fixpoint put_all (customers : list Customer) (w : World) : World :=
  match customers with
  | [] => w
  | c :: rest => put_all rest (snd (customerAPI.cacheOfflineCustomer c w))
  end.

(** ** Notions the statements use *)

(** The base URL in force: the stored one unless absent or empty. *)
Definition configured_url (w : World) : string :=
  match api_url (storage w) with
  | Some u => if String.eqb u "" then DEFAULT_API_URL else u
  | None => DEFAULT_API_URL
  end.

(** The world after one more [fetch]. *)
Definition with_request (rq : Request) (w : World) : World :=
  {| env := env w; offlineMode := offlineMode w; storage := storage w;
     requests := requests w ++ [rq]; writes := writes w;
     clock_reads := clock_reads w; random_draws := random_draws w;
     in_flight := in_flight w |}.

(** The world with one more put in flight. *)
Definition with_put (t : CacheTask) (w : World) : World :=
  {| env := env w; offlineMode := offlineMode w; storage := storage w;
     requests := requests w; writes := writes w;
     clock_reads := clock_reads w; random_draws := random_draws w;
     in_flight := in_flight w ++ [t] |}.

(** The reachability probe of the connectivity policy. *)
Definition health_probe (w : World) : Request := GetHealth (configured_url w) 3000.

(** An explicit success response: a status in 200..299. *)
Definition explicit_success (o : FetchOutcome) : Prop :=
  exists r, o = Responded r /\ 200 <= http_status r <= 299.

(** A request to a resource endpoint of the remote gateway (everything but
    the reachability probe). *)
Definition is_gateway_call (rq : Request) : bool :=
  match rq with
  | GetHealth _ _ => false
  | _ => true
  end.

(** A request that submits a transaction to the server. *)
Definition is_submission (rq : Request) : bool :=
  match rq with
  | PostTransaction _ _ | PostSync _ _ => true
  | _ => false
  end.

(** The storage after an uninterrupted put. *)
Definition put_storage (customer : Customer) (s : Storage) : Storage :=
  {| api_url := api_url s; offline_mode := offline_mode s;
     offline_transactions := offline_transactions s;
     offline_customers := Some (upsert customer (default [] (offline_customers s)));
     offline_customers_by_card :=
       match cardId customer with
       | Some card =>
           if String.eqb card "" then offline_customers_by_card s
           else Some (<[card := customer]> (default ∅ (offline_customers_by_card s)))
       | None => offline_customers_by_card s
       end |}.

Definition offline_registration_error : Exception :=
  Error "Cannot register new customers in offline mode".

Definition by_card_or_probe (card : string) (w : World) (rq : Request) : Prop :=
  rq = health_probe w \/ rq = GetCustomerByCard (configured_url w) card.

(** The temporary id [createOfflineTransaction] builds in world [w]. *)
Definition offline_id (w : World) : string :=
  "offline-" +:+ pretty (clock (env w) (clock_reads w)) +:+ "-"
  +:+ pretty (Math_floor (random (env w) (random_draws w) * 1000)).

(** The record it queues: the data stamped with the id, the pending status,
    the offline marker and the time of the second clock reading. *)
Definition offline_record (data : Transaction) (w : World) : Transaction :=
  stamp_offline (offline_id w)
    (toISOString (env w) (clock (env w) (S (clock_reads w)))) data.

Definition after_offline_create (data : Transaction) (w : World) : World :=
  {| env := env w; offlineMode := offlineMode w;
     storage :=
       {| api_url := api_url (storage w); offline_mode := offline_mode (storage w);
          offline_transactions :=
            Some (cached_transactions w ++ [offline_record data w]);
          offline_customers := offline_customers (storage w);
          offline_customers_by_card := offline_customers_by_card (storage w) |};
     requests := requests w;
     writes := writes w ++ [OFFLINE_TRANSACTIONS_KEY];
     clock_reads := S (S (clock_reads w));
     random_draws := S (random_draws w);
     in_flight := in_flight w |}.

(** What a balance update may touch: the customer entries of the cache and
    the request log, to which it adds at most its probe and the one call of
    the balance endpoint. *)
Record balance_frame (call : Request) (w w' : World) : Prop := {
  bf_env : env w' = env w;
  bf_flag : offlineMode w' = offlineMode w;
  bf_transactions : cached_transactions w' = cached_transactions w;
  bf_url : api_url (storage w') = api_url (storage w);
  bf_clock : clock_reads w' = clock_reads w;
  bf_random : random_draws w' = random_draws w;
  bf_requests :
    exists extra,
      requests w' = requests w ++ extra /\
      Forall (fun rq => rq = health_probe w \/ rq = call) extra /\
      (offlineMode w = true -> extra = []);
}.

(** The call of the balance endpoint [updateBalance] makes, if any. *)
Definition balance_call (i : value) (amount : Q) (w : World) : Request :=
  PostBalance (configured_url w) i (amountToCents (VNum amount)).

(** The offline path of [create] taken in world [w]. *)
Definition queued (data : Transaction) (w : World) : Outcome (option Transaction) * World :=
  (Return (Some (offline_record (process_data data) w)),
   after_offline_create (process_data data) w).

(** The submission [create] makes when the policy answered online. *)
Definition create_call (data : Transaction) (w : World) : Request :=
  PostTransaction (configured_url w) (process_data data).

(** The delta of the balance step: [-1 * centsToAmount(transaction.amount)]. *)
Definition debit (t : Transaction) : Q := (-1 * centsToAmount (amount t))%Q.

(** The world after the balance step of [create] for transaction [t]. *)
Definition balance_step (t : Transaction) (w : World) : World :=
  if truthy (customerId t)
  then snd (customerAPI.updateBalance (customerId t) (debit t) w)
  else w.

(** The body posted for a queued transaction: the record without its
    [offlineCreated] property. *)
Definition sync_request (apiUrl : string) (t : Transaction) : Request :=
  PostSync apiUrl (set_offlineCreated VUndefined t).

(** A per-transaction success: the fetch resolved with a 2xx status. *)
Definition accepted (o : FetchOutcome) : bool :=
  match o with
  | Responded r => ok r
  | Rejected _ => false
  end.

(** The message of a per-transaction failure. *)
Definition failure_message (o : FetchOutcome) : string :=
  match o with
  | Rejected msg => msg
  | Responded r => "Server returned " +:+ pretty (http_status r)
  end.

Definition mark_completed (t : Transaction) : Transaction :=
  set_synced (VBool true) (set_status (VStr "completed") t).

Definition mark_failed (msg : string) (t : Transaction) : Transaction :=
  set_syncError (VStr msg) t.

(** The stored record after its sync attempt was answered by [o]. *)
Definition settle_one (o : FetchOutcome) (t : Transaction) : Transaction :=
  if accepted o then mark_completed t else mark_failed (failure_message o) t.

(** The answers the environment gives to requests made one after the other,
    each knowing the ones before it. *)
Fixpoint answers (e : Env) (history : list Request) (rqs : list Request)
  : list FetchOutcome :=
  match rqs with
  | [] => []
  | rq :: rest => net e history rq :: answers e (history ++ [rq]) rest
  end.

(** The collection after a sync pass, following the specification: every
    selected transaction, in queue order, is settled by the next answer;
    the others are kept. *)
Fixpoint settle (txs : list Transaction) (outs : list FetchOutcome) : list Transaction :=
  match txs with
  | [] => []
  | t :: rest =>
      if is_pending t then
        match outs with
        | o :: outs' => settle_one o t :: settle rest outs'
        | [] => t :: settle rest []
        end
      else t :: settle rest outs
  end.

Definition count (p : FetchOutcome -> bool) (outs : list FetchOutcome) : Z :=
  Z.of_nat (length (List.filter p outs)).

Definition rejected (o : FetchOutcome) : bool := negb (accepted o).

(** The transactions a sync pass selects on the cached queue [txs]. *)
Definition selected (txs : list Transaction) : list Transaction :=
  List.filter is_pending txs.

Definition offline_sync_error : Exception :=
  Error "Cannot sync transactions while in offline mode".

(** The world after the pass: the requests are logged, the collection is
    written once. *)
Definition after_sync (txs' : list Transaction) (rqs : list Request) (w : World) : World :=
  {| env := env w; offlineMode := offlineMode w;
     storage :=
       {| api_url := api_url (storage w); offline_mode := offline_mode (storage w);
          offline_transactions := Some txs';
          offline_customers := offline_customers (storage w);
          offline_customers_by_card := offline_customers_by_card (storage w) |};
     requests := requests w ++ rqs;
     writes := writes w ++ [OFFLINE_TRANSACTIONS_KEY];
     clock_reads := clock_reads w; random_draws := random_draws w;
     in_flight := in_flight w |}.

Definition add_results (outs : list FetchOutcome) (r : SyncResults) : SyncResults :=
  {| success := success r + count accepted outs;
     failed := failed r + count rejected outs;
     total := total r |}.

Definition with_requests (rqs : list Request) (w : World) : World :=
  {| env := env w; offlineMode := offlineMode w; storage := storage w;
     requests := requests w ++ rqs; writes := writes w;
     clock_reads := clock_reads w; random_draws := random_draws w;
     in_flight := in_flight w |}.

Definition no_results : SyncResults := {| success := 0; failed := 0; total := 0 |}.

(** A property that is a boolean or absent, as the data model has
    [offlineCreated]. *)
Definition is_flag (v : value) : Prop := v = VUndefined \/ exists b, v = VBool b.

(** What the pass leaves in place of a queued record [t]: a record that
    was not selected is kept; the k-th selected record was sent after the k
    requests before it, and is completed and synced when that request was
    accepted, still pending with the failure message otherwise. *)
Definition settled_as (e : Env) (history : list Request) (apiUrl : string)
    (sel : list Transaction) (t t' : Transaction) : Prop :=
  (is_pending t = false -> t' = t) /\
  (is_pending t = true ->
   exists k o,
     sel !! k = Some t /\
     o = net e (history ++ take k (map (sync_request apiUrl) sel))
           (sync_request apiUrl t) /\
     (accepted o = true ->
      status t' = VStr "completed" /\ synced t' = VBool true) /\
     (accepted o = false ->
      status t' = VStr "pending" /\ syncError t' = VStr (failure_message o) /\
      is_pending t' = true)).

(** Two records that differ at most in [status] and [synced]. *)
Definition same_but_status_synced (t t' : Transaction) : Prop :=
  transactionId t' = transactionId t /\ customerId t' = customerId t /\
  txCardId t' = txCardId t /\ type t' = type t /\ amount t' = amount t /\
  items t' = items t /\ offlineCreated t' = offlineCreated t /\
  syncError t' = syncError t /\ createdAt t' = createdAt t.

(** Two records that differ at most in [syncError]. *)
Definition same_but_syncError (t t' : Transaction) : Prop :=
  transactionId t' = transactionId t /\ customerId t' = customerId t /\
  txCardId t' = txCardId t /\ type t' = type t /\ amount t' = amount t /\
  items t' = items t /\ status t' = status t /\
  offlineCreated t' = offlineCreated t /\ synced t' = synced t /\
  createdAt t' = createdAt t.

(** Two records that differ at most in [offlineCreated]. *)
Definition same_but_offlineCreated (t t' : Transaction) : Prop :=
  transactionId t' = transactionId t /\ customerId t' = customerId t /\
  txCardId t' = txCardId t /\ type t' = type t /\ amount t' = amount t /\
  items t' = items t /\ status t' = status t /\ synced t' = synced t /\
  syncError t' = syncError t /\ createdAt t' = createdAt t.

(** ** Sample data *)

Definition alice : Customer :=
  {| id := VNum 1; cardId := Some "04A1B2C3"; name := VStr "Alice";
     email := VUndefined; phone := VUndefined; photoUrl := VUndefined;
     balance := 5000; customerCreatedAt := VStr "2024-01-01T00:00:00.000Z" |}.

Definition bob : Customer :=
  {| id := VNum 2; cardId := Some "0BB2C3D4"; name := VStr "Bob";
     email := VUndefined; phone := VUndefined; photoUrl := VUndefined;
     balance := 120; customerCreatedAt := VStr "2024-01-02T00:00:00.000Z" |}.

(** A payment of 19.99 by Alice, as a screen would pass it to [create]. *)
Definition payment : Transaction :=
  {| transactionId := VUndefined; customerId := VNum 1;
     txCardId := VStr "04A1B2C3"; type := VStr "payment";
     amount := VNum (1999 # 100); items := None; status := VUndefined;
     offlineCreated := VUndefined; synced := VUndefined;
     syncError := VUndefined; createdAt := VUndefined |}.

Definition empty_storage : Storage :=
  {| api_url := None; offline_mode := None; offline_transactions := None;
     offline_customers := None; offline_customers_by_card := None |}.

Definition sample_env (n : list Request -> Request -> FetchOutcome) : Env :=
  {| net := n;
     clock := fun k => 1700000000000 + Z.of_nat k;
     toISOString := fun ms => "ms:" +:+ pretty ms;
     random := fun _ => 1 # 2 |}.

Definition world_of (e : Env) (flag : bool) (s : Storage) : World :=
  {| env := e; offlineMode := flag; storage := s; requests := []; writes := [];
     clock_reads := 0; random_draws := 0;
     in_flight := [] |}.

(** No network: every [fetch] rejects. *)
Definition net_down : list Request -> Request -> FetchOutcome :=
  fun _ _ => Rejected "Network request failed".

Definition plain_response (st : Z) : Response :=
  {| http_status := st; json_customer := None; json_transaction := JsonFails;
     body_text := "" |}.

(** A server that answers every request with the given status. *)
Definition net_status (st : Z) : list Request -> Request -> FetchOutcome :=
  fun _ _ => Responded (plain_response st).

Definition alice_cached : Storage :=
  {| api_url := None; offline_mode := None; offline_transactions := None;
     offline_customers := Some [alice];
     offline_customers_by_card := Some {[ "04A1B2C3" := alice ]} |}.

(** A customer registered by manual entry, the card id as it was typed. *)
Definition carol : Customer :=
  {| id := VNum 3; cardId := Some "0c 11 22 33"; name := VStr "Carol";
     email := VUndefined; phone := VUndefined; photoUrl := VUndefined;
     balance := 0; customerCreatedAt := VUndefined |}.

(** The manual offline scenario of the witnesses: the flag is set, nothing
    is cached. *)
Definition forced_offline : World := world_of (sample_env net_down) true empty_storage.

Definition offline_with_alice : World := world_of (sample_env net_down) true alice_cached.

Definition payment_queued (w : World) : Transaction :=
  offline_record (process_data payment) w.

(** The health endpoint answers 200, every resource endpoint 500. *)
Definition net_failing : list Request -> Request -> FetchOutcome :=
  fun _ rq =>
    match rq with
    | GetHealth _ _ => Responded (plain_response 200)
    | _ => Responded (plain_response 500)
    end.

Definition server_failing : World := world_of (sample_env net_failing) false empty_storage.

(** The first request is rejected; from then on the server answers 200 and
    returns Alice's record. *)
Definition net_recovering : list Request -> Request -> FetchOutcome :=
  fun history _ =>
    match history with
    | [] => Rejected "Network request failed"
    | _ =>
        Responded {| http_status := 200; json_customer := Some alice;
                     json_transaction := JsonFails; body_text := "" |}
    end.

Definition recovering : World := world_of (sample_env net_recovering) false alice_cached.

(** A queue holding the payment that was created in manual offline mode. *)
Definition payment_in_queue : Storage :=
  {| api_url := None; offline_mode := None;
     offline_transactions := Some [payment_queued forced_offline];
     offline_customers := None; offline_customers_by_card := None |}.

(** The server is reachable and accepts everything. *)
Definition server_accepting : World :=
  world_of (sample_env (net_status 200)) false payment_in_queue.

(** The server is reachable; it rejects the first sync request with status
    500 and accepts the later ones. *)
Definition net_rejecting_once : list Request -> Request -> FetchOutcome :=
  fun history rq =>
    match rq with
    | PostSync _ _ =>
        if existsb is_submission history then Responded (plain_response 200)
        else Responded (plain_response 500)
    | _ => Responded (plain_response 200)
    end.

Definition server_rejecting_once : World :=
  world_of (sample_env net_rejecting_once) false payment_in_queue.

(** ** formatters.js: the display form of a card id *)

(** [/[a-fA-F0-9]/] *)
Definition is_hex (c : ascii) : bool :=
  let n := nat_of_ascii c in
  ((48 <=? n)%nat && (n <=? 57)%nat) || ((65 <=? n)%nat && (n <=? 70)%nat)
  || ((97 <=? n)%nat && (n <=? 102)%nat).

(** [cardId.replace(/[^a-fA-F0-9]/g, '').toUpperCase()] *)
Fixpoint hex_upper (s : string) : string :=
  match s with
  | EmptyString => EmptyString
  | String c r =>
      if is_hex c then String (upper_ascii c) (hex_upper r) else hex_upper r
  end.

(** [normalized.match(/.{1,4}/g)]: the successive groups of four characters
    and the shorter last one; the empty list stands for [null].  ([.] matches
    every character a normalized id can hold.) *)
Fixpoint groups_of_four (s : string) : list string :=
  match s with
  | String a (String b (String c (String d r))) =>
      String a (String b (String c (String d EmptyString))) :: groups_of_four r
  | EmptyString => []
  | _ => [s]
  end.

(** [normalized.match(/.{1,4}/g)?.join(' ') || normalized], [''] for a falsy
    argument. *)
Definition formatCardId (cardId : string) : string :=
  if String.eqb cardId "" then ""
  else
    let normalized := hex_upper cardId in
    match groups_of_four normalized with
    | [] => normalized
    | groups =>
        let joined := String.concat " " groups in
        if negb (String.eqb joined "") then joined else normalized
    end.

(** ** api-settings.js and the module state of api.js *)

(** [await AsyncStorage.setItem(API_URL_KEY, url)] *)
Definition setApiUrlItem (url : string) : M unit :=
  fun w =>
    let s := storage w in
    (Return tt,
     set_storage {| api_url := Some url; offline_mode := offline_mode s;
                    offline_transactions := offline_transactions s;
                    offline_customers := offline_customers s;
                    offline_customers_by_card := offline_customers_by_card s |}
                 API_URL_KEY w).

Definition saveApiUrl (url : string) : M unit :=
  try_catch (setApiUrlItem url) (fun error => throw error).

(** The probe of the settings screen: the given URL, aborted after 5000 ms. *)
Definition checkApiUrl (url : string) : M bool :=
  try_catch
    (response <- fetch (GetHealth url 5000) ;;
     ret (ok response))
    (fun _ => ret false).

Definition initApiSettings : M string :=
  try_catch
    (url <- getApiUrl ;;
     ret url)
    (fun _ => ret DEFAULT_API_URL).

Definition saveAndVerifyApiUrl (url : string) : M bool :=
  try_catch
    (saveApiUrl url ;;;
     ret true)
    (fun _ => ret false).

(** [await AsyncStorage.getItem(OFFLINE_MODE_KEY)] *)
Definition getOfflineModeItem : M (option string) :=
  fun w => (Return (offline_mode (storage w)), w).

(** [offlineMode = v] *)
Definition assign_offlineMode (v : bool) : M unit :=
  fun w =>
    (Return tt,
     {| env := env w; offlineMode := v; storage := storage w;
        requests := requests w; writes := writes w;
        clock_reads := clock_reads w; random_draws := random_draws w;
        in_flight := in_flight w |}).

(** The initializer at the top of api.js:
    [offlineMode = storedOfflineMode === 'true']. *)
Definition initOfflineMode : M unit :=
  try_catch
    (storedOfflineMode <- getOfflineModeItem ;;
     assign_offlineMode
       match storedOfflineMode with
       | Some s => String.eqb s "true"
       | None => false
       end)
    (fun _ => ret tt).

(** Loading api.js in a process that finds the storage of world [w]:
    [let offlineMode = false], then the initializer. *)
Definition load_module : M unit :=
  assign_offlineMode false ;;;
  initOfflineMode.

(** ** api.js: the endpoints the repositories read

    [Request] and [Response] name the calls and the bodies of the
    operations above.  The remaining endpoints are labelled by a [Wire]: the
    request each call is logged as (and answered under), and how the text of
    a body reads at the type the caller expects ([None], [JsonFails]:
    [response.json()] rejects).  The body of a list endpoint is a list of
    records or is not read at all: a body that is JSON but not a list of
    records, which the source would store as it is, is outside the model.
    Every statement below holds for every wire. *)

Definition API_VERSION : string := "2.0.2".

(** The object the status endpoint returns. *)
Record StatusData := {
  data_version : value;
  data_serverTime : value;
}.

(** [{ online, version, serverTime }] *)
Record ApiStatus := {
  online : bool;
  version : value;
  serverTime : value;
}.

Record Wire := {
  GetStatus : string -> Request;                      (* GET /status *)
  GetCustomer : string -> value -> Request;           (* GET /customers/{id} *)
  GetCustomers : string -> Request;                   (* GET /customers *)
  GetTransaction : string -> value -> Request;        (* GET /transactions/{transactionId} *)
  GetTransactions : string -> Request;                (* GET /transactions *)
  GetTransactionsByCard : string -> value -> Request; (* GET /transactions/card/{cardId} *)
  parse_status : string -> Json StatusData;
  parse_customers : string -> option (list Customer);
  parse_transactions : string -> option (list Transaction);
}.

(** [response.json()] read as the status object, as a list. *)
Definition status_json (ep : Wire) (r : Response) : M (option StatusData) :=
  match parse_status ep (body_text r) with
  | JsonObject d => ret (Some d)
  | JsonNull => ret None
  | JsonFails => throw JsonError
  end.

Definition customers_json (ep : Wire) (r : Response) : M (list Customer) :=
  match parse_customers ep (body_text r) with
  | Some l => ret l
  | None => throw JsonError
  end.

Definition transactions_json (ep : Wire) (r : Response) : M (list Transaction) :=
  match parse_transactions ep (body_text r) with
  | Some l => ret l
  | None => throw JsonError
  end.

Definition offline_status : ApiStatus :=
  {| online := false; version := VStr API_VERSION; serverTime := VUndefined |}.

(** Reading [data.version] of [null] throws inside the [try]. *)
Definition checkApiStatus (ep : Wire) : M ApiStatus :=
  offline <- shouldOperateOffline ;;
  if offline : bool then ret offline_status
  else
    try_catch
      (apiUrl <- getApiUrl ;;
       response <- fetch (GetStatus ep apiUrl) ;;
       if negb (ok response) then ret offline_status
       else
         data <- status_json ep response ;;
         match data with
         | None => throw (Error "null is not an object")
         | Some d =>
             ret {| online := true;
                    version := if truthy (data_version d) then data_version d
                               else VStr API_VERSION;
                    serverTime := data_serverTime d |}
         end)
      (fun _ => ret offline_status).

Definition checkApiConnection (ep : Wire) : M bool :=
  try_catch
    (status <- checkApiStatus ep ;;
     ret (online status))
    (fun _ => ret false).

(** ** api.js: the read side of the customer repository *)

(** [for (const customer of customers)
       if (customer.cardId) customersByCard[customer.cardId] = customer] *)
Fixpoint index_by_card (customers : list Customer) (customersByCard : gmap string Customer)
  : gmap string Customer :=
  match customers with
  | [] => customersByCard
  | customer :: rest =>
      index_by_card rest
        match cardId customer with
        | Some card =>
            if negb (String.eqb card "") then <[card := customer]> customersByCard
            else customersByCard
        | None => customersByCard
        end
  end.

Definition customerAPI_getAllOfflineCustomers : M (list Customer) :=
  try_catch getCustomersItem (fun _ => ret []).

Definition customerAPI_getById (ep : Wire) (i : value) : M (option Customer) :=
  offline <- shouldOperateOffline ;;
  if offline : bool then customerAPI.getOfflineCustomerById i
  else
    try_catch
      (apiUrl <- getApiUrl ;;
       response <- fetch (GetCustomer ep apiUrl i) ;;
       if negb (ok response)
       then throw (Error ("Failed to get customer: " +:+ pretty (http_status response)))
       else
         customer <- customer_json response ;;
         start (ReadCustomers customer) ;;;   (* [this.cacheOfflineCustomer(customer)] *)
         ret (Some customer))
      (fun _ => customerAPI.getOfflineCustomerById i).

Definition customerAPI_getAll (ep : Wire) : M (list Customer) :=
  offline <- shouldOperateOffline ;;
  if offline : bool then customerAPI_getAllOfflineCustomers
  else
    try_catch
      (apiUrl <- getApiUrl ;;
       response <- fetch (GetCustomers ep apiUrl) ;;
       if negb (ok response)
       then throw (Error ("Failed to get customers: " +:+ pretty (http_status response)))
       else
         customers <- customers_json ep response ;;
         setCustomersItem customers ;;;
         let customersByCard := index_by_card customers ∅ in
         setCardIndexItem customersByCard ;;;
         ret customers)
      (fun _ => customerAPI_getAllOfflineCustomers).

(** ** api.js: the read side of the transaction repository *)

(** [transactions.find(t => t.transactionId === transactionId) || null] *)
Definition transactionAPI_getOfflineTransactionById (tid : value) : M (option Transaction) :=
  try_catch
    (transactions <- getTransactionsItem ;;
     ret (List.find (fun t => strict_eq (transactionId t) tid) transactions))
    (fun _ => ret None).

(** [transactions.filter(t => t.cardId === cardId)] *)
Definition transactionAPI_getOfflineTransactionsByCardId (card : value)
  : M (list Transaction) :=
  try_catch
    (transactions <- transactionAPI.getAllOfflineTransactions ;;
     ret (List.filter (fun t => strict_eq (txCardId t) card) transactions))
    (fun _ => ret []).

Definition transactionAPI_getById (ep : Wire) (tid : value) : M (option Transaction) :=
  offline <- shouldOperateOffline ;;
  if offline : bool then transactionAPI_getOfflineTransactionById tid
  else
    try_catch
      (apiUrl <- getApiUrl ;;
       response <- fetch (GetTransaction ep apiUrl tid) ;;
       if negb (ok response)
       then throw (Error ("Failed to get transaction: " +:+ pretty (http_status response)))
       else transaction_json response)
      (fun _ => transactionAPI_getOfflineTransactionById tid).

Definition transactionAPI_getAll (ep : Wire) : M (list Transaction) :=
  offline <- shouldOperateOffline ;;
  if offline : bool then transactionAPI.getAllOfflineTransactions
  else
    try_catch
      (apiUrl <- getApiUrl ;;
       response <- fetch (GetTransactions ep apiUrl) ;;
       if negb (ok response)
       then throw (Error ("Failed to get transactions: " +:+ pretty (http_status response)))
       else
         transactions <- transactions_json ep response ;;
         setTransactionsItem transactions ;;;
         ret transactions)
      (fun _ => transactionAPI.getAllOfflineTransactions).

Definition transactionAPI_getByCardId (ep : Wire) (card : value) : M (list Transaction) :=
  offline <- shouldOperateOffline ;;
  if offline : bool then transactionAPI_getOfflineTransactionsByCardId card
  else
    try_catch
      (apiUrl <- getApiUrl ;;
       response <- fetch (GetTransactionsByCard ep apiUrl card) ;;
       if negb (ok response)
       then
         throw (Error ("Failed to get transactions for card: "
                       +:+ pretty (http_status response)))
       else transactions_json ep response)
      (fun _ => transactionAPI_getOfflineTransactionsByCardId card).

(** ** formatters.js on binary64 numbers

    The conversions between amounts and cents once more, on the numbers
    JavaScript has: a number is a [float] of the kernel, an IEEE 754 binary64
    value, and [*] and [/] are its correctly rounded operations.  [Math.round]
    and [toFixed] are defined on the exact value of a double, as their
    specification has them. *)










(** ** Notions of the further properties *)

(** An uppercase hexadecimal digit: [0-9A-F]. *)
Definition is_upper_hex (c : ascii) : bool :=
  let n := nat_of_ascii c in
  ((48 <=? n)%nat && (n <=? 57)%nat) || ((65 <=? n)%nat && (n <=? 70)%nat).

Fixpoint all_chars (p : ascii -> bool) (s : string) : bool :=
  match s with
  | EmptyString => true
  | String c r => p c && all_chars p r
  end.

(** Alice after her card was replaced: the same id, a new card id. *)
Definition alice_new_card : Customer :=
  {| id := VNum 1; cardId := Some "04D4E5F6"; name := VStr "Alice";
     email := VUndefined; phone := VUndefined; photoUrl := VUndefined;
     balance := 5000; customerCreatedAt := VStr "2024-01-01T00:00:00.000Z" |}.

(** The payment with its amount as the text of an input field. *)
Definition payment_text_amount : Transaction := set_amount (VStr "19.99") payment.

(** The payment as the server records it. *)
Definition payment_recorded : Transaction :=
  {| transactionId := VStr "tx-1001"; customerId := VNum 1;
     txCardId := VStr "04A1B2C3"; type := VStr "payment";
     amount := VNum 1999; items := None; status := VStr "completed";
     offlineCreated := VUndefined; synced := VUndefined;
     syncError := VUndefined; createdAt := VStr "2024-03-01T10:00:00.000Z" |}.

(** The server is reachable, records every transaction posted as
    [payment_recorded] and answers balance updates with Alice's record. *)
Definition net_recording : list Request -> Request -> FetchOutcome :=
  fun _ _ =>
    Responded {| http_status := 201; json_customer := Some alice;
                 json_transaction := JsonObject payment_recorded;
                 body_text := "" |}.

Definition server_recording : World :=
  world_of (sample_env net_recording) false payment_in_queue.

(** [customer.cardId] is the non-empty string [card]. *)
Definition has_card (card : string) (c : Customer) : bool :=
  match cardId c with
  | Some k => negb (String.eqb k "") && String.eqb k card
  | None => false
  end.

(** A wire for the examples: a read call is logged under the URL it
    fetches, with no abort delay, and the two bodies the examples use are
    decoded. *)
Definition path_of (v : value) : string :=
  match v with
  | VUndefined => "undefined"
  | VNull => "null"
  | VBool b => if b then "true" else "false"
  | VNum q => pretty (Qnum q) +:+ "/" +:+ pretty (Zpos (Qden q))
  | VStr s => s
  end.

Definition sample_wire : Wire :=
  {| GetStatus := fun base => GetHealth (base +:+ "/status") 0;
     GetCustomer := fun base i => GetHealth (base +:+ "/customers/" +:+ path_of i) 0;
     GetCustomers := fun base => GetHealth (base +:+ "/customers") 0;
     GetTransaction := fun base i => GetHealth (base +:+ "/transactions/" +:+ path_of i) 0;
     GetTransactions := fun base => GetHealth (base +:+ "/transactions") 0;
     GetTransactionsByCard :=
       fun base c => GetHealth (base +:+ "/transactions/card/" +:+ path_of c) 0;
     parse_status := fun _ => JsonFails;
     parse_customers :=
       fun body => if String.eqb body "[bob,alice_new_card]"
                   then Some [bob; alice_new_card] else None;
     parse_transactions :=
       fun body => if String.eqb body "[payment_recorded]"
                   then Some [payment_recorded] else None |}.

(** The server is reachable and answers every read with the two lists. *)
Definition net_listing : list Request -> Request -> FetchOutcome :=
  fun _ rq =>
    Responded {| http_status := 200; json_customer := None;
                 json_transaction := JsonFails;
                 body_text :=
                   match rq with
                   | GetHealth url _ =>
                       if String.eqb url (DEFAULT_API_URL +:+ "/transactions")
                       then "[payment_recorded]" else "[bob,alice_new_card]"
                   | _ => EmptyString
                   end |}.

(** The health probe is answered with 200, every other request with 500. *)
Definition net_reads_failing : list Request -> Request -> FetchOutcome :=
  fun _ rq =>
    match rq with
    | GetHealth _ 3000 => Responded (plain_response 200)
    | _ => Responded (plain_response 500)
    end.

(** Alice is cached with her first card, one payment is queued. *)
Definition alice_and_payment : Storage :=
  {| api_url := None; offline_mode := None;
     offline_transactions := Some [payment_queued forced_offline];
     offline_customers := Some [alice];
     offline_customers_by_card := Some {[ "04A1B2C3" := alice ]} |}.

(** A computation that never throws. *)
Definition returns {A} (m : M A) : Prop :=
  forall w, exists a w', m w = (Return a, w').

(** A computation that leaves the storage and the write log as they were,
    also when it throws. *)
Definition read_only {A} (m : M A) : Prop :=
  forall w, storage (snd (m w)) = storage w /\ writes (snd (m w)) = writes w.

(** * Properties *)

(** ** Connectivity policy *)

Ltac run :=
  cbv beta delta [bind ret throw try_catch fetch getApiUrlItem getTransactionsItem
                  getCustomersItem getCardIndexItem] in *; cbn beta iota in *.

Lemma getApiUrl_run (w : World) : getApiUrl w = (Return (configured_url w), w).
Proof.
  unfold getApiUrl, configured_url. run.
  destruct (api_url (storage w)) as [u|]; [|reflexivity].
  destruct (String.eqb u ""); reflexivity.
Qed.

Lemma ok_range (r : Response) : ok r = true <-> 200 <= http_status r <= 299.
Proof. unfold ok. rewrite andb_true_iff, !Z.leb_le. tauto. Qed.

(** What a call of the policy returns and leaves, by the flag and the
    answer to the probe. *)
Lemma shouldOperateOffline_run (w : World) :
  shouldOperateOffline w =
  if offlineMode w then (Return true, w)
  else
    (Return match net (env w) (requests w) (health_probe w) with
            | Rejected _ => true
            | Responded r => negb (ok r)
            end,
     with_request (health_probe w) w).
Proof.
  unfold shouldOperateOffline.
  destruct (offlineMode w); [reflexivity|].
  unfold try_catch, bind at 1. rewrite getApiUrl_run.
  unfold bind, fetch, health_probe, with_request, ret.
  destruct (net (env w) (requests w) (GetHealth (configured_url w) 3000)); reflexivity.
Qed.

(** C4.  [shouldOperateOffline] returns [true] at once, without a probe,
    when the manual offline flag is set.  Otherwise it makes exactly one
    request, the health endpoint of the configured base URL with a 3000 ms
    abort, and returns [false] exactly when the answer is an explicit
    success response (a status in 200..299): a non-success status, a network
    error and the abort all give [true].  It never throws.  A call keeps no
    memory of its decision (flag, storage and environment are as before, only
    the request is logged), so each call decides afresh from the flag and
    from the answer to its own probe. *)
Theorem shouldOperateOffline_policy (w : World) :
  exists (b : bool) (w' : World),
    shouldOperateOffline w = (Return b, w') /\
    (offlineMode w = true -> b = true /\ w' = w) /\
    (offlineMode w = false ->
       requests w' = requests w ++ [GetHealth (configured_url w) 3000] /\
       (b = false <->
        explicit_success (net (env w) (requests w) (GetHealth (configured_url w) 3000))) /\
       (forall msg,
           net (env w) (requests w) (GetHealth (configured_url w) 3000) = Rejected msg ->
           b = true) /\
       (forall r,
           net (env w) (requests w) (GetHealth (configured_url w) 3000) = Responded r ->
           ~ 200 <= http_status r <= 299 -> b = true)) /\
    offlineMode w' = offlineMode w /\ storage w' = storage w /\
    env w' = env w /\ writes w' = writes w /\
    clock_reads w' = clock_reads w /\ random_draws w' = random_draws w.
Proof.
  change (GetHealth (configured_url w) 3000) with (health_probe w).
  rewrite shouldOperateOffline_run.
  destruct (offlineMode w) eqn:Hflag.
  - exists true, w. repeat split; try reflexivity; try discriminate; assumption.
  - eexists _, _. split; [reflexivity|].
    split; [discriminate|]. split; [|repeat split; assumption].
    intros _. split; [reflexivity|].
    destruct (net (env w) (requests w) (health_probe w)) as [msg|r] eqn:Hnet.
    + split; [|split].
      * split; [discriminate|]. intros (r & Hr & _). discriminate.
      * reflexivity.
      * intros r Hr. discriminate.
    + split; [|split].
      * split.
        -- intros Hb. exists r. split; [reflexivity|].
           apply ok_range. destruct (ok r); [reflexivity|discriminate].
        -- intros (r' & Hr' & Hrange). injection Hr' as <-.
           apply ok_range in Hrange. rewrite Hrange. reflexivity.
      * intros msg Hmsg. discriminate.
      * intros r' Hr' Hrange. injection Hr' as <-.
        destruct (ok r) eqn:Hok; [|reflexivity].
        apply ok_range in Hok. contradiction.
Qed.

(** ** Local cache store: [cacheOfflineCustomer] *)

Lemma cacheOfflineCustomer_run (customer : Customer) (w : World) :
  customerAPI.cacheOfflineCustomer customer w = (Return tt, cache_run customer w).
Proof.
  unfold customerAPI.cacheOfflineCustomer, cache_run, cache_step.
  unfold try_catch, bind, getCustomersItem, setCustomersItem, getCardIndexItem,
    setCardIndexItem, ret.
  cbn. destruct (cardId customer) as [card|]; [|reflexivity].
  destruct (String.eqb card ""); reflexivity.
Qed.

Lemma cache_run_storage (customer : Customer) (w : World) :
  storage (cache_run customer w) = put_storage customer (storage w).
Proof.
  unfold cache_run, cache_step, put_storage, getCustomersItem, setCustomersItem,
    getCardIndexItem, setCardIndexItem.
  cbn. destruct (cardId customer) as [card|]; [|reflexivity].
  destruct (String.eqb card ""); reflexivity.
Qed.

Lemma cache_run_frame (customer : Customer) (w : World) :
  env (cache_run customer w) = env w /\
  offlineMode (cache_run customer w) = offlineMode w /\
  requests (cache_run customer w) = requests w /\
  clock_reads (cache_run customer w) = clock_reads w /\
  random_draws (cache_run customer w) = random_draws w.
Proof.
  unfold cache_run, cache_step, getCustomersItem, setCustomersItem,
    getCardIndexItem, setCardIndexItem.
  cbn. destruct (cardId customer) as [card|]; [|repeat split].
  destruct (String.eqb card ""); repeat split.
Qed.

(** ** Customer repository: registration *)

Lemma shouldOperateOffline_frame (w : World) :
  storage (snd (shouldOperateOffline w)) = storage w /\
  writes (snd (shouldOperateOffline w)) = writes w /\
  List.filter is_gateway_call (requests (snd (shouldOperateOffline w)))
  = List.filter is_gateway_call (requests w).
Proof.
  rewrite shouldOperateOffline_run.
  destruct (offlineMode w); cbn; [repeat split|].
  repeat split. rewrite List.filter_app. cbn. apply app_nil_r.
Qed.

Lemma shouldOperateOffline_returns (w : World) :
  exists b, fst (shouldOperateOffline w) = Return b.
Proof.
  rewrite shouldOperateOffline_run. destruct (offlineMode w); cbn; eauto.
Qed.

(** A registration that throws has written nothing. *)
Lemma register_throw_no_write (customerData : Customer) (w w' : World) (e : Exception) :
  customerAPI.register customerData w = (Throw e, w') ->
  storage w' = storage w /\ writes w' = writes w.
Proof.
  unfold customerAPI.register. unfold bind at 1.
  destruct (shouldOperateOffline_frame w) as (Hs & Hw & _).
  destruct (shouldOperateOffline w) as [[b|e0] w0]; cbn in Hs, Hw.
  2:{ intros H. injection H as <- <-. auto. }
  destruct b.
  { unfold throw. intros H. injection H as <- <-. auto. }
  unfold try_catch, bind at 1. rewrite getApiUrl_run.
  unfold bind at 1, fetch.
  destruct (net (env w0) (requests w0) _) as [msg|r].
  { unfold throw. intros H. injection H as <- <-. auto. }
  destruct (ok r); cbn.
  2:{ unfold throw. intros H. injection H as <- <-. auto. }
  unfold bind at 1, customer_json.
  destruct (json_customer r) as [c|].
  2:{ unfold throw. intros H. injection H as <- <-. auto. }
  unfold ret at 1, bind, start, ret.
  intros H. discriminate.
Qed.

(** C6.  When the connectivity policy answers offline, [register] throws the
    explicit error [Cannot register new customers in offline mode], sends
    nothing to the register endpoint (or any other resource endpoint) and
    writes nothing to the cache.  There is no offline queue and no fallback:
    whenever [register] throws, also after a failed online attempt, the
    storage is as it was and no [setItem] was made. *)
Theorem register_offline_fails (customerData : Customer) (w : World) :
  fst (shouldOperateOffline w) = Return true ->
  exists w',
    customerAPI.register customerData w = (Throw offline_registration_error, w') /\
    storage w' = storage w /\
    writes w' = writes w /\
    List.filter is_gateway_call (requests w') = List.filter is_gateway_call (requests w) /\
    (forall data w0 e w1,
        customerAPI.register data w0 = (Throw e, w1) ->
        storage w1 = storage w0 /\ writes w1 = writes w0).
Proof.
  intros Hoff. exists (snd (shouldOperateOffline w)).
  destruct (shouldOperateOffline_frame w) as (Hs & Hw & Hr).
  repeat split; try assumption.
  - unfold customerAPI.register, bind.
    destruct (shouldOperateOffline w) as [o w0]. cbn in Hoff |- *. subst o.
    reflexivity.
  - eapply register_throw_no_write; eassumption.
  - eapply register_throw_no_write; eassumption.
Qed.

(** The hypothesis of C6 holds with the network down and the flag off: the
    probe is rejected. *)
Lemma register_offline_fails_witness :
  exists w',
    customerAPI.register alice (world_of (sample_env net_down) false empty_storage)
    = (Throw offline_registration_error, w') /\
    storage w' = storage (world_of (sample_env net_down) false empty_storage) /\
    writes w' = writes (world_of (sample_env net_down) false empty_storage) /\
    List.filter is_gateway_call (requests w')
    = List.filter is_gateway_call (requests (world_of (sample_env net_down) false empty_storage)) /\
    (forall data w0 e w1,
        customerAPI.register data w0 = (Throw e, w1) ->
        storage w1 = storage w0 /\ writes w1 = writes w0).
Proof.
  apply (register_offline_fails alice (world_of (sample_env net_down) false empty_storage)).
  reflexivity.
Defined.

(** ** Local cache store: the put and the card-id index *)

Lemma findIndex_Some {A} (p : A -> bool) (l : list A) (i : nat) :
  findIndex p l = Some i ->
  exists x, l !! i = Some x /\ p x = true /\
            forall j y, (j < i)%nat -> l !! j = Some y -> p y = false.
Proof.
  revert i. induction l as [|a l IH]; intros i; cbn; [discriminate|].
  destruct (p a) eqn:Hpa.
  - intros [= <-]. exists a. repeat split; [assumption|]. intros j y Hj. lia.
  - destruct (findIndex p l) as [k|]; cbn; [|discriminate].
    intros [= <-]. destruct (IH k eq_refl) as (x & Hx & Hpx & Hbefore).
    exists x. repeat split; try assumption.
    intros [|j] y Hj; cbn.
    + intros [= <-]. assumption.
    + apply Hbefore. lia.
Qed.

Lemma findIndex_None {A} (p : A -> bool) (l : list A) :
  findIndex p l = None -> forall x, In x l -> p x = false.
Proof.
  induction l as [|a l IH]; cbn; [contradiction|].
  destruct (p a) eqn:Hpa; [discriminate|].
  destruct (findIndex p l); cbn; [discriminate|].
  intros _ x [<-|Hx]; auto.
Qed.

Lemma upsert_In (customer : Customer) (l : list Customer) :
  In customer (upsert customer l).
Proof.
  unfold upsert. destruct (findIndex _ l) as [i|] eqn:Hf.
  - apply findIndex_Some in Hf as (x & Hx & _).
    apply list_elem_of_In, list_elem_of_lookup. exists i.
    apply list_lookup_insert_eq. eapply lookup_lt_Some; eassumption.
  - apply in_or_app. right. left. reflexivity.
Qed.

(** A cached customer with another id keeps its place. *)
Lemma upsert_other (customer c : Customer) (l : list Customer) (i : nat) :
  l !! i = Some c -> strict_eq (id c) (id customer) = false ->
  upsert customer l !! i = Some c.
Proof.
  intros Hc Hid. unfold upsert. destruct (findIndex _ l) as [k|] eqn:Hf.
  - apply findIndex_Some in Hf as (x & Hx & Hpx & _).
    rewrite list_lookup_insert_ne; [assumption|].
    intros ->. rewrite Hc in Hx. injection Hx as ->. congruence.
  - apply lookup_app_l_Some. assumption.
Qed.

Lemma upsert_length (customer : Customer) (l : list Customer) :
  length (upsert customer l) =
  if existsb (fun c => strict_eq (id c) (id customer)) l then length l
  else S (length l).
Proof.
  unfold upsert. destruct (findIndex _ l) as [k|] eqn:Hf.
  - rewrite length_insert.
    apply findIndex_Some in Hf as (x & Hx & Hpx & _).
    replace (existsb _ l) with true; [reflexivity|].
    symmetry. apply existsb_exists. exists x. split; [|assumption].
    apply list_elem_of_In, list_elem_of_lookup. eauto.
  - rewrite length_app. cbn.
    replace (existsb _ l) with false; [lia|].
    symmetry. apply Bool.not_true_is_false. intros H.
    apply existsb_exists in H as (x & Hx & Hpx).
    rewrite (findIndex_None _ _ Hf x Hx) in Hpx. discriminate.
Qed.

Lemma put_card_index_own (customer : Customer) (card : string) (w : World) :
  cardId customer = Some card -> card <> "" ->
  card_index (cache_run customer w) !! card = Some customer.
Proof.
  intros Hc Hne. unfold card_index. rewrite cache_run_storage.
  unfold put_storage. cbn. rewrite Hc.
  apply String.eqb_neq in Hne. rewrite Hne. cbn.
  apply lookup_insert_eq.
Qed.

Lemma put_card_index_other (customer : Customer) (card : string) (w : World) :
  cardId customer <> Some card ->
  card_index (cache_run customer w) !! card = card_index w !! card.
Proof.
  intros Hc. unfold card_index. rewrite cache_run_storage.
  unfold put_storage. cbn. destruct (cardId customer) as [k|]; [|reflexivity].
  destruct (String.eqb k ""); [reflexivity|]. cbn.
  apply lookup_insert_ne. congruence.
Qed.

Lemma put_all_card_index_other (cs : list Customer) (card : string) (w : World) :
  (forall c, In c cs -> cardId c <> Some card) ->
  card_index (put_all cs w) !! card = card_index w !! card.
Proof.
  revert w. induction cs as [|c cs IH]; intros w Hcs; cbn; [reflexivity|].
  rewrite IH by (intros c' Hc'; apply Hcs; right; assumption).
  rewrite cacheOfflineCustomer_run. cbn [snd].
  apply put_card_index_other. apply Hcs. left. reflexivity.
Qed.

(** The call of the source is the task run with nothing in between. *)
Lemma interleave_alone (customer : Customer) (w : World) :
  interleave [true; true; true; true] (ReadCustomers customer) Settled w
  = (Settled, Settled, cache_run customer w).
Proof.
  unfold interleave, cache_run, cache_step, getCustomersItem, setCustomersItem,
    getCardIndexItem, setCardIndexItem.
  cbn. destruct (cardId customer) as [card|]; [|reflexivity].
  destruct (String.eqb card ""); reflexivity.
Qed.

(** C9 (as amended).  A put that nothing interrupts (the call of the
    source, which is the task scheduled four times in a row) never throws,
    upserts the customer by id into the full collection (the customer is in
    it afterwards, and every cached customer with another id keeps its place),
    sets the index entry of the customer's own non-empty cardId to the
    customer, and leaves the entry of every other card id unchanged.  Hence
    puts that run one after the other leave the entries of the card ids they
    do not carry unchanged, and two such puts for different cardIds, in
    either order, leave both entries in the index. *)
Theorem cacheOfflineCustomer_upsert_frame (customer : Customer) (w : World) :
  exists w',
    customerAPI.cacheOfflineCustomer customer w = (Return tt, w') /\
    interleave [true; true; true; true] (ReadCustomers customer) Settled w
    = (Settled, Settled, w') /\
    cached_customers w' = upsert customer (cached_customers w) /\
    In customer (cached_customers w') /\
    (forall i c, cached_customers w !! i = Some c ->
                 strict_eq (id c) (id customer) = false ->
                 cached_customers w' !! i = Some c) /\
    (forall card, cardId customer = Some card -> card <> "" ->
                  card_index w' !! card = Some customer) /\
    (forall card, cardId customer <> Some card ->
                  card_index w' !! card = card_index w !! card) /\
    (forall cs card, (forall c, In c cs -> cardId c <> Some card) ->
                     card_index (put_all cs w) !! card = card_index w !! card) /\
    (forall other ca cb,
        cardId customer = Some ca -> cardId other = Some cb ->
        ca <> "" -> cb <> "" -> ca <> cb ->
        card_index (put_all [customer; other] w) !! ca = Some customer /\
        card_index (put_all [customer; other] w) !! cb = Some other /\
        card_index (put_all [other; customer] w) !! ca = Some customer /\
        card_index (put_all [other; customer] w) !! cb = Some other).
Proof.
  exists (cache_run customer w).
  assert (Hcust : cached_customers (cache_run customer w)
                  = upsert customer (cached_customers w)).
  { unfold cached_customers. rewrite cache_run_storage. reflexivity. }
  split; [apply cacheOfflineCustomer_run|].
  split; [apply interleave_alone|].
  split; [exact Hcust|].
  split; [rewrite Hcust; apply upsert_In|].
  split; [intros i c Hc Hid; rewrite Hcust; apply upsert_other; assumption|].
  split; [intros card; apply put_card_index_own|].
  split; [intros card; apply put_card_index_other|].
  split; [intros cs card; apply put_all_card_index_other|].
  intros other ca cb Ha Hb Hane Hbne Hab. cbn [put_all].
  rewrite !cacheOfflineCustomer_run. cbn [snd].
  repeat split.
  - rewrite put_card_index_other by congruence. apply put_card_index_own; assumption.
  - apply put_card_index_own; assumption.
  - apply put_card_index_own; assumption.
  - rewrite put_card_index_other by congruence. apply put_card_index_own; assumption.
Qed.

(** C9, the claim as stated fails: two puts for different cardIds that are
    in flight together.  Each call performs its next storage operation in
    turn, so both read the full collection before either writes it, and both
    read the card-id index (absent, hence empty) before either writes it.
    Each writes what it read plus its own customer; the later write replaces
    the earlier one.  Both calls have settled, Alice's index entry is gone
    and so is Alice in the full collection.  The index entry is lost as well
    when only the index operations of the two calls overlap. *)
Lemma interleaved_puts_lose_an_entry :
  interleave [true; false; true; false; true; false; true; false]
    (ReadCustomers alice) (ReadCustomers bob)
    (world_of (sample_env net_down) false empty_storage)
  = (Settled, Settled,
     {| env := sample_env net_down; offlineMode := false;
        storage :=
          {| api_url := None; offline_mode := None; offline_transactions := None;
             offline_customers := Some [bob];
             offline_customers_by_card := Some {[ "0BB2C3D4" := bob ]} |};
        requests := [];
        writes := [OFFLINE_CUSTOMERS_KEY; OFFLINE_CUSTOMERS_KEY;
                   OFFLINE_CUSTOMERS_BY_CARD_KEY; OFFLINE_CUSTOMERS_BY_CARD_KEY];
        clock_reads := 0; random_draws := 0;
        in_flight := [] |}) /\
  card_index (snd (interleave [true; false; true; false; true; false; true; false]
                     (ReadCustomers alice) (ReadCustomers bob)
                     (world_of (sample_env net_down) false empty_storage)))
    !! "04A1B2C3" = None /\
  card_index (snd (interleave [true; true; true; false; false; false; true; false]
                     (ReadCustomers alice) (ReadCustomers bob)
                     (world_of (sample_env net_down) false empty_storage)))
    !! "04A1B2C3" = None /\
  card_index (put_all [alice; bob] (world_of (sample_env net_down) false empty_storage))
    !! "04A1B2C3" = Some alice.
Proof. repeat split; vm_compute; reflexivity. Qed.

(** ** Customer repository: lookup by card id *)

Lemma getOfflineCustomerByCardId_run (card : string) (w : World) :
  customerAPI.getOfflineCustomerByCardId card w = (Return (card_index w !! card), w).
Proof. reflexivity. Qed.

(** [getByCardId], case by case. *)
Lemma getByCardId_run (card : string) (w : World) :
  customerAPI.getByCardId card w =
  if offlineMode w then (Return (card_index w !! card), w)
  else
    let w0 := with_request (health_probe w) w in
    match net (env w) (requests w) (health_probe w) with
    | Rejected _ => (Return (card_index w !! card), w0)
    | Responded probe =>
        if ok probe then
          let rq := GetCustomerByCard (configured_url w) card in
          let w1 := with_request rq w0 in
          match net (env w) (requests w0) rq with
          | Rejected _ => (Return (card_index w !! card), w1)
          | Responded r =>
              if ok r then
                match json_customer r with
                | Some customer =>
                    (Return (Some customer), with_put (ReadCustomers customer) w1)
                | None => (Return (card_index w !! card), w1)
                end
              else (Return (card_index w !! card), w1)
          end
        else (Return (card_index w !! card), w0)
    end.
Proof.
  unfold customerAPI.getByCardId. unfold bind at 1.
  rewrite shouldOperateOffline_run.
  destruct (offlineMode w); [reflexivity|].
  destruct (net (env w) (requests w) (health_probe w)) as [msg|probe]; [reflexivity|].
  destruct (ok probe); [|reflexivity]. cbn [negb].
  unfold try_catch, bind at 1. rewrite getApiUrl_run.
  unfold bind at 1, fetch.
  change (configured_url (with_request (health_probe w) w)) with (configured_url w).
  change (env (with_request (health_probe w) w)) with (env w).
  destruct (net (env w) (requests (with_request (health_probe w) w)) _) as [msg|r];
    [reflexivity|].
  destruct (ok r); [|reflexivity]. cbn [negb].
  unfold bind at 1, customer_json.
  destruct (json_customer r) as [customer|]; reflexivity.
Qed.

(** C7 (as amended).  The data layer uses a card id exactly as it is given,
    without normalizing it.  The cache lookup reads the index at the key
    [c] itself; [getByCardId c] never throws, asks the server (if at all)
    for the customer of card [c] as written and returns the customer of a
    success response, and otherwise, that is when the policy is offline or
    the request does not deliver a customer, returns the index entry at the
    key [c] itself; a put keys the index by the
    customer's [cardId] property as received and, when that string is not in
    normal form, leaves the entry at its normal form untouched.  For a card
    id that is already normalized (as the reader of NFC tags produces them)
    [getByCardId] of the id and of its normalization are the same call. *)
Theorem card_id_used_as_given (c : string) (w : World) :
  customerAPI.getOfflineCustomerByCardId c w = (Return (card_index w !! c), w) /\
  (exists result w' extra,
      customerAPI.getByCardId c w = (Return result, w') /\
      requests w' = requests w ++ extra /\
      Forall (by_card_or_probe c w) extra /\
      (result = card_index w !! c \/
       exists r, net (env w) (requests w ++ [health_probe w])
                     (GetCustomerByCard (configured_url w) c) = Responded r /\
                 ok r = true /\ json_customer r = result)) /\
  (fst (shouldOperateOffline w) = Return true ->
   fst (customerAPI.getByCardId c w) = Return (card_index w !! c)) /\
  (forall customer,
      cardId customer = Some c -> c <> "" ->
      card_index (snd (customerAPI.cacheOfflineCustomer customer w)) !! c = Some customer) /\
  (forall customer,
      cardId customer = Some c -> normalizeCardId c <> c ->
      card_index (snd (customerAPI.cacheOfflineCustomer customer w)) !! normalizeCardId c
      = card_index w !! normalizeCardId c) /\
  (normalizeCardId c = c ->
   customerAPI.getByCardId (normalizeCardId c) w = customerAPI.getByCardId c w).
Proof.
  split; [reflexivity|].
  split.
  { rewrite getByCardId_run.
    destruct (offlineMode w).
    { exists (card_index w !! c), w, []. rewrite app_nil_r. auto. }
    cbv zeta.
    destruct (net (env w) (requests w) (health_probe w)) as [msg|probe].
    { eexists _, _, [_]. split; [reflexivity|]. split; [reflexivity|].
      split; [|left; reflexivity]. constructor; [left; reflexivity|constructor]. }
    destruct (ok probe).
    2:{ eexists _, _, [_]. split; [reflexivity|]. split; [reflexivity|].
        split; [|left; reflexivity]. constructor; [left; reflexivity|constructor]. }
    assert (Hextra : Forall (by_card_or_probe c w)
                       [health_probe w; GetCustomerByCard (configured_url w) c]).
    { constructor; [left; reflexivity|]. constructor; [right; reflexivity|constructor]. }
    destruct (net (env w) _ (GetCustomerByCard (configured_url w) c)) as [msg|r] eqn:Hnet.
    { eexists _, _, [_; _]. split; [reflexivity|].
      split; [cbn; rewrite <- app_assoc; reflexivity|]. split; [exact Hextra|].
      left; reflexivity. }
    destruct (ok r) eqn:Hok.
    2:{ eexists _, _, [_; _]. split; [reflexivity|].
        split; [cbn; rewrite <- app_assoc; reflexivity|]. split; [exact Hextra|].
        left; reflexivity. }
    destruct (json_customer r) as [customer|] eqn:Hjson.
    - eexists _, _, [_; _]. split; [reflexivity|].
      split; [cbn; rewrite <- app_assoc; reflexivity|].
      split; [exact Hextra|].
      right. exists r. split; [reflexivity|]. auto.
    - eexists _, _, [_; _]. split; [reflexivity|].
      split; [cbn; rewrite <- app_assoc; reflexivity|]. split; [exact Hextra|].
      left; reflexivity. }
  split.
  { rewrite getByCardId_run, shouldOperateOffline_run.
    destruct (offlineMode w); [reflexivity|]. cbv zeta. cbn [fst].
    destruct (net (env w) (requests w) (health_probe w)) as [msg|probe]; [reflexivity|].
    destruct (ok probe); [discriminate|reflexivity]. }
  split.
  { intros customer Hc Hne. rewrite cacheOfflineCustomer_run. cbn [snd].
    apply put_card_index_own; assumption. }
  split.
  { intros customer Hc Hne. rewrite cacheOfflineCustomer_run. cbn [snd].
    apply put_card_index_other. rewrite Hc. congruence. }
  intros ->. reflexivity.
Qed.

(** C7, the claim as stated fails.  Alice is cached under her card id
    04A1B2C3.  Looked up as 04a1b2c3 she is not found, looked up under the
    normalization of that string she is: the two calls do not identify the
    same cached customer.  And a customer whose [cardId] property is not in
    normal form is indexed under the property as it is, not under its normal
    form. *)
Lemma card_id_lookup_is_not_normalized :
  normalizeCardId "04a1b2c3" = "04A1B2C3" /\
  fst (customerAPI.getByCardId "04a1b2c3" (world_of (sample_env net_down) true alice_cached))
  = Return None /\
  fst (customerAPI.getByCardId (normalizeCardId "04a1b2c3")
         (world_of (sample_env net_down) true alice_cached))
  = Return (Some alice) /\
  normalizeCardId "0c 11 22 33" = "0C112233" /\
  card_index (snd (customerAPI.cacheOfflineCustomer carol
                     (world_of (sample_env net_down) true alice_cached)))
  = {[ "04A1B2C3" := alice; "0c 11 22 33" := carol ]}.
Proof. repeat split; vm_compute; reflexivity. Qed.

(** ** Transaction repository: the offline path *)

Lemma createOfflineTransaction_run (data : Transaction) (w : World) :
  transactionAPI.createOfflineTransaction data w
  = (Return (offline_record data w), after_offline_create data w).
Proof. reflexivity. Qed.

(** The floor of a rational, characterised. *)
Lemma Qfloor_unique (x : Q) (n : Z) :
  (inject_Z n <= x)%Q -> (x < inject_Z (n + 1))%Q -> Qfloor x = n.
Proof.
  intros Hlo Hhi.
  pose proof (Qfloor_le x) as Hfl. pose proof (Qlt_floor x) as Hfu.
  assert (H1 : Qfloor x < n + 1).
  { rewrite Zlt_Qlt. eapply Qle_lt_trans; eassumption. }
  assert (H2 : n < Qfloor x + 1).
  { rewrite Zlt_Qlt. eapply Qle_lt_trans; eassumption. }
  lia.
Qed.

(** [Math.floor(Math.random() * 1000)] is one of 0..999. *)
Lemma random_suffix_range (r : Q) :
  (0 <= r)%Q -> (r < 1)%Q -> 0 <= Math_floor (r * 1000) <= 999.
Proof.
  intros H0 H1. unfold Math_floor. split.
  - change 0 with (Qfloor 0). apply Qfloor_resp_le. lra.
  - assert (H : Qfloor (r * 1000) < 1000); [|lia].
    rewrite Zlt_Qlt. eapply Qle_lt_trans; [apply Qfloor_le|].
    unfold inject_Z. lra.
Qed.

(** ** Customer repository: balance updates *)

Lemma updateOfflineBalance_run (i : value) (amount : Q) (w : World) :
  customerAPI.updateOfflineBalance i amount w =
  match List.find (fun c => strict_eq (id c) i) (cached_customers w) with
  | None => (Throw (CustomerNotFound i), w)
  | Some customer =>
      (Return (add_balance customer (amountToCents (VNum amount))),
       cache_run (add_balance customer (amountToCents (VNum amount))) w)
  end.
Proof.
  unfold customerAPI.updateOfflineBalance, customerAPI.getOfflineCustomerById.
  unfold try_catch, bind at 1. unfold try_catch, bind at 1.
  unfold getCustomersItem, ret at 1. fold (cached_customers w).
  destruct (List.find _ (cached_customers w)) as [customer|]; [|reflexivity].
  unfold bind. rewrite cacheOfflineCustomer_run. reflexivity.
Qed.

(** [updateBalance], case by case. *)
Lemma updateBalance_run (i : value) (amount : Q) (w : World) :
  customerAPI.updateBalance i amount w =
  if offlineMode w then customerAPI.updateOfflineBalance i amount w
  else
    let w0 := with_request (health_probe w) w in
    match net (env w) (requests w) (health_probe w) with
    | Rejected _ => customerAPI.updateOfflineBalance i amount w0
    | Responded probe =>
        if ok probe then
          let rq := PostBalance (configured_url w) i (amountToCents (VNum amount)) in
          let w1 := with_request rq w0 in
          match net (env w) (requests w0) rq with
          | Rejected _ => customerAPI.updateOfflineBalance i amount w1
          | Responded r =>
              if ok r then
                match json_customer r with
                | Some customer =>
                    (Return customer, with_put (ReadCustomers customer) w1)
                | None => customerAPI.updateOfflineBalance i amount w1
                end
              else customerAPI.updateOfflineBalance i amount w1
          end
        else customerAPI.updateOfflineBalance i amount w0
    end.
Proof.
  unfold customerAPI.updateBalance. unfold bind at 1.
  rewrite shouldOperateOffline_run.
  destruct (offlineMode w); [reflexivity|].
  destruct (net (env w) (requests w) (health_probe w)) as [msg|probe]; [reflexivity|].
  destruct (ok probe); [|reflexivity]. cbn [negb].
  unfold try_catch, bind at 1. rewrite getApiUrl_run.
  unfold bind at 1, fetch.
  change (configured_url (with_request (health_probe w) w)) with (configured_url w).
  change (env (with_request (health_probe w) w)) with (env w).
  destruct (net (env w) (requests (with_request (health_probe w) w)) _) as [msg|r];
    [reflexivity|].
  destruct (ok r); [|reflexivity]. cbn [negb].
  unfold bind at 1, customer_json.
  destruct (json_customer r) as [customer|]; reflexivity.
Qed.

Lemma balance_frame_refl (call : Request) (w : World) : balance_frame call w w.
Proof.
  split; try reflexivity.
  exists []. rewrite app_nil_r. repeat split. constructor.
Qed.

Lemma balance_frame_cache_run (call : Request) (customer : Customer) (w w' : World) :
  balance_frame call w w' -> balance_frame call w (cache_run customer w').
Proof.
  intros [He Hf Ht Hu Hc Hr Hq].
  destruct (cache_run_frame customer w') as (He' & Hf' & Hq' & Hc' & Hr').
  split; try congruence.
  - unfold cached_transactions in *. rewrite cache_run_storage. exact Ht.
  - rewrite cache_run_storage. exact Hu.
  - rewrite Hq'. exact Hq.
Qed.

Lemma balance_frame_put (call : Request) (t : CacheTask) (w w' : World) :
  balance_frame call w w' -> balance_frame call w (with_put t w').
Proof. intros [He Hf Ht Hu Hc Hr Hq]. split; assumption. Qed.

Lemma updateOfflineBalance_frame (call : Request) (i : value) (amount : Q) (w w' : World) :
  balance_frame call w w' ->
  balance_frame call w (snd (customerAPI.updateOfflineBalance i amount w')).
Proof.
  intros H. rewrite updateOfflineBalance_run.
  destruct (List.find _ (cached_customers w')); cbn [snd]; [|exact H].
  apply balance_frame_cache_run. exact H.
Qed.

Lemma balance_frame_request (call : Request) (w w' : World) (rq : Request) :
  offlineMode w = false ->
  rq = health_probe w \/ rq = call ->
  balance_frame call w w' -> balance_frame call w (with_request rq w').
Proof.
  intros Hflag Hrq [He Hf Ht Hu Hc Hr (extra & Hq & Hall & Hnone)].
  split; try assumption.
  exists (extra ++ [rq]). cbn. rewrite Hq, app_assoc. split; [reflexivity|].
  split; [|congruence].
  apply Forall_app. split; [assumption|]. constructor; [assumption|constructor].
Qed.

Lemma updateBalance_frame (i : value) (amount : Q) (w : World) :
  balance_frame (balance_call i amount w) w (snd (customerAPI.updateBalance i amount w)).
Proof.
  rewrite updateBalance_run.
  destruct (offlineMode w) eqn:Hflag.
  { apply updateOfflineBalance_frame, balance_frame_refl. }
  cbv zeta. fold (balance_call i amount w).
  assert (H0 : balance_frame (balance_call i amount w) w (with_request (health_probe w) w)).
  { apply balance_frame_request; [assumption|left; reflexivity|apply balance_frame_refl]. }
  destruct (net (env w) (requests w) (health_probe w)) as [msg|probe].
  { apply updateOfflineBalance_frame, H0. }
  destruct (ok probe); [|apply updateOfflineBalance_frame, H0].
  assert (H1 : balance_frame (balance_call i amount w) w
                 (with_request (balance_call i amount w)
                    (with_request (health_probe w) w))).
  { apply balance_frame_request; [assumption|right; reflexivity|exact H0]. }
  destruct (net (env w) _ (balance_call i amount w)) as [msg|r].
  { apply updateOfflineBalance_frame, H1. }
  destruct (ok r); [|apply updateOfflineBalance_frame, H1].
  destruct (json_customer r) as [customer|]; [|apply updateOfflineBalance_frame, H1].
  cbn [snd]. apply balance_frame_put, H1.
Qed.

(** ** Formatters: cents and amounts *)

Lemma Math_round_spec (x : Q) :
  (inject_Z (Math_round x) <= x + (1 # 2))%Q /\
  (x + (1 # 2) < inject_Z (Math_round x + 1))%Q.
Proof. unfold Math_round. split; [apply Qfloor_le|apply Qlt_floor]. Qed.

Lemma Math_round_integer (x : Q) (n : Z) :
  (x == inject_Z n)%Q -> Math_round x = n.
Proof.
  intros Hx. unfold Math_round. apply Qfloor_unique.
  - lra.
  - rewrite inject_Z_plus. change (inject_Z 1) with 1%Q. lra.
Qed.

Lemma hundredth_scaled (q : Q) : (q / 100 * 100 == q)%Q.
Proof. field. Qed.

(** Rounding a whole number of cents to two decimals changes nothing. *)
Lemma toFixed2_cents (n : Z) :
  (toFixed2 (inject_Z n / 100) == inject_Z n / 100)%Q.
Proof.
  pose proof (hundredth_scaled (inject_Z n)) as Hs.
  unfold toFixed2. destruct (Qle_bool 0 (inject_Z n / 100)); rewrite Qred_correct.
  - replace (Qfloor (inject_Z n / 100 * 100 + (1 # 2))) with n; [reflexivity|].
    symmetry. apply Qfloor_unique.
    + set (q := (inject_Z n / 100)%Q) in *. lra.
    + rewrite inject_Z_plus. change (inject_Z 1) with 1%Q.
      set (q := (inject_Z n / 100)%Q) in *. lra.
  - replace (Qfloor (- (inject_Z n / 100) * 100 + (1 # 2))) with (- n).
    + rewrite inject_Z_opp. field.
    + symmetry. apply Qfloor_unique.
      * rewrite inject_Z_opp. set (q := (inject_Z n / 100)%Q) in *. lra.
      * rewrite inject_Z_plus, inject_Z_opp. change (inject_Z 1) with 1%Q.
        set (q := (inject_Z n / 100)%Q) in *. lra.
Qed.

Lemma centsToAmount_integer (n : Z) :
  (centsToAmount (VNum (inject_Z n)) == inject_Z n / 100)%Q.
Proof. apply toFixed2_cents. Qed.


(** ** Transaction repository: [create] *)

Lemma processTransaction_run (b : bool) (data : Transaction) (w : World) :
  transactionAPI.processTransaction b data w =
  if b then queued data w
  else
    let w1 := with_request (create_call data w) w in
    match net (env w) (requests w) (create_call data w) with
    | Rejected _ => queued data w1
    | Responded r =>
        if ok r then
          match json_transaction r with
          | JsonObject t => (Return (Some t), w1)
          | JsonNull => (Return None, w1)
          | JsonFails => queued data w1
          end
        else queued data w1
    end.
Proof.
  unfold transactionAPI.processTransaction, queued, create_call.
  destruct b.
  { unfold bind. rewrite createOfflineTransaction_run. reflexivity. }
  unfold try_catch, bind at 1. rewrite getApiUrl_run.
  unfold bind at 1, fetch.
  destruct (net (env w) (requests w) _) as [msg|r].
  { unfold bind. rewrite createOfflineTransaction_run. reflexivity. }
  destruct (ok r); cbn [negb].
  2:{ unfold throw, bind. rewrite createOfflineTransaction_run. reflexivity. }
  unfold transaction_json.
  destruct (json_transaction r); reflexivity.
Qed.

Lemma update_customer_balance_run (t : Transaction) (w : World) :
  transactionAPI.update_customer_balance (Some t) w = (Return tt, balance_step t w).
Proof.
  unfold transactionAPI.update_customer_balance, balance_step, debit.
  destruct (truthy (customerId t)); [|reflexivity].
  unfold try_catch, bind.
  destruct (customerAPI.updateBalance _ _ w) as [[c|e] w']; reflexivity.
Qed.

Lemma create_run (data : Transaction) (w : World) :
  transactionAPI.create data w =
  match shouldOperateOffline w with
  | (Return b, w0) =>
      match transactionAPI.processTransaction b data w0 with
      | (Return (Some t), w1) => (Return (Some t), balance_step t w1)
      | (Return None, w1) => (Return None, w1)
      | (Throw e, w1) => (Throw e, w1)
      end
  | (Throw e, w0) => (Throw e, w0)
  end.
Proof.
  unfold transactionAPI.create. unfold bind at 1.
  destruct (shouldOperateOffline w) as [[b|e] w0]; [|reflexivity].
  unfold bind at 1.
  destruct (transactionAPI.processTransaction b data w0) as [[[t|]|e] w1];
    [| reflexivity | reflexivity].
  unfold bind. rewrite update_customer_balance_run. reflexivity.
Qed.



(** The payment of 19.99 by Alice, created in manual offline mode: queued
    with 1999 cents, and Alice's cached balance goes from 5000 to 3001. *)
Example create_payment_offline :
  fst (transactionAPI.create payment offline_with_alice)
  = Return (Some (payment_queued offline_with_alice)) /\
  amount (payment_queued offline_with_alice) = VNum 1999 /\
  map balance (cached_customers (snd (transactionAPI.create payment offline_with_alice)))
  = [3001%Q].
Proof. repeat split; vm_compute; reflexivity. Qed.

(** The same payment with nothing cached: the balance update throws (the
    customer is not in the offline cache), [create] returns the queued
    transaction all the same. *)
Example create_swallows_balance_failure :
  customerAPI.updateBalance (VNum 1) (debit (payment_queued forced_offline))
    (after_offline_create (process_data payment) forced_offline)
  = (Throw (CustomerNotFound (VNum 1)),
     after_offline_create (process_data payment) forced_offline) /\
  transactionAPI.create payment forced_offline
  = (Return (Some (payment_queued forced_offline)),
     after_offline_create (process_data payment) forced_offline) /\
  cached_transactions (snd (transactionAPI.create payment forced_offline))
  = [payment_queued forced_offline].
Proof. repeat split; vm_compute; reflexivity. Qed.

Lemma balance_step_transactions (t : Transaction) (w : World) :
  cached_transactions (balance_step t w) = cached_transactions w.
Proof.
  unfold balance_step. destruct (truthy (customerId t)); [|reflexivity].
  apply (updateBalance_frame (customerId t) (debit t) w).
Qed.

Lemma balance_step_requests (t : Transaction) (w : World) :
  exists extra,
    requests (balance_step t w) = requests w ++ extra /\
    Forall (fun rq => rq = health_probe w \/
                      rq = balance_call (customerId t) (debit t) w) extra /\
    (offlineMode w = true -> extra = []) /\
    (truthy (customerId t) = false -> extra = []).
Proof.
  unfold balance_step. destruct (truthy (customerId t)).
  - destruct (updateBalance_frame (customerId t) (debit t) w)
      as [_ _ _ _ _ _ (extra & Hq & Hall & Hnone)].
    exists extra. repeat split; try assumption. discriminate.
  - exists []. rewrite app_nil_r. repeat split. constructor.
Qed.

Lemma policy_world (w w0 : World) (b : bool) :
  shouldOperateOffline w = (Return b, w0) ->
  env w0 = env w /\ offlineMode w0 = offlineMode w /\ storage w0 = storage w /\
  clock_reads w0 = clock_reads w /\ random_draws w0 = random_draws w /\
  (exists probes, requests w0 = requests w ++ probes /\
                  Forall (fun rq => is_gateway_call rq = false) probes /\
                  (offlineMode w = true -> probes = [])).
Proof.
  rewrite shouldOperateOffline_run. destruct (offlineMode w) eqn:Hflag.
  - intros [= <- <-]. repeat (split; [reflexivity || assumption|]).
    exists []. rewrite app_nil_r. repeat split. constructor.
  - intros [= _ <-]. repeat (split; [reflexivity || assumption|]).
    exists [health_probe w]. repeat split; [|discriminate].
    constructor; [reflexivity|constructor].
Qed.

(** C3.  When the policy answered online and the submission of the created
    transaction fails (the fetch rejects, or the response has a non-success
    status), [create] does not throw: it returns the record of the offline
    path, built from the same processed data with status [pending] and
    [offlineCreated = true], and that record is at the end of the cached
    queue. *)
Theorem create_falls_back_offline (transactionData : Transaction) (w w0 : World) :
  shouldOperateOffline w = (Return false, w0) ->
  (forall r, net (env w0) (requests w0) (create_call transactionData w0) = Responded r ->
             ok r = false) ->
  exists t w',
    t = offline_record (process_data transactionData)
          (with_request (create_call transactionData w0) w0) /\
    transactionAPI.create transactionData w = (Return (Some t), w') /\
    status t = VStr "pending" /\
    offlineCreated t = VBool true /\
    customerId t = customerId transactionData /\
    type t = type transactionData /\
    amount t = to_cents (amount transactionData) /\
    cached_transactions w' = cached_transactions w ++ [t].
Proof.
  intros Hpolicy Hfail.
  eexists _, _. split; [reflexivity|].
  assert (Hproc : transactionAPI.processTransaction false transactionData w0
                  = queued transactionData (with_request (create_call transactionData w0) w0)).
  { rewrite processTransaction_run. cbv zeta.
    destruct (net (env w0) (requests w0) (create_call transactionData w0)) as [msg|r];
      [reflexivity|].
    rewrite (Hfail r eq_refl). reflexivity. }
  split.
  { rewrite create_run, Hpolicy, Hproc. reflexivity. }
  assert (Hdata : forall d, customerId (process_data d) = customerId d /\
                            type (process_data d) = type d /\
                            amount (process_data d) = to_cents (amount d)).
  { intros d. unfold process_data. cbn. destruct (items d); repeat split. }
  destruct (Hdata transactionData) as (Hc & Hty & Ha).
  repeat split; try assumption.
  rewrite balance_step_transactions.
  apply policy_world in Hpolicy as (_ & _ & Hs & _).
  unfold cached_transactions at 1 2. rewrite <- Hs. reflexivity.
Qed.

(** The hypotheses of C3 hold for the payment and a reachable server that
    answers the create endpoint with status 500. *)
Lemma create_falls_back_offline_witness :
  exists t w',
    t = offline_record (process_data payment)
          (with_request (create_call payment (with_request (health_probe server_failing) server_failing))
             (with_request (health_probe server_failing) server_failing)) /\
    transactionAPI.create payment server_failing = (Return (Some t), w') /\
    status t = VStr "pending" /\
    offlineCreated t = VBool true /\
    customerId t = customerId payment /\
    type t = type payment /\
    amount t = to_cents (amount payment) /\
    cached_transactions w' = cached_transactions server_failing ++ [t].
Proof.
  apply (create_falls_back_offline payment server_failing
           (with_request (health_probe server_failing) server_failing)).
  - reflexivity.
  - intros r [= <-]. reflexivity.
Defined.

(** C2 (as amended).  When the policy answers offline at the dispatch check
    of [create], the transaction is not submitted to the server (no request
    to the create or the sync endpoint) and [create] returns a transaction
    with the temporary id [offline-<Date.now()>-<Math.floor(Math.random() *
    1000)>] (the suffix is in 0..999 for a draw in [0, 1)), the status
    [pending], [offlineCreated = true] and [createdAt] the time of the next
    clock reading, appended at the end of the cached queue.  The balance
    step that follows asks the policy again: the only resource request
    [create] can make is the balance call for the transaction's customer,
    none is made when the transaction carries no customer id, and with the
    manual offline flag set no request at all is made. *)
Theorem create_offline_queues (transactionData : Transaction) (w w0 : World) :
  shouldOperateOffline w = (Return true, w0) ->
  exists t w' extra,
    transactionAPI.create transactionData w = (Return (Some t), w') /\
    t = offline_record (process_data transactionData) w0 /\
    transactionId t =
      VStr ("offline-" +:+ pretty (clock (env w) (clock_reads w)) +:+ "-"
            +:+ pretty (Math_floor (random (env w) (random_draws w) * 1000))) /\
    ((0 <= random (env w) (random_draws w))%Q ->
     (random (env w) (random_draws w) < 1)%Q ->
     0 <= Math_floor (random (env w) (random_draws w) * 1000) <= 999) /\
    status t = VStr "pending" /\
    offlineCreated t = VBool true /\
    createdAt t = VStr (toISOString (env w) (clock (env w) (S (clock_reads w)))) /\
    cached_transactions w' = cached_transactions w ++ [t] /\
    requests w' = requests w ++ extra /\
    List.filter is_submission extra = [] /\
    Forall (fun rq => is_gateway_call rq = true ->
                      rq = balance_call (customerId t) (debit t) w) extra /\
    (truthy (customerId transactionData) = false -> List.filter is_gateway_call extra = []) /\
    (offlineMode w = true -> extra = []).
Proof.
  intros Hpolicy.
  pose proof (policy_world _ _ _ Hpolicy)
    as (He & Hf & Hs & Hc & Hr & probes & Hq & Hprobes & Hnone).
  set (t := offline_record (process_data transactionData) w0).
  set (w1 := after_offline_create (process_data transactionData) w0).
  destruct (balance_step_requests t w1) as (more & Hq1 & Hmore & Hnone1 & Hnoid).
  assert (Hid : customerId t = customerId transactionData).
  { unfold t, process_data. cbn. destruct (items transactionData); reflexivity. }
  assert (Hurl : configured_url w1 = configured_url w).
  { unfold configured_url, w1. cbn. rewrite Hs. reflexivity. }
  assert (Hcall : balance_call (customerId t) (debit t) w1
                  = balance_call (customerId t) (debit t) w).
  { unfold balance_call. rewrite Hurl. reflexivity. }
  assert (Hextra : Forall (fun rq => is_gateway_call rq = true ->
                                     rq = balance_call (customerId t) (debit t) w)
                     (probes ++ more)).
  { apply Forall_app. split.
    - eapply Forall_impl; [exact Hprobes|]. cbn. intros rq H1 H2. congruence.
    - eapply Forall_impl; [exact Hmore|]. cbn. intros rq [->| ->] H.
      + discriminate.
      + exact Hcall. }
  exists t, (balance_step t w1), (probes ++ more).
  split.
  { rewrite create_run, Hpolicy, processTransaction_run. reflexivity. }
  split; [reflexivity|].
  split; [unfold t, offline_record, offline_id; cbn; rewrite He, Hc, Hr; reflexivity|].
  split; [apply random_suffix_range|].
  split; [reflexivity|]. split; [reflexivity|].
  split; [unfold t, offline_record; cbn; rewrite He, Hc; reflexivity|].
  split.
  { rewrite balance_step_transactions. unfold w1, cached_transactions at 1 2.
    rewrite <- Hs. reflexivity. }
  split.
  { rewrite Hq1. unfold w1. cbn. rewrite Hq, app_assoc. reflexivity. }
  split.
  { induction Hextra as [|rq l Hrq _ IH]; [reflexivity|]. cbn.
    destruct rq; cbn in *; try assumption.
    - discriminate (Hrq eq_refl).
    - discriminate (Hrq eq_refl). }
  split; [exact Hextra|].
  split.
  { intros Hno. rewrite <- Hid in Hno. rewrite (Hnoid Hno), app_nil_r.
    clear -Hprobes. induction Hprobes as [|rq l Hrq _ IH]; [reflexivity|].
    cbn. rewrite Hrq. exact IH. }
  intros Hflag. rewrite (Hnone Hflag). cbn. apply Hnone1.
  unfold w1. cbn. congruence.
Qed.

(** The hypothesis of C2 holds in manual offline mode. *)
Lemma create_offline_queues_witness :
  exists t w' extra,
    transactionAPI.create payment offline_with_alice = (Return (Some t), w') /\
    t = offline_record (process_data payment) offline_with_alice /\
    transactionId t =
      VStr ("offline-" +:+ pretty (clock (env offline_with_alice) (clock_reads offline_with_alice))
            +:+ "-"
            +:+ pretty (Math_floor (random (env offline_with_alice)
                                      (random_draws offline_with_alice) * 1000))) /\
    ((0 <= random (env offline_with_alice) (random_draws offline_with_alice))%Q ->
     (random (env offline_with_alice) (random_draws offline_with_alice) < 1)%Q ->
     0 <= Math_floor (random (env offline_with_alice)
                        (random_draws offline_with_alice) * 1000) <= 999) /\
    status t = VStr "pending" /\
    offlineCreated t = VBool true /\
    createdAt t = VStr (toISOString (env offline_with_alice)
                          (clock (env offline_with_alice)
                             (S (clock_reads offline_with_alice)))) /\
    cached_transactions w' = cached_transactions offline_with_alice ++ [t] /\
    requests w' = requests offline_with_alice ++ extra /\
    List.filter is_submission extra = [] /\
    Forall (fun rq => is_gateway_call rq = true ->
                      rq = balance_call (customerId t) (debit t) offline_with_alice) extra /\
    (truthy (customerId payment) = false -> List.filter is_gateway_call extra = []) /\
    (offlineMode offline_with_alice = true -> extra = []).
Proof.
  apply (create_offline_queues payment offline_with_alice offline_with_alice).
  reflexivity.
Defined.

(** C2, the claim as stated fails.  The manual flag is off and the probe of
    the dispatch check is rejected, so the policy reports offline and the
    payment is queued.  The balance step asks the policy again; this time the
    probe succeeds, and [create] posts the debit of 1999 cents to the balance
    endpoint of the remote gateway. *)
Lemma create_offline_calls_gateway :
  fst (shouldOperateOffline recovering) = Return true /\
  fst (transactionAPI.create payment recovering)
  = Return (Some (payment_queued
                    (with_request (health_probe recovering) recovering))) /\
  requests (snd (transactionAPI.create payment recovering))
  = [GetHealth DEFAULT_API_URL 3000;
     GetHealth DEFAULT_API_URL 3000;
     PostBalance DEFAULT_API_URL (VNum 1) (-1999)] /\
  List.filter is_gateway_call (requests (snd (transactionAPI.create payment recovering)))
  = [PostBalance DEFAULT_API_URL (VNum 1) (-1999)].
Proof. repeat split; vm_compute; reflexivity. Qed.

(** ** Sync engine *)

Lemma sync_one_run (apiUrl : string) (prefix rest : list Transaction)
    (t : Transaction) (results : SyncResults) (w : World) :
  transactionAPI.sync_one apiUrl (length prefix) (prefix ++ t :: rest, results) w =
  (Return (prefix ++ settle_one (net (env w) (requests w) (sync_request apiUrl t)) t :: rest,
           if accepted (net (env w) (requests w) (sync_request apiUrl t))
           then count_success results else count_failed results),
   with_request (sync_request apiUrl t) w).
Proof.
  unfold transactionAPI.sync_one. rewrite list_lookup_middle by reflexivity.
  unfold try_catch, bind, fetch. fold (sync_request apiUrl t).
  replace (<[length prefix := _]> (prefix ++ t :: rest)) with
    (prefix ++ mark_completed t :: rest)
    by (rewrite insert_app_r_alt, Nat.sub_diag by lia; reflexivity).
  destruct (net (env w) (requests w) (sync_request apiUrl t)) as [msg|r]; cbn.
  - rewrite insert_app_r_alt, Nat.sub_diag by lia. reflexivity.
  - unfold settle_one. cbn. destruct (ok r); cbn; [reflexivity|].
    rewrite insert_app_r_alt, Nat.sub_diag by lia. reflexivity.
Qed.

Lemma count_cons (p : FetchOutcome -> bool) (o : FetchOutcome) (outs : list FetchOutcome) :
  count p (o :: outs) = (if p o then 1 else 0) + count p outs.
Proof. unfold count. cbn. destruct (p o); cbn [length]; lia. Qed.

Lemma add_results_cons (o : FetchOutcome) (outs : list FetchOutcome) (r : SyncResults) :
  add_results outs (if accepted o then count_success r else count_failed r)
  = add_results (o :: outs) r.
Proof.
  unfold add_results. rewrite !count_cons. unfold rejected at 2.
  destruct (accepted o); cbn; f_equal; lia.
Qed.

Lemma with_requests_cons (rq : Request) (rqs : list Request) (w : World) :
  with_requests rqs (with_request rq w) = with_requests (rq :: rqs) w.
Proof. unfold with_requests, with_request. cbn. rewrite <- app_assoc. reflexivity. Qed.

(** The loop over the selected references does what the specification
    says, element by element in queue order. *)
Lemma sync_loop_run (apiUrl : string) (suffix : list Transaction) :
  forall (prefix : list Transaction) (results : SyncResults) (w : World),
    transactionAPI.sync_loop apiUrl (pending_refs (length prefix) suffix)
      (prefix ++ suffix, results) w =
    (Return (prefix ++ settle suffix
                         (answers (env w) (requests w)
                            (map (sync_request apiUrl) (selected suffix))),
             add_results (answers (env w) (requests w)
                            (map (sync_request apiUrl) (selected suffix))) results),
     with_requests (map (sync_request apiUrl) (selected suffix)) w).
Proof.
  induction suffix as [|t rest IH]; intros prefix results w.
  - cbn. unfold ret, add_results, with_requests, count. cbn.
    rewrite !Z.add_0_r, !app_nil_r. destruct results, w. reflexivity.
  - unfold selected in *. cbn [pending_refs List.filter settle].
    destruct (is_pending t) eqn:Hp.
    + cbn [transactionAPI.sync_loop map answers]. unfold bind.
      rewrite sync_one_run.
      set (o := net (env w) (requests w) (sync_request apiUrl t)).
      specialize (IH (prefix ++ [settle_one o t])).
      rewrite length_app, Nat.add_1_r in IH. cbn [length] in IH.
      rewrite <- app_assoc in IH. cbn [app] in IH.
      rewrite IH. cbn [env requests with_request].
      rewrite add_results_cons, with_requests_cons, <- app_assoc. reflexivity.
    + specialize (IH (prefix ++ [t])).
      rewrite length_app, Nat.add_1_r in IH. cbn [length] in IH.
      rewrite <- app_assoc in IH. cbn [app] in IH.
      rewrite IH, <- app_assoc. reflexivity.
Qed.

Lemma pending_refs_length (from : nat) (txs : list Transaction) :
  length (pending_refs from txs) = length (selected txs).
Proof.
  revert from. unfold selected.
  induction txs as [|t rest IH]; intros from; cbn; [reflexivity|].
  destruct (is_pending t); cbn; rewrite IH; reflexivity.
Qed.

(** [syncOfflineTransactions], case by case, against the specification's
    description of the pass. *)
Lemma syncOfflineTransactions_run (w : World) :
  transactionAPI.syncOfflineTransactions w =
  match shouldOperateOffline w with
  | (Return true, w0) => (Throw offline_sync_error, w0)
  | (Return false, w0) =>
      match selected (cached_transactions w0) with
      | [] => (Return no_results, w0)
      | _ :: _ =>
          let rqs := map (sync_request (configured_url w0))
                         (selected (cached_transactions w0)) in
          let outs := answers (env w0) (requests w0) rqs in
          (Return {| success := count accepted outs;
                     failed := count rejected outs;
                     total := Z.of_nat (length (selected (cached_transactions w0))) |},
           after_sync (settle (cached_transactions w0) outs) rqs w0)
      end
  | (Throw e, w0) => (Throw e, w0)
  end.
Proof.
  unfold transactionAPI.syncOfflineTransactions. unfold bind at 1.
  destruct (shouldOperateOffline w) as [[[|]|e] w0]; try reflexivity.
  unfold bind at 1, transactionAPI.getAllOfflineTransactions, try_catch,
    getTransactionsItem.
  fold (cached_transactions w0).
  rewrite pending_refs_length.
  destruct (selected (cached_transactions w0)) as [|t sel] eqn:Hsel; [reflexivity|].
  cbn [length Nat.eqb]. unfold bind at 1. rewrite getApiUrl_run.
  unfold bind at 1.
  rewrite (sync_loop_run (configured_url w0) (cached_transactions w0) []).
  rewrite Hsel. unfold bind, setTransactionsItem, ret. cbn [fst snd app].
  unfold add_results. cbn [success failed total]. rewrite !Z.add_0_l.
  reflexivity.
Qed.

Lemma answers_length (e : Env) (rqs : list Request) :
  forall history, length (answers e history rqs) = length rqs.
Proof. induction rqs as [|rq rest IH]; intros history; cbn; [|rewrite IH]; reflexivity. Qed.

(** The k-th answer is the environment's answer to the k-th request after
    the k requests before it. *)
Lemma answers_lookup (e : Env) (rqs : list Request) :
  forall history k rq,
    rqs !! k = Some rq ->
    answers e history rqs !! k = Some (net e (history ++ take k rqs) rq).
Proof.
  induction rqs as [|r rest IH]; intros history k rq; [discriminate|].
  destruct k as [|k]; cbn.
  - intros [= ->]. rewrite app_nil_r. reflexivity.
  - intros Hk. rewrite (IH _ _ _ Hk), <- app_assoc. reflexivity.
Qed.

Lemma count_split (outs : list FetchOutcome) :
  count accepted outs + count rejected outs = Z.of_nat (length outs).
Proof.
  induction outs as [|o outs IH]; [reflexivity|].
  rewrite !count_cons. unfold rejected at 1. cbn [length].
  destruct (accepted o); cbn [negb]; lia.
Qed.

Lemma count_nonneg (p : FetchOutcome -> bool) (outs : list FetchOutcome) :
  0 <= count p outs.
Proof. unfold count. lia. Qed.

Lemma settle_length (txs : list Transaction) :
  forall outs, length (settle txs outs) = length txs.
Proof.
  induction txs as [|t rest IH]; intros outs; cbn; [reflexivity|].
  destruct (is_pending t); [destruct outs|]; cbn; rewrite IH; reflexivity.
Qed.

(** The record at a position after the pass: a record that was not
    selected is as before; the k-th selected one is settled by the k-th
    answer. *)
Lemma settle_lookup (txs : list Transaction) :
  forall outs i t,
    txs !! i = Some t ->
    settle txs outs !! i =
    Some (if is_pending t then
            match outs !! length (selected (take i txs)) with
            | Some o => settle_one o t
            | None => t
            end
          else t).
Proof.
  unfold selected.
  induction txs as [|x rest IH]; intros outs i t; [discriminate|].
  destruct i as [|i]; cbn [settle].
  - intros [= ->]. cbn.
    destruct (is_pending t); [destruct outs|]; reflexivity.
  - intros Hi. cbn [take List.filter].
    destruct (is_pending x); [destruct outs as [|o outs]|]; cbn.
    + refine (eq_trans (IH [] i t Hi) _). cbn. destruct (is_pending t); reflexivity.
    + apply IH. exact Hi.
    + apply IH. exact Hi.
Qed.

(** The rank of a selected record among the selected ones. *)
Lemma selected_rank (txs : list Transaction) :
  forall i t,
    txs !! i = Some t -> is_pending t = true ->
    selected txs !! length (selected (take i txs)) = Some t.
Proof.
  unfold selected.
  induction txs as [|x rest IH]; intros i t; [discriminate|].
  destruct i as [|i]; cbn.
  - intros [= ->] Hp. rewrite Hp. reflexivity.
  - intros Hi Hp. destruct (is_pending x); cbn; apply IH; assumption.
Qed.

Lemma strict_eq_str (v : value) (s : string) :
  strict_eq v (VStr s) = true <-> v = VStr s.
Proof.
  destruct v; cbn; try (split; [discriminate|discriminate]).
  rewrite String.eqb_eq. split; [intros ->; reflexivity|intros [= ->]; reflexivity].
Qed.

Lemma is_pending_spec (t : Transaction) :
  is_pending t = true <->
  truthy (offlineCreated t) = true /\ status t = VStr "pending".
Proof. unfold is_pending. rewrite andb_true_iff, strict_eq_str. reflexivity. Qed.

Lemma is_pending_flag (t : Transaction) :
  is_flag (offlineCreated t) ->
  (is_pending t = true <-> offlineCreated t = VBool true /\ status t = VStr "pending").
Proof.
  intros Hflag. rewrite is_pending_spec.
  destruct Hflag as [H|[b H]]; rewrite H; cbn.
  - split; intros [H1 H2]; discriminate.
  - destruct b; split; intros [H1 H2]; try discriminate; auto.
Qed.

Lemma settle_one_accepted (o : FetchOutcome) (t : Transaction) :
  accepted o = true ->
  settle_one o t = mark_completed t /\
  status (settle_one o t) = VStr "completed" /\
  synced (settle_one o t) = VBool true /\
  is_pending (settle_one o t) = false.
Proof.
  intros H. unfold settle_one. rewrite H. repeat split.
  unfold is_pending. cbn. apply andb_false_r.
Qed.

Lemma settle_one_rejected (o : FetchOutcome) (t : Transaction) :
  accepted o = false ->
  settle_one o t = mark_failed (failure_message o) t /\
  status (settle_one o t) = status t /\
  syncError (settle_one o t) = VStr (failure_message o) /\
  is_pending (settle_one o t) = is_pending t.
Proof. intros H. unfold settle_one. rewrite H. repeat split. Qed.

(** The record at position [i] after a pass that had something to send. *)
Lemma sync_record (txs : list Transaction) (e : Env) (history : list Request)
    (apiUrl : string) (i : nat) (t : Transaction) :
  txs !! i = Some t -> is_pending t = true ->
  exists k o,
    selected txs !! k = Some t /\
    o = net e (history ++ take k (map (sync_request apiUrl) (selected txs)))
          (sync_request apiUrl t) /\
    answers e history (map (sync_request apiUrl) (selected txs)) !! k = Some o /\
    settle txs (answers e history (map (sync_request apiUrl) (selected txs))) !! i
    = Some (settle_one o t).
Proof.
  intros Hi Hp.
  pose proof (selected_rank txs i t Hi Hp) as Hk.
  set (k := length (selected (take i txs))) in *.
  assert (Hrq : map (sync_request apiUrl) (selected txs) !! k
                = Some (sync_request apiUrl t)).
  { change (map (sync_request apiUrl) (selected txs))
      with (sync_request apiUrl <$> selected txs).
    rewrite list_lookup_fmap, Hk. reflexivity. }
  pose proof (answers_lookup e _ history k _ Hrq) as Ho.
  eexists k, _. split; [exact Hk|]. split; [reflexivity|]. split; [exact Ho|].
  rewrite (settle_lookup txs _ i t Hi), Hp. fold k. rewrite Ho. reflexivity.
Qed.

Lemma settle_settled_as (txs : list Transaction) (e : Env) (history : list Request)
    (apiUrl : string) (i : nat) (t : Transaction) :
  txs !! i = Some t ->
  exists t',
    settle txs (answers e history (map (sync_request apiUrl) (selected txs))) !! i
    = Some t' /\
    settled_as e history apiUrl (selected txs) t t'.
Proof.
  intros Hi. destruct (is_pending t) eqn:Hp.
  - destruct (sync_record txs e history apiUrl i t Hi Hp) as (k & o & Hk & Ho & _ & Hs).
    exists (settle_one o t). split; [exact Hs|].
    split; [congruence|]. intros _. exists k, o.
    split; [exact Hk|]. split; [exact Ho|]. split.
    + intros Hacc. destruct (settle_one_accepted o t Hacc) as (_ & H1 & H2 & _). auto.
    + intros Hrej. destruct (settle_one_rejected o t Hrej) as (_ & H1 & H2 & H3).
      rewrite H1, H2, H3. pose proof Hp as Hst.
      apply is_pending_spec in Hst as (_ & Hst). auto.
  - exists t. split.
    + rewrite (settle_lookup txs _ i t Hi), Hp. reflexivity.
    + split; [reflexivity|]. congruence.
Qed.

(** C1.  [syncOfflineTransactions] first asks the connectivity policy.  If
    it answers offline, the call throws the explicit error [Cannot sync
    transactions while in offline mode] and the storage is untouched.
    Otherwise it selects exactly the cached transactions with a truthy
    [offlineCreated] (for a boolean flag: [true]) and status [pending], in
    queue order.  With none selected it returns [{success: 0, failed: 0,
    total: 0}] and makes no request and no write.  Otherwise it posts the
    selected transactions to the sync endpoint one after the other in queue
    order; a record whose request was accepted is stored with status
    [completed] and [synced = true], a record whose request failed keeps
    status [pending], carries the failure message in [syncError] and is
    still selected by the next pass; records that were not selected are
    kept; the whole collection is written back in one [setItem]; and the
    counts returned are these: [total] is the number of selected
    transactions, [success] the number of them whose request was accepted
    and [failed] the number of them whose request failed, the answer to the
    k-th selected transaction being the one the server gave after the k
    requests before it; so [success + failed = total]. *)
Theorem syncOfflineTransactions_pass (w : World) :
  exists (offline : bool) (w0 : World),
    shouldOperateOffline w = (Return offline, w0) /\
    (offline = true ->
     transactionAPI.syncOfflineTransactions w = (Throw offline_sync_error, w0) /\
     storage w0 = storage w /\ writes w0 = writes w) /\
    (offline = false ->
     exists results w',
       transactionAPI.syncOfflineTransactions w = (Return results, w') /\
       (forall t, In t (selected (cached_transactions w)) <->
                  In t (cached_transactions w) /\
                  truthy (offlineCreated t) = true /\ status t = VStr "pending") /\
       (forall t, is_flag (offlineCreated t) ->
                  (is_pending t = true <->
                   offlineCreated t = VBool true /\ status t = VStr "pending")) /\
       (selected (cached_transactions w) = [] -> results = no_results /\ w' = w0) /\
       requests w' = requests w0 ++ map (sync_request (configured_url w))
                                        (selected (cached_transactions w)) /\
       length (cached_transactions w') = length (cached_transactions w) /\
       (forall i t, cached_transactions w !! i = Some t ->
          exists t', cached_transactions w' !! i = Some t' /\
                     settled_as (env w) (requests w0) (configured_url w)
                       (selected (cached_transactions w)) t t') /\
       (selected (cached_transactions w) <> [] ->
        writes w' = writes w ++ [OFFLINE_TRANSACTIONS_KEY] /\
        offline_transactions (storage w') = Some (cached_transactions w') /\
        offline_customers (storage w') = offline_customers (storage w) /\
        offline_customers_by_card (storage w') = offline_customers_by_card (storage w)) /\
       total results = Z.of_nat (length (selected (cached_transactions w))) /\
       success results + failed results = total results /\
       0 <= success results /\ 0 <= failed results /\
       success results
       = count accepted
           (answers (env w) (requests w0)
              (map (sync_request (configured_url w)) (selected (cached_transactions w)))) /\
       failed results
       = count rejected
           (answers (env w) (requests w0)
              (map (sync_request (configured_url w)) (selected (cached_transactions w)))) /\
       (forall k t,
           selected (cached_transactions w) !! k = Some t ->
           answers (env w) (requests w0)
             (map (sync_request (configured_url w)) (selected (cached_transactions w))) !! k
           = Some (net (env w)
                     (requests w0
                      ++ take k (map (sync_request (configured_url w))
                                   (selected (cached_transactions w))))
                     (sync_request (configured_url w) t)))).
Proof.
  assert (Hans : forall e history apiUrl sel k (t : Transaction),
             sel !! k = Some t ->
             answers e history (map (sync_request apiUrl) sel) !! k
             = Some (net e (history ++ take k (map (sync_request apiUrl) sel))
                       (sync_request apiUrl t))).
  { intros e history apiUrl sel k t Hk. apply answers_lookup.
    rewrite list_lookup_fmap, Hk. reflexivity. }
  destruct (shouldOperateOffline w) as [[offline|e] w0] eqn:Hpolicy.
  2:{ destruct (shouldOperateOffline_returns w) as (b & Hb).
      rewrite Hpolicy in Hb. discriminate. }
  exists offline, w0. split; [reflexivity|].
  pose proof (policy_world _ _ _ Hpolicy) as (He & Hf & Hs & Hc & Hr & _).
  assert (Htx : cached_transactions w0 = cached_transactions w).
  { unfold cached_transactions. rewrite Hs. reflexivity. }
  assert (Hurl : configured_url w0 = configured_url w).
  { unfold configured_url. rewrite Hs. reflexivity. }
  pose proof (shouldOperateOffline_frame w) as (_ & Hw & _).
  rewrite Hpolicy in Hw. cbn [snd] in Hw.
  split.
  { intros ->. rewrite syncOfflineTransactions_run, Hpolicy. auto. }
  intros ->. rewrite syncOfflineTransactions_run, Hpolicy, Htx, Hurl, He.
  set (txs := cached_transactions w) in *.
  assert (Hsel : forall t, In t (selected txs) <->
                 In t txs /\ truthy (offlineCreated t) = true /\ status t = VStr "pending").
  { intros t. unfold selected. rewrite filter_In, is_pending_spec. reflexivity. }
  destruct (selected txs) as [|t0 sel] eqn:Hsome.
  - exists no_results, w0. split; [reflexivity|].
    split; [exact Hsel|]. split; [apply is_pending_flag|].
    split; [auto|]. split; [rewrite app_nil_r; reflexivity|].
    split; [rewrite Htx; reflexivity|].
    split.
    { intros i t Hi. exists t. rewrite Htx. split; [exact Hi|].
      split; [reflexivity|]. intros Hp. exfalso.
      apply (proj2 (Hsel t)). apply is_pending_spec in Hp. split; [|exact Hp].
      apply list_elem_of_In, list_elem_of_lookup. eauto. }
    split; [congruence|]. cbn.
    split; [reflexivity|]. split; [reflexivity|]. split; [lia|]. split; [lia|].
    split; [reflexivity|]. split; [reflexivity|]. intros k t Hk. destruct k; discriminate.
  - rewrite <- Hsome in Hsel |- *. cbv zeta.
    set (rqs := map (sync_request (configured_url w)) (selected txs)).
    set (outs := answers (env w) (requests w0) rqs).
    eexists _, _. split; [reflexivity|].
    split; [exact Hsel|]. split; [apply is_pending_flag|].
    split; [intros Hnil; rewrite Hnil in Hsome; discriminate|].
    split; [reflexivity|].
    split; [unfold cached_transactions at 1; cbn; apply settle_length|].
    split.
    { intros i t Hi. unfold cached_transactions at 1. cbn.
      apply settle_settled_as. exact Hi. }
    split.
    { intros _. cbn. rewrite Hw, Hs. auto. }
    cbn [success failed total].
    pose proof (count_split outs) as Hsplit.
    unfold outs at 3 in Hsplit. rewrite answers_length in Hsplit.
    unfold rqs in Hsplit. rewrite length_map in Hsplit.
    split; [reflexivity|]. split; [exact Hsplit|].
    split; [apply count_nonneg|]. split; [apply count_nonneg|].
    split; [reflexivity|]. split; [reflexivity|].
    intros k t Hk. apply Hans. exact Hk.
Qed.

(** One pending offline transaction and a server that accepts it: the pass
    returns [{success: 1, failed: 0, total: 1}] and the stored record is
    completed and synced. *)
Example sync_accepted :
  fst (transactionAPI.syncOfflineTransactions server_accepting)
  = Return {| success := 1; failed := 0; total := 1 |} /\
  cached_transactions (snd (transactionAPI.syncOfflineTransactions server_accepting))
  = [mark_completed (payment_queued forced_offline)] /\
  writes (snd (transactionAPI.syncOfflineTransactions server_accepting))
  = [OFFLINE_TRANSACTIONS_KEY].
Proof. repeat split; vm_compute; reflexivity. Qed.

(** One pending offline transaction and a server that rejects it: the pass
    returns [{success: 0, failed: 1, total: 1}], the record stays pending
    with the message in [syncError]; a second pass, accepted, completes it. *)
Example sync_rejected_then_accepted :
  fst (transactionAPI.syncOfflineTransactions server_rejecting_once)
  = Return {| success := 0; failed := 1; total := 1 |} /\
  cached_transactions (snd (transactionAPI.syncOfflineTransactions server_rejecting_once))
  = [mark_failed "Server returned 500" (payment_queued forced_offline)] /\
  fst (transactionAPI.syncOfflineTransactions
         (snd (transactionAPI.syncOfflineTransactions server_rejecting_once)))
  = Return {| success := 1; failed := 0; total := 1 |} /\
  cached_transactions
    (snd (transactionAPI.syncOfflineTransactions
            (snd (transactionAPI.syncOfflineTransactions server_rejecting_once))))
  = [mark_completed (mark_failed "Server returned 500" (payment_queued forced_offline))].
Proof. repeat split; vm_compute; reflexivity. Qed.

(** The pass, when the policy answered online and something is selected. *)
Lemma sync_online_run (w w0 : World) :
  shouldOperateOffline w = (Return false, w0) ->
  selected (cached_transactions w) <> [] ->
  transactionAPI.syncOfflineTransactions w =
  (Return {| success := count accepted
                          (answers (env w) (requests w0)
                             (map (sync_request (configured_url w))
                                (selected (cached_transactions w))));
             failed := count rejected
                         (answers (env w) (requests w0)
                            (map (sync_request (configured_url w))
                               (selected (cached_transactions w))));
             total := Z.of_nat (length (selected (cached_transactions w))) |},
   after_sync
     (settle (cached_transactions w)
        (answers (env w) (requests w0)
           (map (sync_request (configured_url w)) (selected (cached_transactions w)))))
     (map (sync_request (configured_url w)) (selected (cached_transactions w))) w0).
Proof.
  intros Hpolicy Hsome.
  pose proof (policy_world _ _ _ Hpolicy) as (He & _ & Hs & _).
  assert (Htx : cached_transactions w0 = cached_transactions w).
  { unfold cached_transactions. rewrite Hs. reflexivity. }
  assert (Hurl : configured_url w0 = configured_url w).
  { unfold configured_url. rewrite Hs. reflexivity. }
  rewrite syncOfflineTransactions_run, Hpolicy, Htx, Hurl, He.
  destruct (selected (cached_transactions w)) eqn:Hsel; [contradiction|].
  reflexivity.
Qed.

(** C10.  For a queued offline transaction [t] that a sync pass selects:
    the body sent to the server is [t] without its [offlineCreated]
    property and otherwise equal to it.  If the request is accepted, the
    stored record differs from [t] in [status] (now [completed]) and
    [synced] (now [true]) only: [offlineCreated] is as it was, still truthy
    (still [true] if it was [true]); the record is not selected by a later
    pass, and it would be if its status were [pending] again.  If the request
    fails, the stored record differs from [t] in [syncError] only, and a
    later pass selects it.  Records the pass did not select are stored
    unchanged. *)
Theorem sync_touches_only_sync_fields (w w0 : World) (i : nat) (t : Transaction) :
  shouldOperateOffline w = (Return false, w0) ->
  cached_transactions w !! i = Some t ->
  is_pending t = true ->
  exists results w' k o sent t',
    transactionAPI.syncOfflineTransactions w = (Return results, w') /\
    selected (cached_transactions w) !! k = Some t /\
    requests w' !! (length (requests w0) + k)%nat
    = Some (PostSync (configured_url w) sent) /\
    same_but_offlineCreated t sent /\
    offlineCreated sent = VUndefined /\
    o = net (env w)
          (requests w0 ++ take k (map (sync_request (configured_url w))
                                     (selected (cached_transactions w))))
          (PostSync (configured_url w) sent) /\
    cached_transactions w' !! i = Some t' /\
    (accepted o = true ->
     same_but_status_synced t t' /\
     status t' = VStr "completed" /\ synced t' = VBool true /\
     truthy (offlineCreated t') = true /\
     (offlineCreated t = VBool true -> offlineCreated t' = VBool true) /\
     is_pending t' = false /\
     is_pending (set_status (VStr "pending") t') = true /\
     ~ In t' (selected (cached_transactions w'))) /\
    (accepted o = false ->
     same_but_syncError t t' /\
     syncError t' = VStr (failure_message o) /\
     is_pending t' = true /\
     In t' (selected (cached_transactions w'))) /\
    (forall j u, cached_transactions w !! j = Some u -> is_pending u = false ->
                 cached_transactions w' !! j = Some u).
Proof.
  intros Hpolicy Hi Hp.
  set (txs := cached_transactions w) in *.
  set (url := configured_url w).
  destruct (sync_record txs (env w) (requests w0) url i t Hi Hp)
    as (k & o & Hk & Ho & Hans & Hset).
  assert (Hsome : selected txs <> []).
  { intros Hnil. rewrite Hnil in Hk. discriminate. }
  pose proof (sync_online_run w w0 Hpolicy Hsome) as Hrun.
  fold txs url in Hrun.
  set (rqs := map (sync_request url) (selected txs)) in *.
  set (outs := answers (env w) (requests w0) rqs) in *.
  assert (Hstored : forall j, cached_transactions
                                (after_sync (settle txs outs) rqs w0) !! j
                              = settle txs outs !! j) by reflexivity.
  pose proof (is_pending_spec t) as Hspec. apply Hspec in Hp as Hflag.
  destruct Hflag as (Htruthy & Hstatus).
  eexists _, _, k, o, (set_offlineCreated VUndefined t), (settle_one o t).
  split; [exact Hrun|]. split; [exact Hk|].
  split.
  { cbn [requests after_sync]. rewrite lookup_app_r by lia.
    replace (length (requests w0) + k - length (requests w0))%nat with k by lia.
    unfold rqs. change (map (sync_request url) (selected txs))
      with (sync_request url <$> selected txs).
    rewrite list_lookup_fmap, Hk. reflexivity. }
  split; [repeat split|]. split; [reflexivity|]. split; [exact Ho|].
  split; [rewrite Hstored; exact Hset|].
  split.
  { intros Hacc. destruct (settle_one_accepted o t Hacc) as (Heq & Hst & Hsy & Hnp).
    rewrite Heq. split; [repeat split|]. split; [reflexivity|]. split; [reflexivity|].
    split; [exact Htruthy|]. split; [auto|].
    split; [rewrite <- Heq; exact Hnp|].
    split.
    - unfold is_pending. cbn. rewrite Htruthy. reflexivity.
    - unfold selected. rewrite filter_In. rewrite <- Heq, Hnp. intros [_ H]. discriminate. }
  split.
  { intros Hrej. destruct (settle_one_rejected o t Hrej) as (Heq & Hst & Hse & Hpe).
    split; [rewrite Heq; repeat split|]. split; [exact Hse|].
    assert (Hstill : is_pending (settle_one o t) = true) by (rewrite Hpe; exact Hp).
    split; [exact Hstill|].
    unfold selected. rewrite filter_In. split; [|exact Hstill].
    apply list_elem_of_In, list_elem_of_lookup. exists i.
    rewrite Hstored. exact Hset. }
  intros j u Hj Hu. rewrite Hstored, (settle_lookup txs outs j u Hj), Hu. reflexivity.
Qed.

(** The hypotheses of C10 hold for the queued payment and a server that
    accepts it: the stored record differs from the queued one in [status]
    and [synced] only and still carries [offlineCreated = true]. *)
Lemma sync_touches_only_sync_fields_witness :
  exists t',
    cached_transactions (snd (transactionAPI.syncOfflineTransactions server_accepting))
    !! 0%nat = Some t' /\
    same_but_status_synced (payment_queued forced_offline) t' /\
    offlineCreated t' = VBool true /\
    is_pending t' = false.
Proof.
  destruct (sync_touches_only_sync_fields server_accepting
              (with_request (health_probe server_accepting) server_accepting)
              0%nat (payment_queued forced_offline) eq_refl eq_refl eq_refl)
    as (results & w' & k & o & sent & t' & Hrun & Hk & _ & _ & _ & Ho & Ht' & Hacc & _).
  exists t'. rewrite Hrun. cbn [snd]. split; [exact Ht'|].
  destruct k as [|k]; [|discriminate Hk].
  assert (Ha : accepted o = true) by (rewrite Ho; reflexivity).
  destruct (Hacc Ha) as (Hsame & _ & _ & _ & Hflag & Hnp & _).
  split; [exact Hsame|]. split; [apply Hflag; reflexivity|exact Hnp].
Defined.

(** ** Formatters: the round trips *)

Lemma hundredth_le (n : Z) (a : Q) :
  (inject_Z n <= a * 100 + (1 # 2))%Q -> (inject_Z n / 100 <= a + (1 # 200))%Q.
Proof.
  intros H. pose proof (hundredth_scaled (inject_Z n)) as Hs.
  set (q := (inject_Z n / 100)%Q) in *. lra.
Qed.

Lemma hundredth_gt (n : Z) (a : Q) :
  (a * 100 + (1 # 2) < inject_Z n + 1)%Q -> (a - (1 # 200) < inject_Z n / 100)%Q.
Proof.
  intros H. pose proof (hundredth_scaled (inject_Z n)) as Hs.
  set (q := (inject_Z n / 100)%Q) in *. lra.
Qed.

(** In exact arithmetic, numbers being rationals: for every amount [a],
    [centsToAmount(amountToCents(a))] is [a] rounded to two decimal places,
    that is the one multiple [n/100] of a cent with [a - 0.005 < n/100 <= a +
    0.005] (the nearest one, the upper one on a tie, as [Math.round] has it),
    so the round trip loses less than a cent; [amountToCents(19.999)] is
    2000 and [centsToAmount(2000)] is 20; and for every integer [c],
    [amountToCents(centsToAmount(c))] is [c]. *)
Theorem cents_amount_round_trip :
  (forall a : Q,
      exists n : Z,
        amountToCents (VNum a) = inject_Z n /\
        (centsToAmount (VNum (amountToCents (VNum a))) == inject_Z n / 100)%Q /\
        (a - (1 # 200) < inject_Z n / 100)%Q /\
        (inject_Z n / 100 <= a + (1 # 200))%Q /\
        (forall m : Z,
            (a - (1 # 200) < inject_Z m / 100)%Q ->
            (inject_Z m / 100 <= a + (1 # 200))%Q -> m = n)) /\
  amountToCents (VNum (19999 # 1000)) = inject_Z 2000 /\
  centsToAmount (VNum (inject_Z 2000)) = inject_Z 20 /\
  (forall c : Z, amountToCents (VNum (centsToAmount (VNum (inject_Z c)))) = inject_Z c).
Proof.
  split; [|split; [reflexivity|split; [reflexivity|]]].
  - intros a. exists (Math_round (a * 100)).
    destruct (Math_round_spec (a * 100)) as (Hlo & Hhi).
    rewrite inject_Z_plus in Hhi. change (inject_Z 1) with 1%Q in Hhi.
    split; [reflexivity|].
    split; [apply centsToAmount_integer|].
    split; [apply hundredth_gt; exact Hhi|].
    split; [apply hundredth_le; exact Hlo|].
    intros m Hm1 Hm2. symmetry. apply Qfloor_unique.
    + pose proof (hundredth_scaled (inject_Z m)) as Hs.
      set (q := (inject_Z m / 100)%Q) in *. lra.
    + rewrite inject_Z_plus. change (inject_Z 1) with 1%Q.
      pose proof (hundredth_scaled (inject_Z m)) as Hs.
      set (q := (inject_Z m / 100)%Q) in *. lra.
  - intros c. unfold amountToCents. f_equal. apply Math_round_integer.
    pose proof (centsToAmount_integer c) as H.
    pose proof (hundredth_scaled (inject_Z c)) as Hs.
    set (q := (inject_Z c / 100)%Q) in *.
    set (x := centsToAmount (VNum (inject_Z c))) in *. lra.
Qed.

(** ** Cents and amounts in binary64 *)






(** ** Card id formats (formatters.js) *)

Lemma is_hex_upper_ascii (c : ascii) : is_hex (upper_ascii c) = is_hex c.
Proof. destruct c as [[] [] [] [] [] [] [] []]; reflexivity. Qed.

Lemma upper_ascii_idem (c : ascii) : upper_ascii (upper_ascii c) = upper_ascii c.
Proof. destruct c as [[] [] [] [] [] [] [] []]; reflexivity. Qed.

Lemma is_space_upper_ascii (c : ascii) : is_space (upper_ascii c) = is_space c.
Proof. destruct c as [[] [] [] [] [] [] [] []]; reflexivity. Qed.

Lemma is_hex_not_space (c : ascii) : is_hex c = true -> is_space c = false.
Proof. destruct c as [[] [] [] [] [] [] [] []]; (reflexivity || discriminate). Qed.

Lemma is_space_not_hex (c : ascii) : is_space c = true -> is_hex c = false.
Proof. destruct c as [[] [] [] [] [] [] [] []]; (reflexivity || discriminate). Qed.

Lemma is_upper_hex_spec (c : ascii) :
  is_upper_hex c = true -> is_hex c = true /\ upper_ascii c = c.
Proof. destruct c as [[] [] [] [] [] [] [] []]; (discriminate || (split; reflexivity)). Qed.

Lemma hex_upper_app (a b : string) : hex_upper (a +:+ b) = hex_upper a +:+ hex_upper b.
Proof.
  induction a as [|c a IH]; [reflexivity|].
  change (String c a +:+ b) with (String c (a +:+ b)).
  cbn [hex_upper]. destruct (is_hex c); rewrite IH; reflexivity.
Qed.

Lemma strip_spaces_upper_app (a b : string) :
  strip_spaces_upper (a +:+ b) = strip_spaces_upper a +:+ strip_spaces_upper b.
Proof.
  induction a as [|c a IH]; [reflexivity|].
  change (String c a +:+ b) with (String c (a +:+ b)).
  cbn [strip_spaces_upper]. destruct (is_space c); rewrite IH; reflexivity.
Qed.

Lemma hex_upper_idem (s : string) : hex_upper (hex_upper s) = hex_upper s.
Proof.
  induction s as [|c s IH]; [reflexivity|].
  cbn [hex_upper]. destruct (is_hex c) eqn:Hc; [|exact IH].
  cbn [hex_upper]. rewrite is_hex_upper_ascii, Hc, upper_ascii_idem, IH. reflexivity.
Qed.

Lemma strip_hex_upper (s : string) : strip_spaces_upper (hex_upper s) = hex_upper s.
Proof.
  induction s as [|c s IH]; [reflexivity|].
  cbn [hex_upper]. destruct (is_hex c) eqn:Hc; [|exact IH].
  cbn [strip_spaces_upper].
  rewrite is_space_upper_ascii, (is_hex_not_space c Hc), upper_ascii_idem, IH. reflexivity.
Qed.

Lemma hex_upper_strip (s : string) : hex_upper (strip_spaces_upper s) = hex_upper s.
Proof.
  induction s as [|c s IH]; [reflexivity|].
  cbn [strip_spaces_upper hex_upper]. destruct (is_space c) eqn:Hc.
  - rewrite (is_space_not_hex c Hc). exact IH.
  - cbn [hex_upper]. rewrite is_hex_upper_ascii, upper_ascii_idem, IH. reflexivity.
Qed.

Lemma hex_upper_fixed (s : string) : all_chars is_upper_hex s = true -> hex_upper s = s.
Proof.
  induction s as [|c s IH]; [reflexivity|].
  cbn [all_chars hex_upper]. intros H. apply andb_prop in H as [Hc Hs].
  destruct (is_upper_hex_spec c Hc) as [H1 H2]. rewrite H1, H2, (IH Hs). reflexivity.
Qed.

(** Joining the groups with a separator that a character filter drops gives
    back what the filter makes of the ungrouped string. *)
Lemma concat_groups_of_four (f : string -> string) :
  (forall a b, f (a +:+ b) = f a +:+ f b) -> f " " = "" ->
  forall s, f (String.concat " " (groups_of_four s)) = f s.
Proof.
  intros Happ Hsp.
  assert (Hn : forall n s, (String.length s <= n)%nat ->
                           f (String.concat " " (groups_of_four s)) = f s).
  { induction n as [|n IH]; intros s Hlen.
    - destruct s; [reflexivity|cbn in Hlen; lia].
    - destruct s as [|a [|b [|c [|d r]]]]; try reflexivity.
      cbn [groups_of_four].
      assert (Hr : f (String.concat " " (groups_of_four r)) = f r).
      { apply IH. cbn [String.length] in Hlen. lia. }
      change (String a (String b (String c (String d r))))
        with (String a (String b (String c (String d ""))) +:+ r).
      rewrite (Happ _ r), <- Hr.
      destruct (groups_of_four r) as [|g gs] eqn:Hg.
      + cbn [String.concat]. destruct r as [|? [|? [|? [|? ?]]]]; try discriminate.
        cbn [String.concat] in Hr |- *. rewrite <- (Happ _ ""). reflexivity.
      + change (String.concat " " (String a (String b (String c (String d ""))) :: g :: gs))
          with (String a (String b (String c (String d ""))) +:+ " "
                +:+ String.concat " " (g :: gs)).
        rewrite !Happ, Hsp. reflexivity. }
  intros s. apply (Hn (String.length s)). lia.
Qed.

(** What [formatCardId] renders is a function of the hexadecimal digits of
    its argument. *)
Lemma formatCardId_hex_upper (s : string) :
  formatCardId s =
  match groups_of_four (hex_upper s) with
  | [] => hex_upper s
  | groups =>
      if negb (String.eqb (String.concat " " groups) "") then String.concat " " groups
      else hex_upper s
  end.
Proof.
  unfold formatCardId. destruct (String.eqb_spec s "") as [->|Hs]; reflexivity.
Qed.

Lemma hex_upper_formatCardId (s : string) : hex_upper (formatCardId s) = hex_upper s.
Proof.
  rewrite formatCardId_hex_upper.
  pose proof (concat_groups_of_four hex_upper hex_upper_app eq_refl (hex_upper s)) as H.
  rewrite hex_upper_idem in H.
  destruct (groups_of_four (hex_upper s)) as [|g gs]; [apply hex_upper_idem|].
  cbv beta iota zeta.
  match goal with |- context [if ?b then _ else _] => destruct b end;
    [exact H|apply hex_upper_idem].
Qed.

Lemma normalizeCardId_strip (s : string) : normalizeCardId s = strip_spaces_upper s.
Proof. unfold normalizeCardId. destruct (String.eqb_spec s "") as [->|]; reflexivity. Qed.

(** X1.  [formatCardId] is idempotent: formatting a card id that is already
    in display form (groups of four uppercase hexadecimal digits separated by
    single spaces) leaves it as it is, whatever the string it was made
    from. *)
Theorem formatCardId_idempotent (cardId : string) :
  formatCardId (formatCardId cardId) = formatCardId cardId.
Proof.
  rewrite (formatCardId_hex_upper (formatCardId cardId)), hex_upper_formatCardId.
  symmetry. apply formatCardId_hex_upper.
Qed.

(** X2.  [normalizeCardId] undoes [formatCardId]: normalizing the display
    form of any string gives its hexadecimal digits, uppercased and without
    separators; so a card id made of uppercase hexadecimal digits (what the
    NFC reader produces) survives the round trip through its display form,
    and [prepareCardIdForApi] gives the same. *)
Theorem normalizeCardId_formatCardId :
  (forall s, normalizeCardId (formatCardId s) = hex_upper s) /\
  (forall c, all_chars is_upper_hex c = true ->
             normalizeCardId (formatCardId c) = c /\
             prepareCardIdForApi (formatCardId c) = c).
Proof.
  assert (H : forall s, normalizeCardId (formatCardId s) = hex_upper s).
  { intros s. rewrite normalizeCardId_strip, formatCardId_hex_upper.
    pose proof (concat_groups_of_four strip_spaces_upper strip_spaces_upper_app eq_refl
                  (hex_upper s)) as Hc.
    rewrite strip_hex_upper in Hc.
    destruct (groups_of_four (hex_upper s)) as [|g gs]; [apply strip_hex_upper|].
    cbv beta iota zeta.
    match goal with |- context [if ?b then _ else _] => destruct b end;
      [exact Hc|apply strip_hex_upper]. }
  split; [exact H|].
  intros c Hc. unfold prepareCardIdForApi. rewrite H, (hex_upper_fixed c Hc). split; reflexivity.
Qed.

(** X3.  On ASCII strings, as the embedding has them, [normalizeCardId] is
    idempotent, and the display form does not depend on whether its argument
    was normalized first: [formatCardId(normalizeCardId(s))] is
    [formatCardId(s)]. *)
Theorem normalizeCardId_idempotent :
  (forall s, normalizeCardId (normalizeCardId s) = normalizeCardId s) /\
  (forall s, formatCardId (normalizeCardId s) = formatCardId s).
Proof.
  split; intros s.
  - rewrite !normalizeCardId_strip.
    induction s as [|c s IH]; [reflexivity|].
    cbn [strip_spaces_upper]. destruct (is_space c) eqn:Hc; [exact IH|].
    cbn [strip_spaces_upper]. rewrite is_space_upper_ascii, Hc, upper_ascii_idem, IH.
    reflexivity.
  - rewrite (formatCardId_hex_upper (normalizeCardId s)), normalizeCardId_strip,
      hex_upper_strip.
    symmetry. apply formatCardId_hex_upper.
Qed.

(** ** Settings and module state (api-settings.js, api.js) *)

Lemma saveApiUrl_run (url : string) (w : World) :
  saveApiUrl url w = setApiUrlItem url w.
Proof. unfold saveApiUrl. run. reflexivity. Qed.

(** X4.  Saving an API URL is a round trip with reading it: after
    [saveApiUrl(url)] (and after [saveAndVerifyApiUrl(url)], which is the same
    write and, in spite of its name, contacts nothing: it answers [true] with
    the request log unchanged), [getApiUrl] and [initApiSettings] return [url],
    or the default URL when [url] is the empty string, and the next
    reachability probe of the connectivity policy goes to that URL.  The
    write touches the [api_url] entry alone. *)
Theorem saveApiUrl_then_getApiUrl (url : string) (w : World) :
  exists w',
    saveApiUrl url w = (Return tt, w') /\
    saveAndVerifyApiUrl url w = (Return true, w') /\
    requests w' = requests w /\
    writes w' = writes w ++ [API_URL_KEY] /\
    getApiUrl w' = (Return (if String.eqb url "" then DEFAULT_API_URL else url), w') /\
    initApiSettings w' = getApiUrl w' /\
    health_probe w' = GetHealth (if String.eqb url "" then DEFAULT_API_URL else url) 3000 /\
    offlineMode w' = offlineMode w /\
    offline_mode (storage w') = offline_mode (storage w) /\
    cached_transactions w' = cached_transactions w /\
    cached_customers w' = cached_customers w /\
    card_index w' = card_index w.
Proof.
  eexists. split; [rewrite saveApiUrl_run; reflexivity|].
  split; [unfold saveAndVerifyApiUrl; run; rewrite saveApiUrl_run; reflexivity|].
  repeat split.
  - rewrite getApiUrl_run. reflexivity.
  - unfold initApiSettings. run. rewrite getApiUrl_run. reflexivity.
Qed.

(** X5.  [checkApiUrl(url)] never throws and writes nothing: it makes
    exactly one request, the health probe of the URL it is given (not of the
    saved one) with a 5000 ms abort, and makes it also when the manual offline
    flag is set; it answers [true] exactly when that request is answered
    with a status in 200..299. *)
Theorem checkApiUrl_probe (url : string) (w : World) :
  exists (b : bool) (w' : World),
    checkApiUrl url w = (Return b, w') /\
    w' = with_request (GetHealth url 5000) w /\
    (b = true <-> explicit_success (net (env w) (requests w) (GetHealth url 5000))) /\
    storage w' = storage w /\ writes w' = writes w /\ offlineMode w' = offlineMode w.
Proof.
  unfold checkApiUrl. run.
  destruct (net (env w) (requests w) (GetHealth url 5000)) as [msg|r] eqn:Hnet.
  - exists false. eexists. split; [reflexivity|]. split; [reflexivity|].
    split; [|repeat split]. split; [discriminate|].
    intros (r & Hr & _). discriminate.
  - exists (ok r). eexists. split; [reflexivity|]. split; [reflexivity|].
    split; [|repeat split]. rewrite ok_range. split.
    + intros H. exists r. split; [reflexivity|exact H].
    + intros (r' & Hr & H). injection Hr as <-. exact H.
Qed.

Lemma load_module_run (w : World) :
  load_module w =
  (Return tt,
   {| env := env w;
      offlineMode := match offline_mode (storage w) with
                     | Some s => String.eqb s "true"
                     | None => false
                     end;
      storage := storage w; requests := requests w; writes := writes w;
      clock_reads := clock_reads w; random_draws := random_draws w;
      in_flight := in_flight w |}).
Proof. reflexivity. Qed.

(** X6.  The manual offline flag survives a restart: [setOfflineMode(v)]
    sets the module variable and stores ["true"] or ["false"], and when api.js
    is loaded again on that storage its initializer restores [v]; on a storage
    that never held the flag the module starts online, and any stored text
    other than ["true"] counts as off.  Neither step contacts the network. *)
Theorem offline_flag_persists (v : bool) (w : World) :
  isOfflineMode (snd (setOfflineMode v w)) = v /\
  offline_mode (storage (snd (setOfflineMode v w))) = Some (if v then "true" else "false") /\
  writes (snd (setOfflineMode v w)) = writes w ++ [OFFLINE_MODE_KEY] /\
  isOfflineMode (snd (load_module (snd (setOfflineMode v w)))) = v /\
  storage (snd (load_module (snd (setOfflineMode v w)))) = storage (snd (setOfflineMode v w)) /\
  requests (snd (load_module (snd (setOfflineMode v w)))) = requests w /\
  (forall w0, offline_mode (storage w0) = None ->
              isOfflineMode (snd (load_module w0)) = false) /\
  (forall w0 s, offline_mode (storage w0) = Some s ->
                (isOfflineMode (snd (load_module w0)) = true <-> s = "true")).
Proof.
  repeat split; try (destruct v; reflexivity).
  - intros w0 H. rewrite load_module_run. cbn. rewrite H. reflexivity.
  - rewrite load_module_run. cbn. rewrite H. apply String.eqb_eq.
  - rewrite load_module_run. cbn. rewrite H. apply String.eqb_eq.
Qed.

(** ** The status check and the manual offline mode (api.js) *)

Lemma policy_flag_set (w : World) :
  offlineMode w = true -> shouldOperateOffline w = (Return true, w).
Proof. intros H. rewrite shouldOperateOffline_run, H. reflexivity. Qed.

Lemma checkApiStatus_run (ep : Wire) (w : World) :
  checkApiStatus ep w =
  match shouldOperateOffline w with
  | (Return true, w0) => (Return offline_status, w0)
  | (Return false, w0) =>
      let w1 := with_request (GetStatus ep (configured_url w0)) w0 in
      match net (env w0) (requests w0) (GetStatus ep (configured_url w0)) with
      | Rejected _ => (Return offline_status, w1)
      | Responded r =>
          if ok r then
            match parse_status ep (body_text r) with
            | JsonObject d =>
                (Return {| online := true;
                           version := if truthy (data_version d) then data_version d
                                      else VStr API_VERSION;
                           serverTime := data_serverTime d |}, w1)
            | _ => (Return offline_status, w1)
            end
          else (Return offline_status, w1)
      end
  | (Throw e, w0) => (Throw e, w0)
  end.
Proof.
  unfold checkApiStatus, bind at 1.
  destruct (shouldOperateOffline w) as [[[|]|e] w0]; try reflexivity.
  unfold try_catch, bind at 1. rewrite getApiUrl_run.
  unfold bind at 1, fetch.
  destruct (net (env w0) (requests w0) (GetStatus ep (configured_url w0))) as [msg|r];
    [reflexivity|].
  cbv zeta. fold (with_request (GetStatus ep (configured_url w0)) w0).
  destruct (ok r); [|reflexivity].
  cbn [negb]. unfold bind, status_json.
  destruct (parse_status ep (body_text r)); reflexivity.
Qed.

(** X7.  [checkApiStatus] and [checkApiConnection] never throw and write
    nothing.  The status is online only when the connectivity policy answered
    online, the status endpoint answered with a 2xx status and its body read
    as an object; in every other case (policy offline, rejected fetch, non-2xx
    status, a body that is [null] or not JSON) it is exactly
    [{ online: false, version: API_VERSION }].  The reported version is never
    empty: a missing or empty server version is replaced by [API_VERSION].
    [checkApiConnection] is the [online] property of that status. *)
Theorem checkApiStatus_total (ep : Wire) (w : World) :
  exists (st : ApiStatus) (w' : World),
    checkApiStatus ep w = (Return st, w') /\
    checkApiConnection ep w = (Return (online st), w') /\
    truthy (version st) = true /\
    (online st = false -> st = offline_status) /\
    (online st = true ->
     fst (shouldOperateOffline w) = Return false /\
     exists r d,
       net (env w) (requests (snd (shouldOperateOffline w)))
         (GetStatus ep (configured_url w)) = Responded r /\
       ok r = true /\
       parse_status ep (body_text r) = JsonObject d /\
       version st = (if truthy (data_version d) then data_version d else VStr API_VERSION) /\
       serverTime st = data_serverTime d) /\
    storage w' = storage w /\ writes w' = writes w /\ offlineMode w' = offlineMode w.
Proof.
  assert (Hconn : forall st w', checkApiStatus ep w = (Return st, w') ->
                                checkApiConnection ep w = (Return (online st), w')).
  { intros st w' H. unfold checkApiConnection, try_catch, bind. rewrite H. reflexivity. }
  pose proof (checkApiStatus_run ep w) as Hrun.
  destruct (shouldOperateOffline w) as [[b|e] w0] eqn:Hpol.
  2:{ destruct (shouldOperateOffline_returns w) as [b Hb]. rewrite Hpol in Hb. discriminate. }
  destruct (policy_world w w0 b Hpol) as (He & Hf & Hs & _ & _ & _).
  assert (Hurl : configured_url w0 = configured_url w).
  { unfold configured_url. rewrite Hs. reflexivity. }
  assert (Hoff : forall w1, storage w1 = storage w0 -> writes w1 = writes w0 ->
                            offlineMode w1 = offlineMode w0 ->
                            checkApiStatus ep w = (Return offline_status, w1) ->
                            exists (st : ApiStatus) (w' : World),
    checkApiStatus ep w = (Return st, w') /\
    checkApiConnection ep w = (Return (online st), w') /\
    truthy (version st) = true /\
    (online st = false -> st = offline_status) /\
    (online st = true ->
     Return (A := bool) b = Return false /\
     exists r d,
       net (env w) (requests w0) (GetStatus ep (configured_url w)) = Responded r /\
       ok r = true /\
       parse_status ep (body_text r) = JsonObject d /\
       version st = (if truthy (data_version d) then data_version d else VStr API_VERSION) /\
       serverTime st = data_serverTime d) /\
    storage w1 = storage w /\ writes w1 = writes w /\ offlineMode w1 = offlineMode w).
  { intros w1 H1 H2 H3 H. exists offline_status, w1.
    split; [exact H|]. split; [apply Hconn; exact H|].
    split; [reflexivity|]. split; [reflexivity|]. split; [discriminate|].
    pose proof (shouldOperateOffline_frame w) as (Hst & Hwr & _).
    rewrite Hpol in Hst, Hwr. cbn [snd] in Hst, Hwr.
    rewrite H1, H2, H3. auto. }
  cbn [fst snd].
  destruct b.
  - destruct (Hoff w0 eq_refl eq_refl eq_refl Hrun) as (st & w' & H1 & H2 & H3 & H4 & H5 & H6).
    exists st, w'. repeat (split; [assumption|]).
    injection (eq_trans (eq_sym H1) Hrun) as -> ->. exact H6.
  - cbv zeta in Hrun. rewrite Hurl, He in Hrun.
    set (w1 := with_request (GetStatus ep (configured_url w)) w0) in *.
    destruct (net (env w) (requests w0) (GetStatus ep (configured_url w))) as [msg|r] eqn:Hnet.
    { destruct (Hoff w1 eq_refl eq_refl eq_refl Hrun) as (st & w' & H1 & H2 & H3 & H4 & H5 & H6).
      exists st, w'. repeat (split; [assumption|]).
      injection (eq_trans (eq_sym H1) Hrun) as -> ->. exact H6. }
    destruct (ok r) eqn:Hok.
    2:{ destruct (Hoff w1 eq_refl eq_refl eq_refl Hrun) as (st & w' & H1 & H2 & H3 & H4 & H5 & H6).
        exists st, w'. repeat (split; [assumption|]).
        injection (eq_trans (eq_sym H1) Hrun) as -> ->. exact H6. }
    destruct (parse_status ep (body_text r)) as [| |d] eqn:Hparse.
    1,2: destruct (Hoff w1 eq_refl eq_refl eq_refl Hrun)
           as (st & w' & H1 & H2 & H3 & H4 & H5 & H6);
         exists st, w'; repeat (split; [assumption|]);
         injection (eq_trans (eq_sym H1) Hrun) as -> ->; exact H6.
    eexists. exists w1. split; [exact Hrun|]. split; [apply Hconn; exact Hrun|].
    cbn [online version serverTime].
    split; [destruct (truthy (data_version d)) eqn:Hv; [exact Hv|reflexivity]|].
    split; [discriminate|].
    split.
    + intros _. split; [reflexivity|]. exists r, d. auto.
    + pose proof (shouldOperateOffline_frame w) as (Hst & Hwr & _).
      rewrite Hpol in Hst, Hwr. cbn [snd] in Hst, Hwr.
      subst w1. cbn. auto.
Qed.

Lemma getOfflineCustomerById_run (i : value) (w : World) :
  customerAPI.getOfflineCustomerById i w
  = (Return (List.find (fun c => strict_eq (id c) i) (cached_customers w)), w).
Proof. reflexivity. Qed.

Lemma getAllOfflineCustomers_run (w : World) :
  customerAPI_getAllOfflineCustomers w = (Return (cached_customers w), w).
Proof. reflexivity. Qed.


Lemma getOfflineTransactionById_run (tid : value) (w : World) :
  transactionAPI_getOfflineTransactionById tid w
  = (Return (List.find (fun t => strict_eq (transactionId t) tid) (cached_transactions w)), w).
Proof. reflexivity. Qed.

Lemma getOfflineTransactionsByCardId_run (card : value) (w : World) :
  transactionAPI_getOfflineTransactionsByCardId card w
  = (Return (List.filter (fun t => strict_eq (txCardId t) card) (cached_transactions w)), w).
Proof. reflexivity. Qed.

(** With the flag set, every operation is its offline counterpart. *)
Lemma flag_set_operations (ep : Wire) (w : World) :
  offlineMode w = true ->
  (forall card, customerAPI.getByCardId card w = customerAPI.getOfflineCustomerByCardId card w) /\
  (forall i, customerAPI_getById ep i w = customerAPI.getOfflineCustomerById i w) /\
  customerAPI_getAll ep w = customerAPI_getAllOfflineCustomers w /\
  (forall i amount,
      customerAPI.updateBalance i amount w = customerAPI.updateOfflineBalance i amount w) /\
  (forall customerData,
      customerAPI.register customerData w = (Throw offline_registration_error, w)) /\
  (forall tid, transactionAPI_getById ep tid w = transactionAPI_getOfflineTransactionById tid w) /\
  transactionAPI_getAll ep w = transactionAPI.getAllOfflineTransactions w /\
  (forall card,
      transactionAPI_getByCardId ep card w
      = transactionAPI_getOfflineTransactionsByCardId card w) /\
  transactionAPI.syncOfflineTransactions w = (Throw offline_sync_error, w) /\
  checkApiStatus ep w = (Return offline_status, w).
Proof.
  intros H. pose proof (policy_flag_set w H) as Hp.
  repeat split; intros;
    try (unfold customerAPI.getByCardId, customerAPI_getById, customerAPI_getAll,
           customerAPI.updateBalance, customerAPI.register, transactionAPI_getById,
           transactionAPI_getAll, transactionAPI_getByCardId,
           transactionAPI.syncOfflineTransactions, checkApiStatus;
         unfold bind at 1; rewrite Hp; reflexivity).
Qed.

Lemma updateOfflineBalance_requests (i : value) (amount : Q) (w : World) :
  requests (snd (customerAPI.updateOfflineBalance i amount w)) = requests w /\
  offlineMode (snd (customerAPI.updateOfflineBalance i amount w)) = offlineMode w.
Proof.
  rewrite updateOfflineBalance_run.
  destruct (List.find _ (cached_customers w)) as [c|]; [|split; reflexivity].
  cbn [snd]. destruct (cache_run_frame (add_balance c (amountToCents (VNum amount))) w)
    as (_ & Hf & Hr & _). split; assumption.
Qed.

(** X8.  After [setOfflineMode(true)] no operation of the data layer
    contacts the network, not even for the reachability probe: the reads
    ([getByCardId], [getById], [getAll] of both repositories, the
    transactions of a card, the status check) answer from the cache,
    [updateBalance] and [create] work on the cache, [register] and
    [syncOfflineTransactions] throw; in every case the request log is the one
    before. *)
Theorem manual_offline_contacts_nothing (ep : Wire) (w : World)
    (card : string) (i tid cardv : value) (amount : Q)
    (customerData : Customer) (transactionData : Transaction) :
  let w1 := snd (setOfflineMode true w) in
  shouldOperateOffline w1 = (Return true, w1) /\
  customerAPI.getByCardId card w1 = (Return (card_index w !! card), w1) /\
  customerAPI_getById ep i w1
  = (Return (List.find (fun c => strict_eq (id c) i) (cached_customers w)), w1) /\
  customerAPI_getAll ep w1 = (Return (cached_customers w), w1) /\
  transactionAPI_getById ep tid w1
  = (Return (List.find (fun t => strict_eq (transactionId t) tid) (cached_transactions w)),
     w1) /\
  transactionAPI_getAll ep w1 = (Return (cached_transactions w), w1) /\
  transactionAPI_getByCardId ep cardv w1
  = (Return (List.filter (fun t => strict_eq (txCardId t) cardv) (cached_transactions w)),
     w1) /\
  checkApiStatus ep w1 = (Return offline_status, w1) /\
  customerAPI.register customerData w1 = (Throw offline_registration_error, w1) /\
  transactionAPI.syncOfflineTransactions w1 = (Throw offline_sync_error, w1) /\
  requests (snd (customerAPI.updateBalance i amount w1)) = requests w /\
  requests (snd (transactionAPI.create transactionData w1)) = requests w /\
  requests w1 = requests w.
Proof.
  intros w1.
  assert (Hflag : offlineMode w1 = true) by reflexivity.
  destruct (flag_set_operations ep w1 Hflag)
    as (H1 & H2 & H3 & H4 & H5 & H6 & H7 & H8 & H9 & H10).
  split; [apply policy_flag_set; exact Hflag|].
  split; [rewrite H1; reflexivity|].
  split; [rewrite H2; reflexivity|].
  split; [rewrite H3; reflexivity|].
  split; [rewrite H6; reflexivity|].
  split; [rewrite H7; reflexivity|].
  split; [rewrite H8; reflexivity|].
  split; [exact H10|]. split; [apply H5|]. split; [exact H9|].
  split; [rewrite H4; apply (updateOfflineBalance_requests i amount w1)|].
  split; [|reflexivity].
  rewrite create_run, (policy_flag_set w1 Hflag), processTransaction_run.
  unfold queued.
  set (t := offline_record (process_data transactionData) w1).
  set (w2 := after_offline_create (process_data transactionData) w1).
  cbn [snd].
  destruct (balance_step_requests t w2) as (extra & Hrq & _ & Hnone & _).
  rewrite Hrq, (Hnone eq_refl), app_nil_r. reflexivity.
Qed.

(** ** The customer cache (api.js) *)

Lemma strict_eq_refl (v : value) : strict_eq v v = true.
Proof.
  destruct v as [| |b|q|s]; cbn; try reflexivity.
  - destruct b; reflexivity.
  - apply Qeq_bool_iff. reflexivity.
  - apply String.eqb_refl.
Qed.

Lemma strict_eq_congr (a b c : value) :
  strict_eq a b = true -> strict_eq a c = strict_eq b c.
Proof.
  destruct a as [| |x|x|x], b as [| |y|y|y]; cbn; try discriminate; try reflexivity;
    intros H; destruct c as [| |z|z|z]; try reflexivity; cbn.
  - apply Bool.eqb_prop in H. subst. reflexivity.
  - apply Qeq_bool_iff in H.
    destruct (Qeq_bool x z) eqn:H1, (Qeq_bool y z) eqn:H2; try reflexivity.
    + apply Qeq_bool_iff in H1. apply Qeq_bool_neq in H2. exfalso. apply H2.
      rewrite <- H. exact H1.
    + apply Qeq_bool_iff in H2. apply Qeq_bool_neq in H1. exfalso. apply H1.
      rewrite H. exact H2.
  - apply String.eqb_eq in H. subst. reflexivity.
Qed.

Lemma strict_eq_sym (a b : value) : strict_eq a b = strict_eq b a.
Proof.
  destruct a as [| |x|x|x], b as [| |y|y|y]; cbn; try reflexivity.
  - destruct x, y; reflexivity.
  - destruct (Qeq_bool x y) eqn:H1, (Qeq_bool y x) eqn:H2; try reflexivity.
    + apply Qeq_bool_iff in H1. apply Qeq_bool_neq in H2. exfalso. apply H2.
      symmetry. exact H1.
    + apply Qeq_bool_iff in H2. apply Qeq_bool_neq in H1. exfalso. apply H1.
      symmetry. exact H2.
  - apply String.eqb_sym.
Qed.

Lemma upsert_cons (customer x : Customer) (r : list Customer) :
  upsert customer (x :: r) =
  if strict_eq (id x) (id customer) then customer :: r else x :: upsert customer r.
Proof.
  unfold upsert. cbn [findIndex]. destruct (strict_eq (id x) (id customer)); [reflexivity|].
  destruct (findIndex _ r); reflexivity.
Qed.

Lemma find_upsert_own (customer : Customer) (l : list Customer) :
  List.find (fun c => strict_eq (id c) (id customer)) (upsert customer l) = Some customer.
Proof.
  induction l as [|x r IH].
  - cbn. rewrite strict_eq_refl. reflexivity.
  - rewrite upsert_cons. destruct (strict_eq (id x) (id customer)) eqn:Hx.
    + cbn. rewrite strict_eq_refl. reflexivity.
    + cbn [List.find]. rewrite Hx. exact IH.
Qed.

Lemma find_upsert_other (customer : Customer) (j : value) (l : list Customer) :
  strict_eq (id customer) j = false ->
  List.find (fun c => strict_eq (id c) j) (upsert customer l)
  = List.find (fun c => strict_eq (id c) j) l.
Proof.
  intros Hj. induction l as [|x r IH].
  - cbn. rewrite Hj. reflexivity.
  - rewrite upsert_cons. destruct (strict_eq (id x) (id customer)) eqn:Hx.
    + cbn [List.find]. rewrite (strict_eq_congr _ _ j Hx), Hj. reflexivity.
    + cbn [List.find]. rewrite IH. reflexivity.
Qed.

Lemma cached_customers_cache_run (customer : Customer) (w : World) :
  cached_customers (cache_run customer w) = upsert customer (cached_customers w).
Proof. unfold cached_customers. rewrite cache_run_storage. reflexivity. Qed.

Lemma cached_transactions_cache_run (customer : Customer) (w : World) :
  cached_transactions (cache_run customer w) = cached_transactions w.
Proof. unfold cached_transactions. rewrite cache_run_storage. reflexivity. Qed.

(** X9.  Insert and lookup by id: after [cacheOfflineCustomer(customer)]
    has run, [getOfflineCustomerById(customer.id)] returns that customer, the
    lookup of every other id answers as before, [getAllOfflineCustomers] lists
    the collection with the customer in the place of the first record of the
    same id or else at the end, and the collection has grown by one record or
    not at all. *)
Theorem cache_then_get_by_id (customer : Customer) (w : World) :
  let w' := snd (customerAPI.cacheOfflineCustomer customer w) in
  customerAPI.getOfflineCustomerById (id customer) w' = (Return (Some customer), w') /\
  (forall j, strict_eq (id customer) j = false ->
             fst (customerAPI.getOfflineCustomerById j w')
             = fst (customerAPI.getOfflineCustomerById j w)) /\
  customerAPI_getAllOfflineCustomers w'
  = (Return (upsert customer (cached_customers w)), w') /\
  (forall x r, upsert customer (x :: r) =
               if strict_eq (id x) (id customer) then customer :: r
               else x :: upsert customer r) /\
  upsert customer [] = [customer] /\
  (length (cached_customers w') = length (cached_customers w) \/
   length (cached_customers w') = S (length (cached_customers w))).
Proof.
  intros w'. subst w'. rewrite cacheOfflineCustomer_run. cbn [snd].
  rewrite !getOfflineCustomerById_run, getAllOfflineCustomers_run,
    cached_customers_cache_run.
  split; [rewrite find_upsert_own; reflexivity|].
  split.
  { intros j Hj. rewrite !getOfflineCustomerById_run, cached_customers_cache_run.
    cbn [fst]. rewrite (find_upsert_other customer j _ Hj). reflexivity. }
  split; [reflexivity|]. split; [apply upsert_cons|]. split; [reflexivity|].
  rewrite upsert_length. destruct (existsb _ _); [left|right]; reflexivity.
Qed.

Lemma find_by_equal_id (a b : value) (l : list Customer) :
  strict_eq a b = true ->
  List.find (fun c => strict_eq (id c) a) l = List.find (fun c => strict_eq (id c) b) l.
Proof.
  intros H. induction l as [|x r IH]; [reflexivity|].
  cbn [List.find]. rewrite (strict_eq_sym (id x) a), (strict_eq_congr a b (id x) H),
    (strict_eq_sym b (id x)), IH. reflexivity.
Qed.

(** X10.  An offline balance update of a cached customer is read back:
    [updateOfflineBalance(id, amount)] returns the first cached record of that
    id with [amountToCents(amount)] added to its balance and nothing else
    changed, stores it, and then [getOfflineCustomerById(id)] and, for a
    customer with a card, [getOfflineCustomerByCardId(cardId)] return that
    updated record; a second update adds to the first.  No request is made
    and the transaction queue is untouched. *)
Theorem updateOfflineBalance_read_back
    (i : value) (amount : Q) (w : World) (customer : Customer) :
  List.find (fun c => strict_eq (id c) i) (cached_customers w) = Some customer ->
  exists customer' w',
    customerAPI.updateOfflineBalance i amount w = (Return customer', w') /\
    customer' = add_balance customer (amountToCents (VNum amount)) /\
    (balance customer' == balance customer + amountToCents (VNum amount))%Q /\
    id customer' = id customer /\ cardId customer' = cardId customer /\
    name customer' = name customer /\
    customerAPI.getOfflineCustomerById i w' = (Return (Some customer'), w') /\
    (forall card, cardId customer = Some card -> card <> "" ->
                  customerAPI.getOfflineCustomerByCardId card w'
                  = (Return (Some customer'), w')) /\
    (forall amount2, exists customer'' w'',
        customerAPI.updateOfflineBalance i amount2 w' = (Return customer'', w'') /\
        (balance customer'' ==
         balance customer + amountToCents (VNum amount) + amountToCents (VNum amount2))%Q) /\
    requests w' = requests w /\
    cached_transactions w' = cached_transactions w.
Proof.
  intros Hfind.
  assert (Hid : strict_eq (id customer) i = true).
  { apply List.find_some in Hfind. apply Hfind. }
  set (customer' := add_balance customer (amountToCents (VNum amount))).
  assert (Hback : List.find (fun c => strict_eq (id c) i)
                    (cached_customers (cache_run customer' w)) = Some customer').
  { rewrite cached_customers_cache_run.
    rewrite <- (find_by_equal_id (id customer') i _ Hid). apply find_upsert_own. }
  exists customer', (cache_run customer' w).
  split; [rewrite updateOfflineBalance_run, Hfind; reflexivity|].
  split; [reflexivity|].
  split; [unfold customer', add_balance; cbn [balance]; apply Qred_correct|].
  split; [reflexivity|]. split; [reflexivity|]. split; [reflexivity|].
  split; [rewrite getOfflineCustomerById_run, Hback; reflexivity|].
  split.
  { intros card Hcard Hne. rewrite getOfflineCustomerByCardId_run.
    rewrite (put_card_index_own customer' card w Hcard Hne). reflexivity. }
  split.
  { intros amount2. eexists. eexists.
    split; [rewrite updateOfflineBalance_run, Hback; reflexivity|].
    unfold customer', add_balance. cbn [balance]. rewrite !Qred_correct. reflexivity. }
  split; [apply cache_run_frame|apply cached_transactions_cache_run].
Qed.

Lemma updateOfflineBalance_read_back_witness :
  exists customer' w',
    customerAPI.updateOfflineBalance (VNum 1) (-(1999 # 100)) offline_with_alice
    = (Return customer', w') /\
    customer' = add_balance alice (amountToCents (VNum (-(1999 # 100)))) /\
    (balance customer' == balance alice + amountToCents (VNum (-(1999 # 100))))%Q /\
    id customer' = id alice /\ cardId customer' = cardId alice /\
    name customer' = name alice /\
    customerAPI.getOfflineCustomerById (VNum 1) w' = (Return (Some customer'), w') /\
    (forall card, cardId alice = Some card -> card <> "" ->
                  customerAPI.getOfflineCustomerByCardId card w'
                  = (Return (Some customer'), w')) /\
    (forall amount2, exists customer'' w'',
        customerAPI.updateOfflineBalance (VNum 1) amount2 w' = (Return customer'', w'') /\
        (balance customer'' ==
         balance alice + amountToCents (VNum (-(1999 # 100)))
         + amountToCents (VNum amount2))%Q) /\
    requests w' = requests offline_with_alice /\
    cached_transactions w' = cached_transactions offline_with_alice.
Proof.
  apply (updateOfflineBalance_read_back (VNum 1) (-(1999 # 100)) offline_with_alice alice).
  reflexivity.
Defined.

Lemma customerId_process_data (data : Transaction) :
  customerId (process_data data) = customerId data.
Proof. unfold process_data. cbn. destruct (items data); reflexivity. Qed.

(** X11.  In manual offline mode a payment of a customer who is not in the
    cache is still recorded: [create] queues the offline record and returns
    it, the failure of the balance update ("not found in offline cache") is
    swallowed, and nothing but the queue changes: no customer record, no index
    entry, no request. *)
Theorem create_offline_unknown_customer (transactionData : Transaction) (w : World) :
  offlineMode w = true ->
  List.find (fun c => strict_eq (id c) (customerId transactionData)) (cached_customers w)
  = None ->
  exists t w',
    transactionAPI.create transactionData w = (Return (Some t), w') /\
    t = offline_record (process_data transactionData) w /\
    w' = after_offline_create (process_data transactionData) w /\
    customerAPI.updateBalance (customerId t) (debit t) w'
    = (Throw (CustomerNotFound (customerId transactionData)), w') /\
    cached_transactions w' = cached_transactions w ++ [t] /\
    cached_customers w' = cached_customers w /\
    card_index w' = card_index w /\
    requests w' = requests w.
Proof.
  intros Hflag Hfind.
  set (t := offline_record (process_data transactionData) w).
  set (w' := after_offline_create (process_data transactionData) w).
  assert (Hid : customerId t = customerId transactionData).
  { apply customerId_process_data. }
  assert (Hbal : customerAPI.updateBalance (customerId t) (debit t) w'
                 = (Throw (CustomerNotFound (customerId transactionData)), w')).
  { rewrite updateBalance_run. change (offlineMode w') with (offlineMode w).
    rewrite Hflag, updateOfflineBalance_run, Hid.
    change (cached_customers w') with (cached_customers w). rewrite Hfind. reflexivity. }
  exists t, w'.
  split.
  { rewrite create_run, (policy_flag_set w Hflag), processTransaction_run.
    unfold queued. fold t w'. unfold balance_step.
    destruct (truthy (customerId t)); [rewrite Hbal|]; reflexivity. }
  repeat split. exact Hbal.
Qed.

Lemma create_offline_unknown_customer_witness :
  exists t w',
    transactionAPI.create payment forced_offline = (Return (Some t), w') /\
    t = offline_record (process_data payment) forced_offline /\
    w' = after_offline_create (process_data payment) forced_offline /\
    customerAPI.updateBalance (customerId t) (debit t) w'
    = (Throw (CustomerNotFound (customerId payment)), w') /\
    cached_transactions w' = cached_transactions forced_offline ++ [t] /\
    cached_customers w' = cached_customers forced_offline /\
    card_index w' = card_index forced_offline /\
    requests w' = requests forced_offline.
Proof.
  apply (create_offline_unknown_customer payment forced_offline); reflexivity.
Defined.

(** X12.  The card-id index is never pruned.  When a customer is cached
    again with another card id (same id, the old card id no longer its own),
    the entry of the old card id stays and still holds the old record: the
    lookup by the old card id returns the old record while the lookup by id
    returns the new one. *)
Theorem replaced_card_keeps_stale_entry
    (before after : Customer) (old : string) (w : World) :
  cardId before = Some old -> old <> "" ->
  strict_eq (id before) (id after) = true ->
  cardId after <> Some old ->
  exists w',
    w' = put_all [before; after] w /\
    customerAPI.getOfflineCustomerByCardId old w' = (Return (Some before), w') /\
    customerAPI.getOfflineCustomerById (id before) w' = (Return (Some after), w') /\
    (forall card, cardId after = Some card -> card <> "" ->
                  customerAPI.getOfflineCustomerByCardId card w' = (Return (Some after), w')).
Proof.
  intros Hold Hne Hid Hnew. eexists. split; [reflexivity|].
  cbn [put_all]. rewrite !cacheOfflineCustomer_run. cbn [snd].
  split.
  { rewrite getOfflineCustomerByCardId_run, (put_card_index_other after old _ Hnew),
      (put_card_index_own before old w Hold Hne). reflexivity. }
  split.
  { rewrite getOfflineCustomerById_run, cached_customers_cache_run,
      (find_by_equal_id (id before) (id after) _ Hid), find_upsert_own. reflexivity. }
  intros card Hcard Hc.
  rewrite getOfflineCustomerByCardId_run, (put_card_index_own after card _ Hcard Hc).
  reflexivity.
Qed.

Lemma replaced_card_keeps_stale_entry_witness :
  exists w',
    w' = put_all [alice; alice_new_card] forced_offline /\
    customerAPI.getOfflineCustomerByCardId "04A1B2C3" w' = (Return (Some alice), w') /\
    customerAPI.getOfflineCustomerById (id alice) w' = (Return (Some alice_new_card), w') /\
    (forall card, cardId alice_new_card = Some card -> card <> "" ->
                  customerAPI.getOfflineCustomerByCardId card w'
                  = (Return (Some alice_new_card), w')).
Proof.
  apply (replaced_card_keeps_stale_entry alice alice_new_card "04A1B2C3" forced_offline);
    (reflexivity || discriminate).
Defined.

(** X13.  An amount that is not a number is never converted and never
    debited: [create] stores it as it was given, and the balance step that
    follows computes a delta of zero cents ([centsToAmount] answers 0 for
    anything but a number), so the balance it is added to keeps its value and
    the request of an online balance update carries the amount 0. *)
Theorem non_numeric_amount_debits_nothing (t : Transaction) :
  is_number (amount t) = false ->
  amount (process_data t) = amount t /\
  (forall w, amount (offline_record (process_data t) w) = amount t) /\
  amountToCents (VNum (debit t)) = 0%Q /\
  (forall c, (balance (add_balance c (amountToCents (VNum (debit t)))) == balance c)%Q) /\
  (forall w, balance_call (customerId t) (debit t) w
             = PostBalance (configured_url w) (customerId t) 0).
Proof.
  intros Hn.
  assert (Ha : amount (process_data t) = amount t).
  { unfold process_data, to_cents. rewrite Hn. cbn. destruct (items t); reflexivity. }
  assert (Hd : amountToCents (VNum (debit t)) = 0%Q).
  { unfold debit, centsToAmount. destruct (amount t); try discriminate; reflexivity. }
  split; [exact Ha|]. split; [intros w; exact Ha|]. split; [exact Hd|].
  split.
  - intros c. rewrite Hd. unfold add_balance. cbn [balance]. rewrite Qred_correct. lra.
  - intros w. unfold balance_call. rewrite Hd. reflexivity.
Qed.

Lemma non_numeric_amount_debits_nothing_witness :
  amount (process_data payment_text_amount) = amount payment_text_amount /\
  (forall w, amount (offline_record (process_data payment_text_amount) w)
             = amount payment_text_amount) /\
  amountToCents (VNum (debit payment_text_amount)) = 0%Q /\
  (forall c, (balance (add_balance c (amountToCents (VNum (debit payment_text_amount))))
              == balance c)%Q) /\
  (forall w, balance_call (customerId payment_text_amount) (debit payment_text_amount) w
             = PostBalance (configured_url w) (customerId payment_text_amount) 0).
Proof.
  apply (non_numeric_amount_debits_nothing payment_text_amount). reflexivity.
Defined.

(** ** The transaction queue (api.js) *)

Lemma find_snoc {A} (p : A -> bool) (l : list A) (x : A) :
  List.find p (l ++ [x]) =
  match List.find p l with
  | Some y => Some y
  | None => if p x then Some x else None
  end.
Proof.
  induction l as [|y l IH]; [reflexivity|].
  cbn [app List.find]. destruct (p y); [reflexivity|exact IH].
Qed.

Lemma filter_snoc {A} (p : A -> bool) (l : list A) (x : A) :
  List.filter p (l ++ [x]) = List.filter p l ++ (if p x then [x] else []).
Proof. rewrite List.filter_app. reflexivity. Qed.

(** X14.  Insert and lookup in the offline queue: the record
    [createOfflineTransaction] returns is appended to the queue, so it is the
    last one [getAllOfflineTransactions] lists, the last one among the
    transactions of its card, and the last one the next sync pass selects.
    [getOfflineTransactionById] with its temporary id returns it unless an
    older queued record carries the same id (same millisecond, same random
    suffix), in which case the older record is returned; the lookup of an id
    that an older record has is unchanged. *)
Theorem createOfflineTransaction_then_lookup (transactionData : Transaction) (w : World) :
  exists t w',
    transactionAPI.createOfflineTransaction transactionData w = (Return t, w') /\
    transactionId t = VStr (offline_id w) /\
    transactionAPI.getAllOfflineTransactions w'
    = (Return (cached_transactions w ++ [t]), w') /\
    (forall card,
        transactionAPI_getOfflineTransactionsByCardId card w'
        = (Return (List.filter (fun x => strict_eq (txCardId x) card) (cached_transactions w)
                   ++ (if strict_eq (txCardId transactionData) card then [t] else [])),
           w')) /\
    selected (cached_transactions w') = selected (cached_transactions w) ++ [t] /\
    (forall tid,
        transactionAPI_getOfflineTransactionById tid w'
        = (Return match List.find (fun x => strict_eq (transactionId x) tid)
                          (cached_transactions w) with
                  | Some older => Some older
                  | None => if strict_eq (VStr (offline_id w)) tid then Some t else None
                  end,
           w')) /\
    (List.find (fun x => strict_eq (transactionId x) (VStr (offline_id w)))
       (cached_transactions w) = None ->
     transactionAPI_getOfflineTransactionById (transactionId t) w' = (Return (Some t), w')).
Proof.
  exists (offline_record transactionData w), (after_offline_create transactionData w).
  split; [apply createOfflineTransaction_run|]. split; [reflexivity|].
  split; [reflexivity|].
  assert (Hq : cached_transactions (after_offline_create transactionData w)
               = cached_transactions w ++ [offline_record transactionData w]) by reflexivity.
  split.
  { intros card. rewrite getOfflineTransactionsByCardId_run, Hq, filter_snoc. reflexivity. }
  split.
  { unfold selected. rewrite Hq, filter_snoc. reflexivity. }
  assert (Hlookup : forall tid,
    transactionAPI_getOfflineTransactionById tid (after_offline_create transactionData w)
    = (Return match List.find (fun x => strict_eq (transactionId x) tid)
                      (cached_transactions w) with
              | Some older => Some older
              | None => if strict_eq (VStr (offline_id w)) tid
                        then Some (offline_record transactionData w) else None
              end,
       after_offline_create transactionData w)).
  { intros tid. rewrite getOfflineTransactionById_run, Hq, find_snoc. reflexivity. }
  split; [exact Hlookup|].
  intros Hfresh. rewrite Hlookup. cbn [transactionId offline_record stamp_offline].
  rewrite Hfresh, strict_eq_refl. reflexivity.
Qed.

(** ** The sync engine, pass after pass *)

Lemma selected_settle_length (txs : list Transaction) :
  forall outs,
    length outs = length (selected txs) ->
    length (selected (settle txs outs)) = length (List.filter rejected outs).
Proof.
  induction txs as [|t txs IH]; intros outs Hlen.
  - destruct outs; [reflexivity|discriminate].
  - cbn [settle]. unfold selected in *. cbn [List.filter] in Hlen |- *.
    destruct (is_pending t) eqn:Hp.
    + destruct outs as [|o outs]; [discriminate|].
      cbn [length] in Hlen. injection Hlen as Hlen.
      cbn [List.filter]. unfold rejected at 1.
      destruct (accepted o) eqn:Ho; cbn [negb].
      * destruct (settle_one_accepted o t Ho) as (_ & _ & _ & Hnp). rewrite Hnp.
        apply IH. exact Hlen.
      * destruct (settle_one_rejected o t Ho) as (_ & _ & _ & Hsp). rewrite Hsp, Hp.
        cbn [length]. f_equal. apply IH. exact Hlen.
    + cbn [List.filter]. rewrite Hp. apply IH. exact Hlen.
Qed.

Lemma selected_settle_In (txs : list Transaction) :
  forall outs t',
    length outs = length (selected txs) ->
    In t' (selected (settle txs outs)) ->
    exists t o, In t (selected txs) /\ In o outs /\ accepted o = false /\
                t' = mark_failed (failure_message o) t.
Proof.
  induction txs as [|t txs IH]; intros outs t' Hlen Hin.
  - destruct Hin.
  - cbn [settle] in Hin. unfold selected in *. cbn [List.filter] in Hlen |- *.
    destruct (is_pending t) eqn:Hp.
    + destruct outs as [|o outs]; [discriminate|].
      cbn [length] in Hlen. injection Hlen as Hlen.
      cbn [List.filter] in Hin.
      destruct (accepted o) eqn:Ho.
      * destruct (settle_one_accepted o t Ho) as (_ & _ & _ & Hnp). rewrite Hnp in Hin.
        destruct (IH outs t' Hlen Hin) as (t0 & o0 & H1 & H2 & H3 & H4).
        exists t0, o0. repeat split; try assumption; right; assumption.
      * destruct (settle_one_rejected o t Ho) as (Heq & _ & _ & Hsp).
        rewrite Hsp, Hp in Hin. destruct Hin as [<-|Hin].
        -- exists t, o. repeat split; try assumption; left; reflexivity.
        -- destruct (IH outs t' Hlen Hin) as (t0 & o0 & H1 & H2 & H3 & H4).
           exists t0, o0. repeat split; try assumption; right; assumption.
    + cbn [List.filter] in Hin. rewrite Hp in Hin.
      apply (IH outs t' Hlen Hin).
Qed.

(** X15.  What a sync pass leaves for the next one: after a pass made
    online, the records that are still selected (offline-created and pending)
    are exactly as many as the pass counted as failed, and each of them is a
    record of the pass's selection with the failure message in [syncError]; a
    completed record is never selected again.  When nothing failed, the next
    pass that finds the server reachable sends no sync request, writes nothing
    and reports 0/0/0. *)
Theorem sync_leaves_failed_for_retry (w w0 : World) :
  shouldOperateOffline w = (Return false, w0) ->
  exists results w',
    transactionAPI.syncOfflineTransactions w = (Return results, w') /\
    Z.of_nat (length (selected (cached_transactions w'))) = failed results /\
    (forall t', In t' (selected (cached_transactions w')) ->
                exists t msg, In t (selected (cached_transactions w)) /\
                              t' = mark_failed msg t /\ syncError t' = VStr msg) /\
    (failed results = 0 ->
     forall w1, shouldOperateOffline w' = (Return false, w1) ->
                transactionAPI.syncOfflineTransactions w' = (Return no_results, w1)).
Proof.
  intros Hpol.
  destruct (policy_world w w0 false Hpol) as (He & Hf & Hs & _ & _ & _).
  assert (Hq : cached_transactions w0 = cached_transactions w).
  { unfold cached_transactions. rewrite Hs. reflexivity. }
  assert (Hnext : forall w', selected (cached_transactions w') = [] ->
            forall w1, shouldOperateOffline w' = (Return false, w1) ->
                       transactionAPI.syncOfflineTransactions w' = (Return no_results, w1)).
  { intros w' Hsel w1 Hp1. rewrite syncOfflineTransactions_run, Hp1.
    destruct (policy_world w' w1 false Hp1) as (_ & _ & Hs1 & _).
    unfold cached_transactions in *. rewrite Hs1, Hsel. reflexivity. }
  pose proof (syncOfflineTransactions_run w) as Hrun. rewrite Hpol, Hq in Hrun.
  destruct (selected (cached_transactions w)) as [|t0 sel] eqn:Hsel.
  - exists no_results, w0. split; [exact Hrun|].
    rewrite Hq, Hsel. split; [reflexivity|]. split; [intros t' []|].
    intros _. apply Hnext. rewrite Hq. exact Hsel.
  - rewrite <- Hsel in *. cbv zeta in Hrun.
    set (rqs := map (sync_request (configured_url w0)) (selected (cached_transactions w))) in *.
    set (outs := answers (env w0) (requests w0) rqs) in *.
    assert (Hlen : length outs = length (selected (cached_transactions w))).
    { unfold outs. rewrite answers_length. unfold rqs. apply length_map. }
    eexists. eexists. split; [exact Hrun|].
    change (cached_transactions (after_sync (settle (cached_transactions w) outs) rqs w0))
      with (settle (cached_transactions w) outs).
    cbn [failed].
    split; [rewrite (selected_settle_length _ outs Hlen); reflexivity|].
    split.
    + intros t' Hin.
      destruct (selected_settle_In _ outs t' Hlen Hin) as (t & o & H1 & _ & _ & H4).
      exists t, (failure_message o). split; [exact H1|]. split; [exact H4|].
      rewrite H4. reflexivity.
    + intros Hzero. apply Hnext.
      change (cached_transactions (after_sync (settle (cached_transactions w) outs) rqs w0))
        with (settle (cached_transactions w) outs).
      apply length_zero_iff_nil. rewrite (selected_settle_length _ outs Hlen).
      unfold count in Hzero. lia.
Qed.

Lemma sync_leaves_failed_for_retry_witness :
  exists results w',
    transactionAPI.syncOfflineTransactions server_rejecting_once = (Return results, w') /\
    Z.of_nat (length (selected (cached_transactions w'))) = failed results /\
    (forall t', In t' (selected (cached_transactions w')) ->
                exists t msg, In t (selected (cached_transactions server_rejecting_once)) /\
                              t' = mark_failed msg t /\ syncError t' = VStr msg) /\
    (failed results = 0 ->
     forall w1, shouldOperateOffline w' = (Return false, w1) ->
                transactionAPI.syncOfflineTransactions w' = (Return no_results, w1)).
Proof.
  apply (sync_leaves_failed_for_retry server_rejecting_once
           (with_request (health_probe server_rejecting_once) server_rejecting_once)).
  reflexivity.
Defined.

(** ** Transactions created online *)

(** X16.  A transaction the server accepts is not queued locally: when the
    connectivity policy answered online and the create endpoint answers with a
    2xx status, [create] returns the record the server returned, as it is,
    and the local queue is the one before; the body it posted is the
    transaction with its amounts in cents.  When the 2xx body is the literal
    [null], [create] returns [null] and the balance step is skipped: no
    request follows the submission and nothing is written. *)
Theorem create_online_returns_server_record
    (transactionData : Transaction) (w w0 : World) (r : Response) :
  shouldOperateOffline w = (Return false, w0) ->
  net (env w0) (requests w0) (create_call transactionData w0) = Responded r ->
  ok r = true ->
  create_call transactionData w0
  = PostTransaction (configured_url w) (process_data transactionData) /\
  (forall t, json_transaction r = JsonObject t ->
     exists w' extra,
       transactionAPI.create transactionData w = (Return (Some t), w') /\
       cached_transactions w' = cached_transactions w /\
       requests w' = requests w0 ++ create_call transactionData w0 :: extra /\
       List.filter is_submission extra = []) /\
  (json_transaction r = JsonNull ->
   transactionAPI.create transactionData w
   = (Return None, with_request (create_call transactionData w0) w0) /\
   storage (with_request (create_call transactionData w0) w0) = storage w).
Proof.
  intros Hpol Hnet Hok.
  destruct (policy_world w w0 false Hpol) as (He & Hf & Hs & _ & _ & _).
  assert (Hq : cached_transactions w0 = cached_transactions w).
  { unfold cached_transactions. rewrite Hs. reflexivity. }
  split; [unfold create_call, configured_url; rewrite Hs; reflexivity|].
  pose proof (create_run transactionData w) as Hrun.
  rewrite Hpol, processTransaction_run in Hrun. cbv zeta in Hrun.
  rewrite Hnet, Hok in Hrun.
  split.
  - intros t Ht. rewrite Ht in Hrun.
    set (w1 := with_request (create_call transactionData w0) w0) in *.
    destruct (balance_step_requests t w1) as (extra & Hrq & Hall & _ & _).
    exists (balance_step t w1), extra. split; [exact Hrun|].
    split; [rewrite balance_step_transactions; exact Hq|].
    split; [rewrite Hrq; unfold w1; cbn [requests with_request];
            rewrite <- app_assoc; reflexivity|].
    clear Hrq. induction Hall as [|rq rest Hrq _ IH]; [reflexivity|].
    cbn [List.filter]. destruct Hrq as [-> | ->]; cbn [is_submission]; exact IH.
  - intros Hnull. rewrite Hnull in Hrun. split; [exact Hrun|exact Hs].
Qed.

Lemma create_online_returns_server_record_witness :
  create_call payment (with_request (health_probe server_recording) server_recording)
  = PostTransaction (configured_url server_recording) (process_data payment) /\
  (forall t, json_transaction
               {| http_status := 201; json_customer := Some alice;
                  json_transaction := JsonObject payment_recorded;
                  body_text := EmptyString |} = JsonObject t ->
     exists w' extra,
       transactionAPI.create payment server_recording = (Return (Some t), w') /\
       cached_transactions w' = cached_transactions server_recording /\
       requests w'
       = requests (with_request (health_probe server_recording) server_recording)
         ++ create_call payment
              (with_request (health_probe server_recording) server_recording) :: extra /\
       List.filter is_submission extra = []) /\
  (json_transaction
     {| http_status := 201; json_customer := Some alice;
        json_transaction := JsonObject payment_recorded;
        body_text := EmptyString |} = JsonNull ->
   transactionAPI.create payment server_recording
   = (Return None,
      with_request
        (create_call payment (with_request (health_probe server_recording) server_recording))
        (with_request (health_probe server_recording) server_recording)) /\
   storage (with_request
              (create_call payment
                 (with_request (health_probe server_recording) server_recording))
              (with_request (health_probe server_recording) server_recording))
   = storage server_recording).
Proof.
  apply (create_online_returns_server_record payment server_recording
           (with_request (health_probe server_recording) server_recording)
           {| http_status := 201; json_customer := Some alice;
              json_transaction := JsonObject payment_recorded;
              body_text := EmptyString |}); reflexivity.
Defined.

(** ** Reading the collections (api.js) *)

Lemma transactionAPI_getAll_run (ep : Wire) (w : World) :
  transactionAPI_getAll ep w =
  match shouldOperateOffline w with
  | (Return true, w0) => (Return (cached_transactions w0), w0)
  | (Return false, w0) =>
      let rq := GetTransactions ep (configured_url w0) in
      let w1 := with_request rq w0 in
      match net (env w0) (requests w0) rq with
      | Rejected _ => (Return (cached_transactions w0), w1)
      | Responded r =>
          if ok r then
            match parse_transactions ep (body_text r) with
            | Some l => (Return l, snd (setTransactionsItem l w1))
            | None => (Return (cached_transactions w0), w1)
            end
          else (Return (cached_transactions w0), w1)
      end
  | (Throw e, w0) => (Throw e, w0)
  end.
Proof.
  unfold transactionAPI_getAll, bind at 1.
  destruct (shouldOperateOffline w) as [[[|]|e] w0]; try reflexivity.
  unfold try_catch, bind at 1. rewrite getApiUrl_run.
  unfold bind at 1, fetch.
  destruct (net (env w0) (requests w0) (GetTransactions ep (configured_url w0))) as [msg|r];
    [reflexivity|].
  cbv zeta. fold (with_request (GetTransactions ep (configured_url w0)) w0).
  destruct (ok r); [|reflexivity].
  cbn [negb]. unfold bind, transactions_json.
  destruct (parse_transactions ep (body_text r)); reflexivity.
Qed.

Lemma customerAPI_getAll_run (ep : Wire) (w : World) :
  customerAPI_getAll ep w =
  match shouldOperateOffline w with
  | (Return true, w0) => (Return (cached_customers w0), w0)
  | (Return false, w0) =>
      let rq := GetCustomers ep (configured_url w0) in
      let w1 := with_request rq w0 in
      match net (env w0) (requests w0) rq with
      | Rejected _ => (Return (cached_customers w0), w1)
      | Responded r =>
          if ok r then
            match parse_customers ep (body_text r) with
            | Some l =>
                (Return l,
                 snd (setCardIndexItem (index_by_card l ∅) (snd (setCustomersItem l w1))))
            | None => (Return (cached_customers w0), w1)
            end
          else (Return (cached_customers w0), w1)
      end
  | (Throw e, w0) => (Throw e, w0)
  end.
Proof.
  unfold customerAPI_getAll, bind at 1.
  destruct (shouldOperateOffline w) as [[[|]|e] w0]; try reflexivity.
  unfold try_catch, bind at 1. rewrite getApiUrl_run.
  unfold bind at 1, fetch.
  destruct (net (env w0) (requests w0) (GetCustomers ep (configured_url w0))) as [msg|r];
    [reflexivity|].
  cbv zeta. fold (with_request (GetCustomers ep (configured_url w0)) w0).
  destruct (ok r); [|reflexivity].
  cbn [negb]. unfold bind, customers_json.
  destruct (parse_customers ep (body_text r)); reflexivity.
Qed.

(** X17.  A successful [transactionAPI.getAll] replaces the offline queue:
    when the policy answered online and the list endpoint answers 2xx with a
    list, that list is returned and written over the cached collection, so the
    queue is then exactly the server's list.  A transaction that was queued
    offline and is not in the server's list is gone: the next sync pass does
    not select it, and [getOfflineTransactionById] no longer finds it unless
    the list holds a record of the same id.  The customer cache is not
    touched. *)
Theorem transactions_getAll_replaces_queue
    (ep : Wire) (w w0 : World) (r : Response) (l : list Transaction) :
  shouldOperateOffline w = (Return false, w0) ->
  net (env w0) (requests w0) (GetTransactions ep (configured_url w0)) = Responded r ->
  ok r = true ->
  parse_transactions ep (body_text r) = Some l ->
  exists w',
    transactionAPI_getAll ep w = (Return l, w') /\
    cached_transactions w' = l /\
    writes w' = writes w ++ [OFFLINE_TRANSACTIONS_KEY] /\
    selected (cached_transactions w') = selected l /\
    (forall t, In t (selected (cached_transactions w)) -> ~ In t l ->
               ~ In t (selected (cached_transactions w'))) /\
    (forall tid,
        transactionAPI_getOfflineTransactionById tid w'
        = (Return (List.find (fun t => strict_eq (transactionId t) tid) l), w')) /\
    cached_customers w' = cached_customers w /\
    card_index w' = card_index w.
Proof.
  intros Hpol Hnet Hok Hparse.
  destruct (policy_world w w0 false Hpol) as (He & Hf & Hs & _ & _ & _).
  pose proof (shouldOperateOffline_frame w) as (_ & Hwr & _).
  rewrite Hpol in Hwr. cbn [snd] in Hwr.
  pose proof (transactionAPI_getAll_run ep w) as Hrun.
  rewrite Hpol in Hrun. cbv zeta in Hrun. rewrite Hnet, Hok, Hparse in Hrun.
  eexists. split; [exact Hrun|].
  split; [reflexivity|].
  split; [cbn; rewrite Hwr; reflexivity|].
  split; [reflexivity|].
  split.
  { intros t _ Hnot Hin. apply Hnot. apply List.filter_In in Hin. apply Hin. }
  split; [intros tid; reflexivity|].
  unfold cached_customers, card_index. cbn. rewrite Hs. split; reflexivity.
Qed.

Lemma transactions_getAll_replaces_queue_witness :
  exists w',
    transactionAPI_getAll sample_wire
      (world_of (sample_env net_listing) false alice_and_payment)
    = (Return [payment_recorded], w') /\
    cached_transactions w' = [payment_recorded] /\
    writes w' = writes (world_of (sample_env net_listing) false alice_and_payment)
                ++ [OFFLINE_TRANSACTIONS_KEY] /\
    selected (cached_transactions w') = selected [payment_recorded] /\
    (forall t,
        In t (selected (cached_transactions
                          (world_of (sample_env net_listing) false alice_and_payment))) ->
        ~ In t [payment_recorded] ->
        ~ In t (selected (cached_transactions w'))) /\
    (forall tid,
        transactionAPI_getOfflineTransactionById tid w'
        = (Return (List.find (fun t => strict_eq (transactionId t) tid) [payment_recorded]),
           w')) /\
    cached_customers w'
    = cached_customers (world_of (sample_env net_listing) false alice_and_payment) /\
    card_index w' = card_index (world_of (sample_env net_listing) false alice_and_payment).
Proof.
  apply (transactions_getAll_replaces_queue sample_wire
           (world_of (sample_env net_listing) false alice_and_payment)
           (with_request
              (health_probe (world_of (sample_env net_listing) false alice_and_payment))
              (world_of (sample_env net_listing) false alice_and_payment))
           {| http_status := 200; json_customer := None; json_transaction := JsonFails;
              body_text := "[payment_recorded]" |}
           [payment_recorded]); reflexivity.
Defined.

Lemma index_by_card_lookup (l : list Customer) :
  forall (m : gmap string Customer) (card : string),
    index_by_card l m !! card =
    match List.find (has_card card) (rev l) with
    | Some c => Some c
    | None => m !! card
    end.
Proof.
  induction l as [|a l IH]; intros m card; [reflexivity|].
  cbn [index_by_card rev]. rewrite IH, find_snoc.
  destruct (List.find (has_card card) (rev l)); [reflexivity|].
  unfold has_card. destruct (cardId a) as [k|]; [|reflexivity].
  destruct (String.eqb_spec k "") as [->|Hk]; [reflexivity|].
  cbn [negb andb]. destruct (String.eqb_spec k card) as [->|Hne].
  - apply lookup_insert_eq.
  - apply lookup_insert_ne. exact Hne.
Qed.

Lemma has_card_spec (card : string) (c : Customer) :
  has_card card c = true <-> cardId c = Some card /\ card <> "".
Proof.
  unfold has_card. destruct (cardId c) as [k|].
  - destruct (String.eqb_spec k "") as [->|Hk]; cbn [negb andb].
    + split; [discriminate|]. intros [H Hne]. injection H as <-. contradiction.
    + destruct (String.eqb_spec k card) as [->|Hne].
      * split; [intros _; split; [reflexivity|exact Hk]|reflexivity].
      * split; [discriminate|]. intros [H _]. injection H as ->. contradiction.
  - split; [discriminate|]. intros [H _]. discriminate.
Qed.

(** X18.  A successful [customerAPI.getAll] replaces the customer cache and
    rebuilds the card-id index from nothing: the cached collection is then the
    server's list, and the index holds, for each non-empty card id of the
    list, the last customer of the list with that card id, and nothing else.
    Every index entry is therefore a customer of the collection filed under
    its own card id, and a card id that no customer of the list carries (a
    stale entry of the old index) no longer resolves.  The transaction queue
    is not touched. *)
Theorem customers_getAll_rebuilds_index
    (ep : Wire) (w w0 : World) (r : Response) (l : list Customer) :
  shouldOperateOffline w = (Return false, w0) ->
  net (env w0) (requests w0) (GetCustomers ep (configured_url w0)) = Responded r ->
  ok r = true ->
  parse_customers ep (body_text r) = Some l ->
  exists w',
    customerAPI_getAll ep w = (Return l, w') /\
    cached_customers w' = l /\
    writes w' = writes w ++ [OFFLINE_CUSTOMERS_KEY; OFFLINE_CUSTOMERS_BY_CARD_KEY] /\
    (forall card, card_index w' !! card = List.find (has_card card) (rev l)) /\
    (forall card c, card_index w' !! card = Some c ->
                    In c (cached_customers w') /\ cardId c = Some card /\ card <> "") /\
    (forall card c, In c l -> cardId c = Some card -> card <> "" ->
                    exists c', customerAPI.getOfflineCustomerByCardId card w'
                               = (Return (Some c'), w') /\ cardId c' = Some card) /\
    (forall card, (forall c, In c l -> cardId c <> Some card) ->
                  customerAPI.getOfflineCustomerByCardId card w' = (Return None, w')) /\
    cached_transactions w' = cached_transactions w.
Proof.
  intros Hpol Hnet Hok Hparse.
  destruct (policy_world w w0 false Hpol) as (He & Hf & Hs & _ & _ & _).
  pose proof (shouldOperateOffline_frame w) as (_ & Hwr & _).
  rewrite Hpol in Hwr. cbn [snd] in Hwr.
  pose proof (customerAPI_getAll_run ep w) as Hrun.
  rewrite Hpol in Hrun. cbv zeta in Hrun. rewrite Hnet, Hok, Hparse in Hrun.
  eexists. split; [exact Hrun|].
  set (w' := snd (setCardIndexItem (index_by_card l ∅) (snd (setCustomersItem l _)))).
  assert (Hidx : forall card, card_index w' !! card = List.find (has_card card) (rev l)).
  { intros card. change (card_index w') with (index_by_card l ∅).
    rewrite index_by_card_lookup. destruct (List.find _ _); [reflexivity|].
    apply lookup_empty. }
  split; [reflexivity|].
  split; [cbn; rewrite Hwr, <- app_assoc; reflexivity|].
  split; [exact Hidx|].
  split.
  { intros card c Hc. rewrite Hidx in Hc. apply List.find_some in Hc as [Hin Hhas].
    apply has_card_spec in Hhas. split; [|exact Hhas].
    change (cached_customers w') with l. apply in_rev. exact Hin. }
  split.
  { intros card c Hin Hcard Hne. rewrite getOfflineCustomerByCardId_run, Hidx.
    destruct (List.find (has_card card) (rev l)) as [c'|] eqn:Hfind.
    - exists c'. split; [reflexivity|].
      apply List.find_some in Hfind as [_ Hhas]. apply has_card_spec in Hhas. apply Hhas.
    - exfalso. apply in_rev in Hin.
      pose proof (List.find_none _ _ Hfind c Hin) as Hno.
      assert (Hyes : has_card card c = true) by (apply has_card_spec; auto).
      congruence. }
  split.
  { intros card Hnone. rewrite getOfflineCustomerByCardId_run, Hidx.
    destruct (List.find (has_card card) (rev l)) as [c'|] eqn:Hfind; [|reflexivity].
    exfalso. apply List.find_some in Hfind as [Hin Hhas]. apply has_card_spec in Hhas.
    apply (Hnone c'); [apply in_rev; exact Hin|apply Hhas]. }
  unfold cached_transactions. cbn. rewrite Hs. reflexivity.
Qed.

Lemma customers_getAll_rebuilds_index_witness :
  exists w',
    customerAPI_getAll sample_wire (world_of (sample_env net_listing) false alice_and_payment)
    = (Return [bob; alice_new_card], w') /\
    cached_customers w' = [bob; alice_new_card] /\
    writes w' = writes (world_of (sample_env net_listing) false alice_and_payment)
                ++ [OFFLINE_CUSTOMERS_KEY; OFFLINE_CUSTOMERS_BY_CARD_KEY] /\
    (forall card, card_index w' !! card
                  = List.find (has_card card) (rev [bob; alice_new_card])) /\
    (forall card c, card_index w' !! card = Some c ->
                    In c (cached_customers w') /\ cardId c = Some card /\ card <> "") /\
    (forall card c, In c [bob; alice_new_card] -> cardId c = Some card -> card <> "" ->
                    exists c', customerAPI.getOfflineCustomerByCardId card w'
                               = (Return (Some c'), w') /\ cardId c' = Some card) /\
    (forall card, (forall c, In c [bob; alice_new_card] -> cardId c <> Some card) ->
                  customerAPI.getOfflineCustomerByCardId card w' = (Return None, w')) /\
    cached_transactions w'
    = cached_transactions (world_of (sample_env net_listing) false alice_and_payment).
Proof.
  apply (customers_getAll_rebuilds_index sample_wire
           (world_of (sample_env net_listing) false alice_and_payment)
           (with_request
              (health_probe (world_of (sample_env net_listing) false alice_and_payment))
              (world_of (sample_env net_listing) false alice_and_payment))
           {| http_status := 200; json_customer := None; json_transaction := JsonFails;
              body_text := "[bob,alice_new_card]" |}
           [bob; alice_new_card]); reflexivity.
Defined.

(** ** Reads never throw *)

Lemma returns_ret {A} (a : A) : returns (ret a).
Proof. intros w. exists a, w. reflexivity. Qed.




Lemma read_only_ret {A} (a : A) : read_only (ret a).
Proof. intros w. split; reflexivity. Qed.










(** X20.  When the server is reachable but a list endpoint fails, that is
    the fetch is rejected or the answer has a status outside 200..299,
    [getAll] of either repository answers with the cached collection and
    leaves the storage exactly as it was, without a write: a refresh that the
    server refuses never clears or truncates the cache. *)
Theorem getAll_failure_keeps_cache (ep : Wire) (w w0 : World) :
  shouldOperateOffline w = (Return false, w0) ->
  (forall r, net (env w0) (requests w0) (GetCustomers ep (configured_url w0)) = Responded r ->
             ok r = false) ->
  (forall r, net (env w0) (requests w0) (GetTransactions ep (configured_url w0)) = Responded r ->
             ok r = false) ->
  customerAPI_getAll ep w
  = (Return (cached_customers w), with_request (GetCustomers ep (configured_url w0)) w0) /\
  transactionAPI_getAll ep w
  = (Return (cached_transactions w), with_request (GetTransactions ep (configured_url w0)) w0) /\
  storage (snd (customerAPI_getAll ep w)) = storage w /\
  storage (snd (transactionAPI_getAll ep w)) = storage w /\
  writes (snd (customerAPI_getAll ep w)) = writes w /\
  writes (snd (transactionAPI_getAll ep w)) = writes w.
Proof.
  intros Hpol Hc Ht.
  destruct (policy_world w w0 false Hpol) as (He & Hf & Hs & _ & _ & _).
  pose proof (shouldOperateOffline_frame w) as (_ & Hwr & _).
  rewrite Hpol in Hwr. cbn [snd] in Hwr.
  assert (Hcc : cached_customers w0 = cached_customers w).
  { unfold cached_customers. rewrite Hs. reflexivity. }
  assert (Hct : cached_transactions w0 = cached_transactions w).
  { unfold cached_transactions. rewrite Hs. reflexivity. }
  assert (H1 : customerAPI_getAll ep w
               = (Return (cached_customers w),
                  with_request (GetCustomers ep (configured_url w0)) w0)).
  { rewrite customerAPI_getAll_run, Hpol. cbv zeta. rewrite Hcc.
    destruct (net (env w0) (requests w0) (GetCustomers ep (configured_url w0)))
      as [msg|r] eqn:Hnet; [reflexivity|].
    rewrite (Hc r eq_refl). reflexivity. }
  assert (H2 : transactionAPI_getAll ep w
               = (Return (cached_transactions w),
                  with_request (GetTransactions ep (configured_url w0)) w0)).
  { rewrite transactionAPI_getAll_run, Hpol. cbv zeta. rewrite Hct.
    destruct (net (env w0) (requests w0) (GetTransactions ep (configured_url w0)))
      as [msg|r] eqn:Hnet; [reflexivity|].
    rewrite (Ht r eq_refl). reflexivity. }
  rewrite H1, H2. cbn [snd with_request storage writes].
  split_and!; try reflexivity; assumption.
Qed.

Lemma getAll_failure_keeps_cache_witness :
  customerAPI_getAll sample_wire (world_of (sample_env net_reads_failing) false alice_and_payment)
  = (Return (cached_customers (world_of (sample_env net_reads_failing) false alice_and_payment)),
     with_request
       (GetCustomers sample_wire
          (configured_url
             (with_request
                (health_probe (world_of (sample_env net_reads_failing) false alice_and_payment))
                (world_of (sample_env net_reads_failing) false alice_and_payment))))
       (with_request
          (health_probe (world_of (sample_env net_reads_failing) false alice_and_payment))
          (world_of (sample_env net_reads_failing) false alice_and_payment))) /\
  transactionAPI_getAll sample_wire
    (world_of (sample_env net_reads_failing) false alice_and_payment)
  = (Return (cached_transactions
               (world_of (sample_env net_reads_failing) false alice_and_payment)),
     with_request
       (GetTransactions sample_wire
          (configured_url
             (with_request
                (health_probe (world_of (sample_env net_reads_failing) false alice_and_payment))
                (world_of (sample_env net_reads_failing) false alice_and_payment))))
       (with_request
          (health_probe (world_of (sample_env net_reads_failing) false alice_and_payment))
          (world_of (sample_env net_reads_failing) false alice_and_payment))) /\
  storage (snd (customerAPI_getAll sample_wire
                  (world_of (sample_env net_reads_failing) false alice_and_payment)))
  = storage (world_of (sample_env net_reads_failing) false alice_and_payment) /\
  storage (snd (transactionAPI_getAll sample_wire
                  (world_of (sample_env net_reads_failing) false alice_and_payment)))
  = storage (world_of (sample_env net_reads_failing) false alice_and_payment) /\
  writes (snd (customerAPI_getAll sample_wire
                 (world_of (sample_env net_reads_failing) false alice_and_payment)))
  = writes (world_of (sample_env net_reads_failing) false alice_and_payment) /\
  writes (snd (transactionAPI_getAll sample_wire
                 (world_of (sample_env net_reads_failing) false alice_and_payment)))
  = writes (world_of (sample_env net_reads_failing) false alice_and_payment).
Proof.
  apply (getAll_failure_keeps_cache sample_wire
           (world_of (sample_env net_reads_failing) false alice_and_payment)
           (with_request
              (health_probe (world_of (sample_env net_reads_failing) false alice_and_payment))
              (world_of (sample_env net_reads_failing) false alice_and_payment))).
  - reflexivity.
  - intros r H. injection H as <-. reflexivity.
  - intros r H. injection H as <-. reflexivity.
Defined.

(** ** Puts in flight *)

Lemma run_task_ReadCustomers (customer : Customer) (w : World) :
  run_task (ReadCustomers customer) w = cache_run customer w.
Proof. reflexivity. Qed.

Lemma run_in_flight_with_put (t : CacheTask) (w : World) :
  run_in_flight (with_put t w) = run_task t (run_in_flight w).
Proof. unfold run_in_flight. cbn [in_flight with_put]. rewrite fold_left_app. reflexivity. Qed.

Lemma run_in_flight_none (w : World) :
  in_flight w = [] ->
  storage (run_in_flight w) = storage w /\ requests (run_in_flight w) = requests w /\
  offlineMode (run_in_flight w) = offlineMode w /\ env (run_in_flight w) = env w.
Proof. intros H. unfold run_in_flight. rewrite H. repeat split. Qed.



(** X21.  What [getByCardId] returns becomes available offline.  The put
    that caches a customer fetched from the server is started, not awaited:
    when [getByCardId(card)] returns, the storage is the one before the call.
    If no other put was in flight and the customer returned has the card id
    [card], then once the put has run the cache lookup by that card id
    returns the same customer, and so does [getByCardId(card)] once the
    manual offline mode is set, without any request. *)
Theorem fetched_customer_available_offline
    (card : string) (w w1 : World) (c : Customer) :
  customerAPI.getByCardId card w = (Return (Some c), w1) ->
  cardId c = Some card -> card <> "" ->
  in_flight w = [] ->
  storage w1 = storage w /\ writes w1 = writes w /\
  (in_flight w1 = [] \/ in_flight w1 = [ReadCustomers c]) /\
  customerAPI.getOfflineCustomerByCardId card (run_in_flight w1)
  = (Return (Some c), run_in_flight w1) /\
  customerAPI.getByCardId card (snd (setOfflineMode true (run_in_flight w1)))
  = (Return (Some c), snd (setOfflineMode true (run_in_flight w1))).
Proof.
  intros Hget Hcard Hne Hnone.
  assert (Hcache : forall w', storage w' = storage w -> writes w' = writes w ->
                              in_flight w' = [] ->
                              card_index w !! card = Some c ->
    storage w' = storage w /\ writes w' = writes w /\
    (in_flight w' = [] \/ in_flight w' = [ReadCustomers c]) /\
    card_index (run_in_flight w') !! card = Some c).
  { intros w' Hs Hw Hf Hidx. split; [exact Hs|]. split; [exact Hw|]. split; [left; exact Hf|].
    unfold card_index. destruct (run_in_flight_none w' Hf) as (-> & _). rewrite Hs.
    exact Hidx. }
  assert (H : storage w1 = storage w /\ writes w1 = writes w /\
              (in_flight w1 = [] \/ in_flight w1 = [ReadCustomers c]) /\
              card_index (run_in_flight w1) !! card = Some c).
  { rewrite getByCardId_run in Hget. cbv zeta in Hget.
    destruct (offlineMode w).
    { injection Hget as Hc <-. apply Hcache; auto. }
    destruct (net (env w) (requests w) (health_probe w)) as [msg|probe].
    { injection Hget as Hc <-. apply Hcache; auto. }
    destruct (ok probe).
    2:{ injection Hget as Hc <-. apply Hcache; auto. }
    destruct (net (env w) _ (GetCustomerByCard (configured_url w) card)) as [msg|r].
    { injection Hget as Hc <-. apply Hcache; auto. }
    destruct (ok r).
    2:{ injection Hget as Hc <-. apply Hcache; auto. }
    destruct (json_customer r) as [customer|].
    2:{ injection Hget as Hc <-. apply Hcache; auto. }
    injection Hget as -> <-.
    split; [reflexivity|]. split; [reflexivity|].
    split; [right; cbn; rewrite Hnone; reflexivity|].
    rewrite run_in_flight_with_put, run_task_ReadCustomers.
    apply put_card_index_own; assumption. }
  destruct H as (Hs & Hw & Hf & Hidx).
  split; [exact Hs|]. split; [exact Hw|]. split; [exact Hf|].
  split.
  - rewrite getOfflineCustomerByCardId_run, Hidx. reflexivity.
  - rewrite getByCardId_run. cbn [snd setOfflineMode setOfflineModeItem offlineMode set_storage].
    change (card_index _ !! card) with (card_index (run_in_flight w1) !! card).
    rewrite Hidx. reflexivity.
Qed.

Lemma fetched_customer_available_offline_witness :
  storage (snd (customerAPI.getByCardId "04A1B2C3" server_recording))
  = storage server_recording /\
  writes (snd (customerAPI.getByCardId "04A1B2C3" server_recording))
  = writes server_recording /\
  (in_flight (snd (customerAPI.getByCardId "04A1B2C3" server_recording)) = [] \/
   in_flight (snd (customerAPI.getByCardId "04A1B2C3" server_recording))
   = [ReadCustomers alice]) /\
  customerAPI.getOfflineCustomerByCardId "04A1B2C3"
    (run_in_flight (snd (customerAPI.getByCardId "04A1B2C3" server_recording)))
  = (Return (Some alice),
     run_in_flight (snd (customerAPI.getByCardId "04A1B2C3" server_recording))) /\
  customerAPI.getByCardId "04A1B2C3"
    (snd (setOfflineMode true
            (run_in_flight (snd (customerAPI.getByCardId "04A1B2C3" server_recording)))))
  = (Return (Some alice),
     snd (setOfflineMode true
            (run_in_flight (snd (customerAPI.getByCardId "04A1B2C3" server_recording))))).
Proof.
  apply (fetched_customer_available_offline "04A1B2C3" server_recording
           (snd (customerAPI.getByCardId "04A1B2C3" server_recording)) alice);
    (reflexivity || discriminate).
Defined.

(** ** The write side of the customer repository, online *)







(** ** Amounts *)

(** X24.  [amountToCents] keeps the order of amounts: a larger amount
    never converts to fewer cents.  On anything but a number it answers 0. *)
Theorem amountToCents_monotone (a b : Q) :
  (a <= b)%Q ->
  (amountToCents (VNum a) <= amountToCents (VNum b))%Q /\
  (forall v, is_number v = false -> amountToCents v = 0%Q /\ centsToAmount v = 0%Q).
Proof.
  intros Hab. split.
  - unfold amountToCents, Math_round. rewrite <- Zle_Qle. apply Qfloor_resp_le. lra.
  - intros v Hv. destruct v; try discriminate; split; reflexivity.
Qed.

Lemma amountToCents_monotone_witness :
  (amountToCents (VNum (1999 # 100)) <= amountToCents (VNum 20))%Q /\
  (forall v, is_number v = false -> amountToCents v = 0%Q /\ centsToAmount v = 0%Q).
Proof.
  apply (amountToCents_monotone (1999 # 100) 20). vm_compute. discriminate.
Defined.

Lemma to_cents_integral (v : value) :
  is_number v = true -> exists n : Z, to_cents v = VNum (inject_Z n).
Proof.
  destruct v as [| | |q|]; try discriminate. intros _.
  exists (Math_round (q * 100)). reflexivity.
Qed.

(** X25.  The conversion [create] applies before it stores or posts a
    transaction changes amounts only: a numeric [amount] becomes a whole
    number of cents, a non-numeric one is kept; the items keep their number,
    order, description and quantity, and their numeric [unitPrice] and
    [amount] become whole cents; the customer, the card, the type and every
    other property ([transactionId], [status], [offlineCreated], [synced],
    [syncError], [createdAt]) are those given. *)
Theorem process_data_converts_amounts_only (transactionData : Transaction) :
  amount (process_data transactionData) = to_cents (amount transactionData) /\
  (is_number (amount transactionData) = true ->
   exists n : Z, amount (process_data transactionData) = VNum (inject_Z n)) /\
  (is_number (amount transactionData) = false ->
   amount (process_data transactionData) = amount transactionData) /\
  items (process_data transactionData)
  = option_map (map process_item) (items transactionData) /\
  (forall l, items transactionData = Some l ->
     exists l', items (process_data transactionData) = Some l' /\
                length l' = length l /\
                map description l' = map description l /\
                map quantity l' = map quantity l /\
                map unitPrice l' = map (fun x => to_cents (unitPrice x)) l /\
                map itemAmount l' = map (fun x => to_cents (itemAmount x)) l) /\
  transactionId (process_data transactionData) = transactionId transactionData /\
  customerId (process_data transactionData) = customerId transactionData /\
  txCardId (process_data transactionData) = txCardId transactionData /\
  type (process_data transactionData) = type transactionData /\
  status (process_data transactionData) = status transactionData /\
  offlineCreated (process_data transactionData) = offlineCreated transactionData /\
  synced (process_data transactionData) = synced transactionData /\
  syncError (process_data transactionData) = syncError transactionData /\
  createdAt (process_data transactionData) = createdAt transactionData.
Proof.
  destruct transactionData as [tid cid card ty am its st oc sy se ca].
  unfold process_data. cbn [items set_amount].
  destruct its as [l|]; cbn [items set_items set_amount amount transactionId customerId
                               txCardId type status offlineCreated synced syncError
                               createdAt option_map].
  - split; [reflexivity|].
    split; [apply to_cents_integral|].
    split; [intros Hn; unfold to_cents; rewrite Hn; reflexivity|].
    split; [reflexivity|].
    split; [|repeat split].
    intros l0 H. injection H as <-. eexists. split; [reflexivity|].
    rewrite length_map, !List.map_map. repeat split.
  - split; [reflexivity|].
    split; [apply to_cents_integral|].
    split; [intros Hn; unfold to_cents; rewrite Hn; reflexivity|].
    split; [reflexivity|].
    split; [|repeat split].
    intros l0 H. discriminate.
Qed.
